(** * AI-Symptom-Whisperer: the counselling pipeline of [backend/]

    A shallow embedding of [backend/utils/therapy_prompts.py] (the prompt
    library, the prompt composer and the crisis classifier) and of
    [backend/services/chat_service.py] (the conversation orchestrator),
    followed by the properties of the specification that concern them.

    Conventions.
    - A Python [str] is a Rocq [string]: the UTF-8 bytes of the text.  Python's
      [a in b] on two strings is containment of code-point sequences, which
      for UTF-8 text is containment of the byte sequences.
    - [str.lower] is a parameter [lower] of the development: its Unicode
      tables are not part of the repository.  [ascii_lower] is what it
      computes on ASCII text.
    - The wall clock, the random source and the generation backend are
      inputs of the operations that read them.
    - Exceptions are values: code that can raise returns a [result]. *)

From stdpp Require Import gmap strings list pretty.
From Stdlib Require Import Ascii String ZArith.

#[local] Set Warnings "-register-all".
#[local] Open Scope string_scope.

(** ** Python strings *)

Module PyStr.

(** [s.startswith(p)] *)
Fixpoint starts_with (p s : string) : bool :=
  match p, s with
  | EmptyString, _ => true
  | String _ _, EmptyString => false
  | String a p', String b s' => Ascii.eqb a b && starts_with p' s'
  end.

(** [k in s] for two strings: [k] occurs in [s] at some offset. *)
Fixpoint str_in (k s : string) : bool :=
  starts_with k s ||
  match s with
  | EmptyString => false
  | String _ s' => str_in k s'
  end.

(** The relation [str_in] decides. *)
Definition substring (k s : string) : Prop :=
  exists pre post : string, s = pre ++ k ++ post.

(** [any(k in s for k in ks)] *)
Definition any_in (ks : list string) (s : string) : bool :=
  existsb (fun k => str_in k s) ks.

Definition lower_char (c : ascii) : ascii :=
  let n := nat_of_ascii c in
  if (65 <=? n)%nat && (n <=? 90)%nat then ascii_of_nat (n + 32) else c.

(** [str.lower] on ASCII text. *)
Fixpoint ascii_lower (s : string) : string :=
  match s with
  | EmptyString => EmptyString
  | String c s' => String (lower_char c) (ascii_lower s')
  end.

Definition is_ascii_char (c : ascii) : bool := (nat_of_ascii c <? 128)%nat.

Fixpoint is_ascii (s : string) : bool :=
  match s with
  | EmptyString => true
  | String c s' => is_ascii_char c && is_ascii s'
  end.

Definition newline : string := String (ascii_of_nat 10) EmptyString.

(** The text of a triple-quoted literal: every line followed by a line
    break. *)
Fixpoint lines (ls : list string) : string :=
  match ls with
  | [] => EmptyString
  | l :: ls' => l ++ newline ++ lines ls'
  end.

End PyStr.
Import PyStr.

(** ** Exceptions

    The classes of [Exception] the embedded code raises or names in a
    handler; [OtherException] is any further class of [Exception] the host
    may raise.  Interrupts, which derive from [BaseException] only, are not
    modelled.  [OutsideFragment] is no Python class: it marks a construct
    whose behaviour the embedding leaves open (see [Format]), and no handler
    catches it. *)

Inductive exn_class :=
| AttributeError
| KeyError
| ValueError
| IndexError
| TypeError
| RequestException
| OtherException
| OutsideFragment.

Record exn := Exn { exn_cls : exn_class; exn_msg : string }.

Inductive result (A : Type) :=
| Ok (a : A)
| Raise (e : exn).
Arguments Ok {A} a.
Arguments Raise {A} e.

Definition exn_class_eqb (a b : exn_class) : bool :=
  match a, b with
  | AttributeError, AttributeError | KeyError, KeyError
  | ValueError, ValueError | IndexError, IndexError
  | TypeError, TypeError | RequestException, RequestException
  | OtherException, OtherException | OutsideFragment, OutsideFragment => true
  | _, _ => false
  end.

Module Result.

Definition bind {A B} (m : result A) (f : A -> result B) : result B :=
  match m with
  | Ok a => f a
  | Raise e => Raise e
  end.

(** [try: body  except (classes): handler] *)
Definition try_except {A} (body : result A) (classes : list exn_class)
    (handler : exn -> result A) : result A :=
  match body with
  | Ok a => Ok a
  | Raise e =>
      if existsb (exn_class_eqb (exn_cls e)) classes then handler e
      else Raise e
  end.

End Result.

Declare Scope result_scope.
Delimit Scope result_scope with result.
Notation "x <- m ;; k" := (Result.bind m (fun x => k))
  (at level 100, m at next level, right associativity) : result_scope.

(** ** The enumerations of [therapy_prompts.py] *)

Inductive TherapyApproach :=
| CBT | DBT | HUMANISTIC | SOLUTION_FOCUSED | MINDFULNESS | CRISIS_INTERVENTION.

Inductive EmotionalState :=
| NEUTRAL | ANXIOUS | DEPRESSED | ANGRY | OVERWHELMED | HOPEFUL | CRISIS.

Definition approach_value (a : TherapyApproach) : string :=
  match a with
  | CBT => "cognitive_behavioral_therapy"
  | DBT => "dialectical_behavior_therapy"
  | HUMANISTIC => "humanistic_therapy"
  | SOLUTION_FOCUSED => "solution_focused_therapy"
  | MINDFULNESS => "mindfulness_based_therapy"
  | CRISIS_INTERVENTION => "crisis_intervention"
  end.

Definition emotion_value (e : EmotionalState) : string :=
  match e with
  | NEUTRAL => "neutral"
  | ANXIOUS => "anxious"
  | DEPRESSED => "depressed"
  | ANGRY => "angry"
  | OVERWHELMED => "overwhelmed"
  | HOPEFUL => "hopeful"
  | CRISIS => "crisis"
  end.

Definition approach_eqb (a b : TherapyApproach) : bool :=
  String.eqb (approach_value a) (approach_value b).

Definition emotion_eqb (a b : EmotionalState) : bool :=
  String.eqb (emotion_value a) (emotion_value b).

(** ** [str.format( **kwargs)]

    The replacement-field fragment the prompt library uses: literal text,
    the escapes [{{] and [}}], and fields [{name}] looked up among the
    keyword arguments, whose values are strings.  A field that is empty or a
    number is positional; [get_prompt] passes no positional argument.  A
    field with an attribute ([.]), an index ([[]), a conversion ([!]), a
    format specification ([:]) or a nested brace lies outside the fragment
    and is reported by [OutsideFragment], which is no Python class and which
    no handler of the embedded code catches. *)

Module Format.

Definition open_brace : ascii := "{"%char.
Definition close_brace : ascii := "}"%char.

Definition is_digit (c : ascii) : bool :=
  let n := nat_of_ascii c in (48 <=? n)%nat && (n <=? 57)%nat.

Fixpoint all_digits (s : string) : bool :=
  match s with
  | EmptyString => true
  | String c s' => is_digit c && all_digits s'
  end.

Definition field_char_ok (c : ascii) : bool :=
  negb (Ascii.eqb c "."%char || Ascii.eqb c "["%char
        || Ascii.eqb c "!"%char || Ascii.eqb c ":"%char
        || Ascii.eqb c open_brace).

Fixpoint field_name_ok (s : string) : bool :=
  match s with
  | EmptyString => true
  | String c s' => field_char_ok c && field_name_ok s'
  end.

(** The value a replacement field stands for. *)
Definition get_field (kwargs : gmap string string) (name : string)
    : result string :=
  if negb (field_name_ok name) then
    Raise (Exn OutsideFragment name)
  else if all_digits name then
    Raise (Exn IndexError
             "Replacement index out of range for positional args tuple")
  else
    match kwargs !! name with
    | Some v => Ok v
    | None => Raise (Exn KeyError ("'" ++ name ++ "'"))
    end.

(** Where the pass over the template stands: in literal text, behind
    an opening brace, behind a closing brace met in literal text, or
    inside a replacement field whose name so far is [acc]. *)
Inductive state :=
| Text
| AfterOpen
| AfterClose
| Field (acc : string).

(** One left-to-right pass, a character at a time. *)
Fixpoint format_from (kwargs : gmap string string) (t : string)
    (st : state) : result string :=
  match t with
  | EmptyString =>
      match st with
      | Text => Ok EmptyString
      | AfterOpen =>
          Raise (Exn ValueError "Single '{' encountered in format string")
      | AfterClose =>
          Raise (Exn ValueError "Single '}' encountered in format string")
      | Field _ =>
          Raise (Exn ValueError "expected '}' before end of string")
      end
  | String c r =>
      match st with
      | Text =>
          if Ascii.eqb c open_brace then format_from kwargs r AfterOpen
          else if Ascii.eqb c close_brace then
            format_from kwargs r AfterClose
          else
            (rest <- format_from kwargs r Text ;;
             Ok (String c rest))%result
      | AfterOpen =>
          if Ascii.eqb c open_brace then
            (rest <- format_from kwargs r Text ;;
             Ok (String open_brace rest))%result
          else if Ascii.eqb c close_brace then
            (v <- get_field kwargs EmptyString ;;
             rest <- format_from kwargs r Text ;;
             Ok (v ++ rest))%result
          else format_from kwargs r (Field (String c EmptyString))
      | AfterClose =>
          if Ascii.eqb c close_brace then
            (rest <- format_from kwargs r Text ;;
             Ok (String close_brace rest))%result
          else
            Raise (Exn ValueError
                     "Single '}' encountered in format string")
      | Field acc =>
          if Ascii.eqb c close_brace then
            (v <- get_field kwargs acc ;;
             rest <- format_from kwargs r Text ;;
             Ok (v ++ rest))%result
          else format_from kwargs r (Field (acc ++ String c EmptyString))
      end
  end.

(** [template.format( **kwargs)] *)
Definition format (template : string) (kwargs : gmap string string)
    : result string :=
  format_from kwargs template Text.

(** Text without braces: [format] leaves it as it is. *)
Fixpoint brace_free (s : string) : bool :=
  match s with
  | EmptyString => true
  | String c s' =>
      negb (Ascii.eqb c open_brace) && negb (Ascii.eqb c close_brace)
      && brace_free s'
  end.

Definition plain_text (s : string) : bool :=
  negb (String.eqb s EmptyString) && brace_free s.

(** Templates all of whose replacement fields are names: the pass of
    [format_from], keeping only whether it ends well and stays inside
    the fragment. *)
Fixpoint named_fields_from (t : string) (st : state) : bool :=
  match t with
  | EmptyString =>
      match st with Text => true | _ => false end
  | String c r =>
      match st with
      | Text =>
          if Ascii.eqb c open_brace then named_fields_from r AfterOpen
          else if Ascii.eqb c close_brace then named_fields_from r AfterClose
          else named_fields_from r Text
      | AfterOpen =>
          if Ascii.eqb c open_brace then named_fields_from r Text
          else if Ascii.eqb c close_brace then false
          else named_fields_from r (Field (String c EmptyString))
      | AfterClose =>
          if Ascii.eqb c close_brace then named_fields_from r Text
          else false
      | Field acc =>
          if Ascii.eqb c close_brace then
            field_name_ok acc && negb (all_digits acc)
            && named_fields_from r Text
          else named_fields_from r (Field (acc ++ String c EmptyString))
      end
  end.

Definition starts_with_text (t : string) : bool :=
  match t with
  | EmptyString => false
  | String c _ =>
      negb (Ascii.eqb c open_brace) && negb (Ascii.eqb c close_brace)
  end.

(** A template that renders to a nonempty string whenever its named
    fields are supplied. *)
Definition well_formed_template (t : string) : bool :=
  starts_with_text t && named_fields_from t Text.

End Format.

(** ** Python objects met by attribute lookup on the prompt library *)

Inductive pykey :=
| KStr (s : string)
| KApproach (a : TherapyApproach)
| KEmotion (e : EmotionalState).

(** [OOpaque] stands for the objects that are neither [str], [list] nor
    [dict] and have neither a [values] nor a [format] attribute: bound
    methods, the class, [None], numbers, tuples. *)
Inductive pyobj :=
| OStr (s : string)
| OList (l : list pyobj)
| ODict (d : list (pykey * pyobj))
| OOpaque.

Definition pykey_eqb (a b : pykey) : bool :=
  match a, b with
  | KStr s, KStr s' => String.eqb s s'
  | KApproach x, KApproach y => approach_eqb x y
  | KEmotion x, KEmotion y => emotion_eqb x y
  | _, _ => false
  end.

(** [d[k]] on a dictionary kept in insertion order; [None] when [k not in d]. *)
Fixpoint dict_get {V} (k : pykey) (d : list (pykey * V)) : option V :=
  match d with
  | [] => None
  | (k', v) :: d' => if pykey_eqb k k' then Some v else dict_get k d'
  end.

Definition of_strings (l : list string) : pyobj := OList (map OStr l).

Definition of_groups (d : list (string * list string)) : pyobj :=
  ODict (map (fun '(k, l) => (KStr k, of_strings l)) d).

(** ** The interpreter and the host

    What the embedded code reads from outside the repository. *)

Class PythonRuntime := {
  (** [str.lower] *)
  lower : string -> string;
  (** the attributes an instance of [TherapyPrompts] gets from its class and
      from [object] rather than from [__init__], except [__dict__]: methods,
      [__class__], [__doc__], [__module__], ... *)
  class_attr : string -> option pyobj;
  (** [str(t.timestamp())] for a [datetime] [t] *)
  str_timestamp : Z -> string;
  (** [str(t1 - t0)] for two [datetime]s *)
  str_timedelta : Z -> Z -> string
}.

(** [str.lower] maps ASCII text to its ASCII lower case. *)
Definition lower_on_ascii `{PythonRuntime} : Prop :=
  forall s : string, is_ascii s = true -> lower s = ascii_lower s.

(** [random.choice(seq)]: [draw] is the number the generator yields. *)
Definition random_choice {A} (seq : list A) (draw : nat) : result A :=
  match seq !! (draw mod List.length seq)%nat with
  | Some x => Ok x
  | None => Raise (Exn IndexError "Cannot choose from an empty sequence")
  end.

(** [d.get(k)] on a dictionary whose keys have one type, kept in insertion
    order; [None] when [k not in d]. *)
Fixpoint assoc_get {K V} (eqb : K -> K -> bool) (k : K) (d : list (K * V))
    : option V :=
  match d with
  | [] => None
  | (k', v) :: d' => if eqb k k' then Some v else assoc_get eqb k d'
  end.

(** [d[k]]: [KeyError] when [k not in d]. *)
Definition subscript {K V} (eqb : K -> K -> bool) (repr : K -> string)
    (k : K) (d : list (K * V)) : result V :=
  match assoc_get eqb k d with
  | Some v => Ok v
  | None => Raise (Exn KeyError (repr k))
  end.

(** [repr(s)] of a string without quotes in it. *)
Definition quoted (s : string) : string := "'" ++ s ++ "'".

(** ** [class TherapyPrompts] *)

Module TherapyPrompts.

(** [_get_base_system_prompt]: Core system prompt defining the AI's therapeutic persona *)
Definition _get_base_system_prompt : string :=
  lines
    [ "";
      "You are Alex, a compassionate and skilled AI mental health counselor. You provide empathetic, evidence-based support using various therapeutic approaches including CBT, DBT, and humanistic therapy.";
      "";
      "CORE PRINCIPLES:";
      "- Show genuine empathy and unconditional positive regard";
      "- Use active listening and reflective responses";
      "- Apply evidence-based therapeutic techniques appropriately";
      "- Maintain appropriate boundaries while being warm and supportive";
      "- Prioritize user safety and crisis intervention when needed";
      "- Adapt your communication style to the user's needs and preferences";
      "";
      "THERAPEUTIC APPROACH:";
      "- Begin with rapport building and emotional validation";
      "- Use open-ended questions to explore thoughts and feelings";
      "- Employ specific techniques based on the user's needs (CBT, DBT, etc.)";
      "- Guide users toward self-discovery and insight";
      "- Provide practical coping strategies and tools";
      "- Encourage hope and resilience";
      "";
      "SAFETY PROTOCOLS:";
      "- Always assess for crisis indicators (suicidal ideation, self-harm, severe distress)";
      "- Implement crisis intervention protocols immediately when needed";
      "- Connect users with professional resources when appropriate";
      "- Document concerning statements for follow-up";
      "";
      "CONVERSATION STYLE:";
      "- Speak naturally and conversationally, not clinically";
      "- Use reflective listening and validation";
      "- Ask thoughtful follow-up questions";
      "- Provide gentle challenges to negative thought patterns";
      "- Offer practical exercises and homework when appropriate";
      "";
      "Remember: You are a supportive companion in their mental health journey, not a replacement for professional therapy when clinical intervention is needed." ].

(** [_get_conversation_starters]: Opening prompts for different scenarios *)
Definition _get_conversation_starters : list (string * list string) :=
  [ ("first_session",
     [ "Hello, I'm Alex, your AI mental health counselor. I'm here to provide a safe, supportive space for you to share what's on your mind. What would you like to talk about today?";
       "Welcome! I'm glad you decided to reach out. Taking this step shows real courage. What's been going on that made you want to connect today?";
       "Hi there. I'm Alex, and I'm here to listen and support you. There's no pressure to share anything you're not comfortable with. What feels most important to discuss right now?" ]);
    ("returning_user",
     [ "It's good to see you again. How have you been since we last talked?";
       "Welcome back. I've been thinking about our last conversation. How are you feeling today?";
       "Hello again. What's been on your mind since we last spoke?" ]);
    ("crisis_detected",
     [ "I hear that you're going through an incredibly difficult time right now. Your safety is my primary concern. Can you tell me more about what you're experiencing?";
       "It sounds like you're in a lot of pain right now. I want you to know that you're not alone. Let's talk about what's happening and how we can help you feel safer." ]);
    ("check_in",
     [ "How are you feeling right now, in this moment?";
       "Take a moment to check in with yourself. What emotions are you noticing?";
       "What's your emotional weather like today?" ]) ].

(** [_get_therapeutic_techniques]: Evidence-based therapeutic techniques organized by approach *)
Definition _get_therapeutic_techniques
    : list (TherapyApproach * list (string * list string)) :=
  [ (CBT,
     [ ("thought_challenging",
        [ "I notice you mentioned '{negative_thought}'. Let's examine this together. What evidence do you have that supports this thought?";
          "That sounds like a really difficult thought to have. Can you think of any alternative ways to look at this situation?";
          "When you think '{negative_thought}', how does that make you feel? Let's explore if this thought is helpful or accurate." ]);
       ("behavioral_activation",
        [ "What activities used to bring you joy or satisfaction? How might we gradually reintroduce some of these?";
          "Let's think about small, manageable steps you could take today that might improve your mood, even slightly.";
          "What would a valued activity look like for you this week? Something that aligns with what matters to you?" ]);
       ("cognitive_restructuring",
        [ "I'm hearing some 'all-or-nothing' thinking. Life often exists in the gray areas. What might a more balanced perspective look like?";
          "You mentioned '{catastrophic_thought}'. What would you tell a close friend who had this same worry?";
          "Let's try a thought experiment. What's the most realistic outcome of this situation?" ]) ]);
    (DBT,
     [ ("distress_tolerance",
        [ "It sounds like you're experiencing intense emotions right now. Let's try a grounding technique. Can you name 5 things you can see right now?";
          "When emotions feel overwhelming, sometimes we need to ride the wave rather than fight it. What would help you tolerate this feeling for the next few minutes?";
          "Let's try the STOP technique: Stop, Take a breath, Observe what's happening, Proceed mindfully. What do you notice when you pause?" ]);
       ("emotion_regulation",
        [ "What emotion are you experiencing right now? Can you rate its intensity from 1-10?";
          "Emotions are like waves - they rise, peak, and naturally fall. What do you think this emotion is trying to tell you?";
          "Let's practice opposite action. If your emotion is urging you to {action}, what would the opposite, more helpful action be?" ]);
       ("interpersonal_effectiveness",
        [ "It sounds like that conversation was really difficult. How did you advocate for your needs in that situation?";
          "When you think about setting boundaries, what feels most challenging for you?";
          "Let's practice the DEAR MAN technique for your next difficult conversation." ]) ]);
    (HUMANISTIC,
     [ ("unconditional_positive_regard",
        [ "I want you to know that whatever you're experiencing is valid and understandable given your circumstances.";
          "You're showing incredible strength by sharing this with me. Thank you for trusting me with your feelings.";
          "There's no judgment here. You're inherently worthy of compassion and understanding." ]);
       ("reflection",
        [ "It sounds like you're feeling {emotion} about {situation}. Is that right?";
          "I'm hearing that {reflection}. How does that resonate with you?";
          "What I'm picking up is {summary}. Does that capture what you're experiencing?" ]);
       ("self_actualization",
        [ "What does your authentic self look like? What would it mean to live more aligned with your true values?";
          "When do you feel most like yourself?";
          "What would change in your life if you fully accepted yourself as you are?" ]) ]);
    (SOLUTION_FOCUSED,
     [ ("scaling_questions",
        [ "On a scale of 1-10, where 1 is the worst you've felt and 10 is the best, where are you today?";
          "If you moved up just one point on that scale, what would be different?";
          "What would need to happen for you to feel like you're at a {number} instead of a {current_number}?" ]);
       ("exception_finding",
        [ "Tell me about a recent time when this problem wasn't as intense. What was different about that situation?";
          "When do you feel most resilient or capable of handling challenges?";
          "What's worked for you in the past when you've faced similar difficulties?" ]);
       ("miracle_question",
        [ "Imagine you wake up tomorrow and this problem has been resolved. What would be the first sign that things are different?";
          "If we could wave a magic wand and your life was exactly as you wanted it, what would that look like?";
          "What would your best friend notice about you if this issue was no longer a problem?" ]) ]);
    (MINDFULNESS,
     [ ("present_moment",
        [ "Let's take a moment to come back to the present. What do you notice about your breathing right now?";
          "I notice your mind has been traveling to the past/future. What's happening in this very moment?";
          "Can you bring your attention to your body? What sensations do you notice?" ]);
       ("acceptance",
        [ "What would it be like to hold this feeling with compassion rather than fighting it?";
          "Sometimes the struggle against our emotions causes more suffering than the emotions themselves. What would acceptance look like here?";
          "What if you could be curious about this experience rather than judgmental?" ]);
       ("mindful_observation",
        [ "Let's practice observing your thoughts like clouds passing in the sky. What thoughts are you noticing right now?";
          "Can you notice this emotion without becoming the emotion? You are the observer, not the observed.";
          "What would it be like to watch your thoughts with gentle curiosity instead of harsh judgment?" ]) ]) ].

(** [_get_crisis_prompts]: Crisis intervention prompts and safety protocols *)
Definition _get_crisis_prompts : list (string * list string) :=
  [ ("immediate_safety",
     [ "Your safety is the most important thing right now. Are you currently in immediate danger?";
       "I'm very concerned about you. Do you have thoughts of hurting yourself or ending your life?";
       "Right now, in this moment, are you safe? That's what matters most." ]);
    ("suicidal_ideation",
     [ "Thank you for trusting me with this. Having thoughts of suicide can be incredibly frightening. Are you thinking about hurting yourself right now?";
       "I hear how much pain you're in. Suicide can feel like the only way out, but there are other options. Can you tell me more about these thoughts?";
       "You mentioned wanting to die. Are you having specific thoughts about how you might hurt yourself?" ]);
    ("safety_planning",
     [ "Let's create a safety plan together. Who are the people in your life you can reach out to when you're feeling this way?";
       "What are some things that have helped you get through difficult times before?";
       "Can you remove or secure any means of self-harm from your immediate environment?" ]);
    ("professional_referral",
     [ "I want to connect you with immediate professional support. Are you willing to speak with a crisis counselor right now?";
       "This level of distress requires professional intervention. Let's get you connected with someone who can provide immediate help.";
       "I'm going to provide you with some crisis resources. The National Suicide Prevention Lifeline is available 24/7 at 988." ]);
    ("de_escalation",
     [ "I can hear how overwhelmed you're feeling. Let's take this one moment at a time. Can you take a slow, deep breath with me?";
       "You're not alone in this. Many people have felt exactly what you're feeling and have found ways through. You can too.";
       "Right now, you're safe and you're talking to me. That's enough for this moment." ]) ].

(** [_get_assessment_prompts]: Prompts for mental health assessments *)
Definition _get_assessment_prompts : list (string * list string) :=
  [ ("phq9_introduction",
     [ "I'd like to understand better how you've been feeling lately. Would you be open to answering some questions about your mood over the past two weeks?";
       "To better support you, I'd like to do a brief assessment about your emotional well-being. This will help me understand how you've been feeling recently." ]);
    ("gad7_introduction",
     [ "I'd like to ask you some questions about anxiety and worry. This will help me understand your experience better.";
       "To get a clearer picture of what you're experiencing, would you be willing to answer some questions about anxiety symptoms?" ]);
    ("mood_tracking",
     [ "How would you describe your overall mood today compared to yesterday?";
       "What patterns do you notice in your mood throughout the day/week?";
       "On a scale of 1-10, how would you rate your mood right now?" ]);
    ("sleep_assessment",
     [ "How has your sleep been lately? Are you getting enough rest?";
       "Tell me about your sleep patterns. Any changes recently?";
       "What's your sleep like? Falling asleep, staying asleep, waking up?" ]);
    ("social_functioning",
     [ "How are your relationships with family and friends?";
       "Are you feeling connected to the people in your life?";
       "How has your social life been affected by what you're going through?" ]) ].

(** [_get_emotional_responses]: Emotion-specific therapeutic responses *)
Definition _get_emotional_responses : list (EmotionalState * list string) :=
  [ (ANXIOUS,
     [ "I can hear the worry in your voice. Anxiety can feel overwhelming, but you're not alone in this.";
       "It sounds like your mind is racing with 'what if' thoughts. That's so exhausting. Let's slow down together.";
       "Anxiety often makes us feel like we need to solve everything right now. What if we just focused on this moment?" ]);
    (DEPRESSED,
     [ "I hear how heavy everything feels right now. Depression can make even simple tasks feel impossible.";
       "It sounds like you're carrying a lot of pain. That takes incredible strength, even when it doesn't feel like it.";
       "When depression is present, it can feel like nothing will ever change. But feelings, even the most painful ones, are temporary." ]);
    (ANGRY,
     [ "I can sense your frustration and anger. These are valid emotions - you have every right to feel upset.";
       "Anger often signals that something important to you has been threatened or violated. What is that for you?";
       "It sounds like you're really fired up about this. Anger can be a powerful emotion - what is it trying to tell you?" ]);
    (OVERWHELMED,
     [ "It sounds like you have so much on your plate right now. Feeling overwhelmed is completely understandable.";
       "When everything feels like too much, sometimes we need to break things down into smaller, manageable pieces.";
       "I hear that you're drowning in responsibilities. Let's figure out what's most urgent and what can wait." ]);
    (HOPEFUL,
     [ "I can hear the hope in your voice, and that's beautiful. What's contributing to this positive shift?";
       "It sounds like you're seeing some light at the end of the tunnel. That's wonderful progress.";
       "I'm noticing more energy and optimism in how you're talking. What's changed for you?" ]);
    (NEUTRAL,
     [ "I'm here to listen and support you. What would you like to talk about?";
       "How are you feeling right now?";
       "Is there something on your mind you'd like to share?" ]) ].

(** [_get_closing_prompts]: Session closing and transition prompts *)
Definition _get_closing_prompts : list (string * list string) :=
  [ ("session_summary",
     [ "Let's take a moment to reflect on what we've discussed today. What stands out to you from our conversation?";
       "We've covered a lot of ground today. What feels most important or meaningful from what we've talked about?";
       "As we wrap up, what are you taking away from our time together?" ]);
    ("homework_assignment",
     [ "Between now and next time, I'd like you to try {technique}. How does that sound to you?";
       "What's one small thing you could do this week to care for yourself?";
       "Let's pick one coping strategy we discussed to practice over the next few days." ]);
    ("encouragement",
     [ "You've shown real courage by sharing what you did today. That's not easy, and I'm proud of you for being here.";
       "Remember, healing isn't linear. Be patient and compassionate with yourself as you continue this journey.";
       "You have more strength than you realize. I see it in how you're facing these challenges." ]);
    ("next_steps",
     [ "When would you like to talk again? I'm here whenever you need support.";
       "What feels like the right next step for you in your healing journey?";
       "How can I best support you moving forward?" ]) ].
Record t := {
  base_system_prompt : string;
  conversation_starters : list (string * list string);
  therapeutic_techniques
    : list (TherapyApproach * list (string * list string));
  crisis_prompts : list (string * list string);
  assessment_prompts : list (string * list string);
  emotional_responses : list (EmotionalState * list string);
  closing_prompts : list (string * list string)
}.

(** [TherapyPrompts()] *)
Definition __init__ : t := {|
  base_system_prompt := _get_base_system_prompt;
  conversation_starters := _get_conversation_starters;
  therapeutic_techniques := _get_therapeutic_techniques;
  crisis_prompts := _get_crisis_prompts;
  assessment_prompts := _get_assessment_prompts;
  emotional_responses := _get_emotional_responses;
  closing_prompts := _get_closing_prompts
|}.

(** [self.__dict__], in the order [__init__] assigns. *)
Definition instance_dict (self : t) : list (pykey * pyobj) :=
  [ (KStr "base_system_prompt", OStr (base_system_prompt self));
    (KStr "conversation_starters", of_groups (conversation_starters self));
    (KStr "therapeutic_techniques",
     ODict (map (fun '(a, g) => (KApproach a, of_groups g))
                (therapeutic_techniques self)));
    (KStr "crisis_prompts", of_groups (crisis_prompts self));
    (KStr "assessment_prompts", of_groups (assessment_prompts self));
    (KStr "emotional_responses",
     ODict (map (fun '(e, l) => (KEmotion e, of_strings l))
                (emotional_responses self)));
    (KStr "closing_prompts", of_groups (closing_prompts self)) ].

(** [getattr(self, name)] *)
Definition getattr `{PythonRuntime} (self : t) (name : string)
    : result pyobj :=
  match dict_get (KStr name) (instance_dict self) with
  | Some o => Ok o
  | None =>
      if String.eqb name "__dict__" then Ok (ODict (instance_dict self))
      else
        match class_attr name with
        | Some o => Ok o
        | None =>
            Raise (Exn AttributeError
                     ("'TherapyPrompts' object has no attribute '"
                      ++ name ++ "'"))
        end
  end.

(** [o.values()] *)
Definition values (o : pyobj) : result (list pyobj) :=
  match o with
  | ODict d => Ok (map snd d)
  | OStr _ => Raise (Exn AttributeError
                       "'str' object has no attribute 'values'")
  | OList _ => Raise (Exn AttributeError
                        "'list' object has no attribute 'values'")
  | OOpaque => Raise (Exn AttributeError
                        "object has no attribute 'values'")
  end.

(** [o.format( **kwargs)] *)
Definition format_obj (o : pyobj) (kwargs : gmap string string)
    : result string :=
  match o with
  | OStr template => Format.format template kwargs
  | OList _ => Raise (Exn AttributeError
                        "'list' object has no attribute 'format'")
  | ODict _ => Raise (Exn AttributeError
                        "'dict' object has no attribute 'format'")
  | OOpaque => Raise (Exn AttributeError
                        "object has no attribute 'format'")
  end.

(** The [for approach_dict in prompts_dict.values(): ... break / else:]
    loop of [get_prompt]: the group of the first nested dictionary that
    has the key, [None] when the loop ends without [break]. *)
Fixpoint find_nested (subcategory : string) (vals : list pyobj)
    : option pyobj :=
  match vals with
  | [] => None
  | ODict approach_dict :: vals' =>
      match dict_get (KStr subcategory) approach_dict with
      | Some prompts => Some prompts
      | None => find_nested subcategory vals'
      end
  | _ :: vals' => find_nested subcategory vals'
  end.

Definition not_found_fallback : string :=
  "I'm here to support you. What would you like to talk about?".

Definition error_fallback : string :=
  "I'm here to listen and support you. What's on your mind?".

(** The [if subcategory: ... else: ...] statement.  [inl s] is the early
    [return s] of the loop's [else], [inr prompts] the value bound to
    [prompts]. *)
Definition select_prompts (prompts_dict : pyobj)
    (subcategory : option string) : result (string + pyobj) :=
  match subcategory with
  | Some sub =>
      if String.eqb sub EmptyString then Ok (inr prompts_dict)
      else
        match
          match prompts_dict with
          | ODict d => dict_get (KStr sub) d
          | _ => None
          end
        with
        | Some prompts => Ok (inr prompts)
        | None =>
            (vals <- values prompts_dict ;;
             match find_nested sub vals with
             | Some prompts => Ok (inr prompts)
             | None => Ok (inl not_found_fallback)
             end)%result
        end
  | None => Ok (inr prompts_dict)
  end.

(** The body of the [try] of [get_prompt]. *)
Definition get_prompt_try `{PythonRuntime} (self : t) (category : string)
    (subcategory : option string) (kwargs : gmap string string)
    (draw : nat) : result string :=
  if String.eqb category "base_system" then Ok (base_system_prompt self)
  else
    (prompts_dict <- getattr self category ;;
     sel <- select_prompts prompts_dict subcategory ;;
     match sel with
     | inl early => Ok early
     | inr prompts =>
         selected_prompt <-
           match prompts with
           | OList l => random_choice l draw
           | _ => Ok prompts
           end ;;
         format_obj selected_prompt kwargs
     end)%result.

(** [get_prompt(self, category, subcategory=None, **kwargs)] *)
Definition get_prompt `{PythonRuntime} (self : t) (category : string)
    (subcategory : option string) (kwargs : gmap string string)
    (draw : nat) : result string :=
  Result.try_except
    (get_prompt_try self category subcategory kwargs draw)
    [AttributeError; KeyError; ValueError]
    (fun _ => Ok error_fallback).


(** The dictionary [approach_guidance] of [build_contextual_prompt]. *)
Definition approach_guidance : list (pykey * string) :=
  [ (KApproach CBT,
     "Focus on identifying and challenging negative thought patterns. Use cognitive restructuring techniques.");
    (KApproach DBT,
     "Emphasize distress tolerance and emotion regulation skills. Validate emotions while teaching coping strategies.");
    (KApproach HUMANISTIC,
     "Provide unconditional positive regard and facilitate self-discovery through reflection.");
    (KApproach SOLUTION_FOCUSED,
     "Focus on strengths, resources, and what's working. Ask scaling and exception-finding questions.");
    (KApproach MINDFULNESS,
     "Encourage present-moment awareness and acceptance. Use grounding techniques.");
    (KApproach CRISIS_INTERVENTION,
     "Prioritize immediate safety. Assess risk and connect with professional resources.") ].

Definition crisis_banner : string :=
  "ðŸš¨ CRISIS INDICATORS DETECTED - PRIORITIZE SAFETY ASSESSMENT ðŸš¨".

Definition closing_instruction : string :=
  "Respond with empathy, professionalism, and appropriate therapeutic techniques. Keep responses conversational and supportive.".

(** [seq[-3:]] *)
Definition last3 {A} (seq : list A) : list A :=
  drop (List.length seq - 3) seq.

(** The [for session in session_history[-3:]] loop: one line per entry. *)
Fixpoint session_lines (sessions : list string) : string :=
  match sessions with
  | [] => EmptyString
  | session :: rest => "- " ++ session ++ newline ++ session_lines rest
  end.

(** [build_contextual_prompt(self, base_context, emotional_state,
    therapy_approach, session_history=None, crisis_indicators=False)] *)
Definition build_contextual_prompt (self : t) (base_context : string)
    (emotional_state : EmotionalState) (therapy_approach : TherapyApproach)
    (session_history : option (list string)) (crisis_indicators : bool)
    : result string :=
  let prompt := base_system_prompt self ++ newline ++ newline in
  let prompt :=
    if crisis_indicators then prompt ++ crisis_banner ++ newline ++ newline
    else prompt in
  let prompt :=
    prompt ++ "CURRENT EMOTIONAL STATE: " ++ emotion_value emotional_state
           ++ newline in
  let prompt :=
    prompt ++ "RECOMMENDED THERAPEUTIC APPROACH: "
           ++ approach_value therapy_approach ++ newline ++ newline in
  let prompt :=
    match session_history with
    | Some ((_ :: _) as sessions) =>
        prompt ++ "PREVIOUS SESSION CONTEXT:" ++ newline
               ++ session_lines (last3 sessions) ++ newline
    | _ => prompt
    end in
  let prompt :=
    prompt ++ "CURRENT CONVERSATION CONTEXT:" ++ newline ++ base_context
           ++ newline ++ newline in
  match dict_get (KApproach therapy_approach) approach_guidance with
  | None => Raise (Exn KeyError (approach_value therapy_approach))
  | Some guidance =>
      let prompt :=
        prompt ++ "THERAPEUTIC FOCUS: " ++ guidance ++ newline ++ newline in
      Ok (prompt ++ closing_instruction)
  end.

(** [get_crisis_intervention_prompt(self, crisis_level)]; the default of
    [dict.get] is evaluated before the lookup. *)
Definition get_crisis_intervention_prompt (self : t) (level : string)
    (draw : nat) : result string :=
  (immediate_safety <-
     subscript String.eqb quoted "immediate_safety" (crisis_prompts self) ;;
   let prompts :=
     match assoc_get String.eqb level (crisis_prompts self) with
     | Some scripts => scripts
     | None => immediate_safety
     end in
   random_choice prompts draw)%result.

Definition therapeutic_fallback : string :=
  "I understand this is difficult. Can you tell me more about what you're experiencing?".

(** [get_therapeutic_response(self, approach, technique, **kwargs)] *)
Definition get_therapeutic_response (self : t) (approach : TherapyApproach)
    (technique : string) (kwargs : gmap string string) (draw : nat)
    : result string :=
  Result.try_except
    (approach_techniques <-
       subscript approach_eqb approach_value approach
         (therapeutic_techniques self) ;;
     technique_prompts <-
       subscript String.eqb quoted technique approach_techniques ;;
     selected_prompt <- random_choice technique_prompts draw ;;
     Format.format selected_prompt kwargs)%result
    [KeyError; ValueError]
    (fun _ => Ok therapeutic_fallback).

(** [get_emotional_response(self, emotion)] *)
Definition get_emotional_response (self : t) (emotion : EmotionalState)
    (draw : nat) : result string :=
  (neutral <-
     subscript emotion_eqb emotion_value NEUTRAL (emotional_responses self) ;;
   let responses :=
     match assoc_get emotion_eqb emotion (emotional_responses self) with
     | Some l => l
     | None => neutral
     end in
   random_choice responses draw)%result.

End TherapyPrompts.

(** [create_therapy_session_prompt(user_input, emotional_state,
    therapy_approach)] of [therapy_prompts.py]; the defaults of the last two
    parameters are [EmotionalState.NEUTRAL] and [TherapyApproach.CBT]. *)
Definition create_therapy_session_prompt (user_input : string)
    (emotional_state : EmotionalState) (therapy_approach : TherapyApproach)
    : result string :=
  let therapy_prompts := TherapyPrompts.__init__ in
  let context := "User just said: '" ++ user_input ++ "'" in
  TherapyPrompts.build_contextual_prompt therapy_prompts context
    emotional_state therapy_approach None false.

(** ** Crisis keywords and [detect_crisis_level] *)

Module CRISIS_KEYWORDS.

Definition high_risk : list string :=
  [ "kill myself"; "suicide"; "end my life"; "not worth living";
    "better off dead"; "suicide plan"; "kill me"; "die"; "ending it all";
    "can't go on" ].

Definition medium_risk : list string :=
  [ "hopeless"; "worthless"; "pointless"; "give up";
    "can't take it anymore"; "want to disappear"; "tired of living";
    "nothing matters"; "no point" ].

Definition self_harm : list string :=
  [ "cut myself"; "hurt myself"; "self harm"; "cutting"; "burning myself";
    "punish myself"; "deserve pain"; "physical pain" ].

End CRISIS_KEYWORDS.

(** [for keyword in keywords: if keyword in text_lower: return ...]:
    whether the loop leaves through its [return]. *)
Fixpoint keyword_loop (keywords : list string) (text_lower : string) : bool :=
  match keywords with
  | [] => false
  | keyword :: rest =>
      if str_in keyword text_lower then true else keyword_loop rest text_lower
  end.

(** [detect_crisis_level(text)] *)
Definition detect_crisis_level `{PythonRuntime} (text : string) : string :=
  let text_lower := lower text in
  if keyword_loop CRISIS_KEYWORDS.high_risk text_lower then "high"
  else if keyword_loop CRISIS_KEYWORDS.self_harm text_lower then "high"
  else if keyword_loop CRISIS_KEYWORDS.medium_risk text_lower then "medium"
  else "none".

(** The classification as the specification words it: the high-risk and the
    self-harm phrases form one group, tried before the medium-risk group. *)
Definition classify_crisis (text_lower : string) : string :=
  if any_in (CRISIS_KEYWORDS.high_risk ++ CRISIS_KEYWORDS.self_harm)%list
            text_lower
  then "high"
  else if any_in CRISIS_KEYWORDS.medium_risk text_lower then "medium"
  else "none".

(** ** Values of the response dictionaries *)

Inductive pyval :=
| PStr (s : string)
| PInt (n : Z)
| PBool (b : bool)
| PList (l : list pyval)
| PDict (d : gmap string pyval).

(** An argument as the HTTP layer hands it over: [data.get(...)] of a JSON
    body is a string or a value of another type ([None], a number, a list,
    ...), of which only the name of the type matters here. *)
Inductive pyarg :=
| ArgStr (s : string)
| ArgOther (type_name : string).

(** ** The generation backend

    What one [requests.post] to the Ollama endpoint does. *)

(** An exception of the [requests] library or below it: only whether its
    class derives from [requests.exceptions.RequestException] matters. *)
Record host_exn := HostExn {
  is_request_exception : bool;
  host_msg : string
}.

Definition raise_host {A} (e : host_exn) : result A :=
  Raise (Exn (if is_request_exception e then RequestException
              else OtherException)
             (host_msg e)).

(** [response.json()]: a JSON object, with or without the key
    ["response"]; another JSON value; or a body that does not decode. *)
Inductive json_outcome :=
| JsonObject (response : option string)
| JsonOther (type_name : string)
| JsonRaises (e : host_exn).

Inductive http_outcome :=
| PostRaises (e : host_exn)
| HttpResponse (status_code : Z) (json : json_outcome).

(** ** [class ChatService] *)

Module ChatService.

Record SessionContext := {
  session_start : Z;
  emotional_state : EmotionalState;
  therapy_approach : TherapyApproach;
  crisis_detected : bool;
  session_summary : string;
  (** the key ["user_id"] exists only once [start_session] has run *)
  user_id : option pyarg
}.

(** An entry of [conversation_history]. *)
Record Turn := {
  timestamp : Z;
  user_message : string;
  ai_response : string;
  turn_emotional_state : string;
  turn_therapy_approach : string;
  crisis_level : string
}.

Record t := {
  model_name : string;
  therapy_prompts : TherapyPrompts.t;
  conversation_history : list Turn;
  session_context : SessionContext
}.

(** Statements of a method: they read and update [self] and may raise;
    the updates made before an exception stay. *)
Definition stmt (A : Type) : Type := t -> result A * t.

Definition ret {A} (a : A) : stmt A := fun self => (Ok a, self).

Definition bind {A B} (m : stmt A) (f : A -> stmt B) : stmt B :=
  fun self =>
    match m self with
    | (Ok a, self') => f a self'
    | (Raise e, self') => (Raise e, self')
    end.

Definition lift {A} (r : result A) : stmt A := fun self => (r, self).

Definition read {A} (f : t -> A) : stmt A := fun self => (Ok (f self), self).

Definition update (f : t -> t) : stmt unit := fun self => (Ok tt, f self).

(** [try: body  except Exception as e: handler(e)] *)
Definition try_except_Exception {A} (body : stmt A) (handler : exn -> stmt A)
    : stmt A :=
  fun self =>
    match body self with
    | (Ok a, self') => (Ok a, self')
    | (Raise e, self') =>
        if exn_class_eqb (exn_cls e) OutsideFragment then (Raise e, self')
        else handler e self'
    end.

Declare Scope stmt_scope.
Delimit Scope stmt_scope with stmt.
Notation "x <- m ;; k" := (bind m (fun x => k))
  (at level 100, m at next level, right associativity) : stmt_scope.
Notation "m ;;; k" := (bind m (fun _ => k))
  (at level 100, right associativity) : stmt_scope.

Definition set_context (f : SessionContext -> SessionContext) : stmt unit :=
  update (fun self =>
    {| model_name := model_name self;
       therapy_prompts := therapy_prompts self;
       conversation_history := conversation_history self;
       session_context := f (session_context self) |}).

(** [self.session_context["crisis_detected"] = v] *)
Definition set_crisis_detected (v : bool) : stmt unit :=
  set_context (fun c =>
    {| session_start := session_start c;
       emotional_state := emotional_state c;
       therapy_approach := therapy_approach c;
       crisis_detected := v;
       session_summary := session_summary c;
       user_id := user_id c |}).

(** [self.session_context["emotional_state"] = v] *)
Definition set_emotional_state (v : EmotionalState) : stmt unit :=
  set_context (fun c =>
    {| session_start := session_start c;
       emotional_state := v;
       therapy_approach := therapy_approach c;
       crisis_detected := crisis_detected c;
       session_summary := session_summary c;
       user_id := user_id c |}).

(** [self.session_context["therapy_approach"] = v] *)
Definition set_therapy_approach (v : TherapyApproach) : stmt unit :=
  set_context (fun c =>
    {| session_start := session_start c;
       emotional_state := emotional_state c;
       therapy_approach := v;
       crisis_detected := crisis_detected c;
       session_summary := session_summary c;
       user_id := user_id c |}).

(** [self.conversation_history.append(entry)] *)
Definition append_history (entry : Turn) : stmt unit :=
  update (fun self =>
    {| model_name := model_name self;
       therapy_prompts := therapy_prompts self;
       conversation_history := conversation_history self ++ [entry];
       session_context := session_context self |}).

(** [ChatService(model_name)], the clock reading [now]. *)
Definition __init__ (model : string) (now : Z) : t := {|
  model_name := model;
  therapy_prompts := TherapyPrompts.__init__;
  conversation_history := [];
  session_context := {|
    session_start := now;
    emotional_state := NEUTRAL;
    therapy_approach := CBT;
    crisis_detected := false;
    session_summary := "";
    user_id := None
  |}
|}.

Definition default_model_name : string := "llama3.1:8b-instruct-q4_0".

(** [start_session(self, user_id=None)]; [now] is the clock reading and
    [draw] the random number of the welcome message. *)
Definition start_session `{PythonRuntime} (uid : pyarg) (now : Z)
    (draw : nat) : stmt (gmap string pyval) :=
  (set_context (fun _ =>
     {| session_start := now;
        emotional_state := NEUTRAL;
        therapy_approach := CBT;
        crisis_detected := false;
        session_summary := "";
        user_id := Some uid |}) ;;;
   prompts <- read therapy_prompts ;;
   welcome_message <-
     lift (TherapyPrompts.get_prompt prompts "conversation_starters"
             (Some "first_session") ∅ draw) ;;
   ctx <- read session_context ;;
   ret (<["message" := PStr welcome_message]>
        (<["session_id" := PStr (str_timestamp (session_start ctx))]>
         (<["emotional_state" :=
              PStr (emotion_value (emotional_state ctx))]>
          (<["therapy_approach" :=
               PStr (approach_value (therapy_approach ctx))]> ∅)))))%stmt.

(** [_detect_emotional_state(self, message)] *)
Definition _detect_emotional_state `{PythonRuntime} (message : string)
    : EmotionalState :=
  let message_lower := lower message in
  let anxiety_keywords :=
    ["anxious"; "worried"; "nervous"; "stress"; "panic"; "fear"; "scared"] in
  if any_in anxiety_keywords message_lower then ANXIOUS else
  let depression_keywords :=
    ["sad"; "depressed"; "hopeless"; "worthless"; "tired"; "exhausted";
     "empty"] in
  if any_in depression_keywords message_lower then DEPRESSED else
  let anger_keywords :=
    ["angry"; "furious"; "mad"; "frustrated"; "irritated"; "rage"] in
  if any_in anger_keywords message_lower then ANGRY else
  let overwhelmed_keywords :=
    ["overwhelmed"; "too much"; "can't handle"; "drowning"; "swamped"] in
  if any_in overwhelmed_keywords message_lower then OVERWHELMED else
  let hopeful_keywords :=
    ["hope"; "better"; "improving"; "progress"; "optimistic"; "positive"] in
  if any_in hopeful_keywords message_lower then HOPEFUL else
  NEUTRAL.

(** [_choose_therapy_approach(self, message, emotional_state,
    crisis_detected)] *)
Definition _choose_therapy_approach (message : string)
    (emotional_state : EmotionalState) (crisis_detected : bool)
    : TherapyApproach :=
  if crisis_detected then CRISIS_INTERVENTION
  else if emotion_eqb emotional_state ANXIOUS then CBT
  else if emotion_eqb emotional_state DEPRESSED then HUMANISTIC
  else if emotion_eqb emotional_state OVERWHELMED then SOLUTION_FOCUSED
  else if emotion_eqb emotional_state ANGRY then DBT
  else CBT.

(** The [for exchange in recent_exchanges] loop of
    [_build_therapeutic_prompt]. *)
Fixpoint render_exchanges (recent_exchanges : list Turn) : string :=
  match recent_exchanges with
  | [] => EmptyString
  | exchange :: rest =>
      "User: " ++ user_message exchange ++ newline
      ++ "Alex: " ++ ai_response exchange ++ newline ++ newline
      ++ render_exchanges rest
  end.

(** [_build_therapeutic_prompt(self, user_message, emotional_state,
    therapy_approach, crisis_detected)] *)
Definition _build_therapeutic_prompt (self : t) (message : string)
    (emotional_state : EmotionalState) (therapy_approach : TherapyApproach)
    (crisis_detected : bool) : result string :=
  let recent_context :=
    match conversation_history self with
    | [] => EmptyString
    | _ :: _ =>
        render_exchanges (TherapyPrompts.last3 (conversation_history self))
    end in
  let current_context := recent_context ++ "User: " ++ message in
  TherapyPrompts.build_contextual_prompt (therapy_prompts self)
    current_context emotional_state therapy_approach None crisis_detected.

(** [_generate_response(self, prompt)]; [post] is what the backend does
    with a model name and a prompt. *)
Definition _generate_response (self : t) (prompt : string)
    (post : string -> string -> http_outcome) : result string :=
  Result.try_except
    match post (model_name self) prompt with
    | PostRaises e => raise_host e
    | HttpResponse status_code json =>
        if (status_code =? 200)%Z then
          match json with
          | JsonRaises e => raise_host e
          | JsonObject (Some text) => Ok text
          | JsonObject None =>
              Ok "I understand. Can you tell me more about that?"
          | JsonOther type_name =>
              Raise (Exn AttributeError
                       ("'" ++ type_name
                        ++ "' object has no attribute 'get'"))
          end
        else Ok "I'm having trouble connecting right now. Please try again."
    end
    [RequestException]
    (fun _ =>
       Ok "I'm unable to connect to my language model right now. Please try again later.").

(** [_get_crisis_resources(self)] *)
Definition _get_crisis_resources : pyval :=
  PDict
    (<["emergency_contacts" :=
         PDict (<["national_suicide_prevention" := PStr "988"]>
                (<["crisis_text_line" := PStr "Text HOME to 741741"]>
                 (<["emergency_services" := PStr "911"]> ∅)))]>
     (<["immediate_actions" :=
          PList
            [ PStr "Remove any means of self-harm from your environment";
              PStr "Contact a trusted friend or family member";
              PStr "Go to the nearest emergency room if you're in immediate danger";
              PStr "Call 988 for immediate crisis support" ]]>
      (<["safety_plan" :=
           PStr "Consider creating a safety plan with a mental health professional"]>
       ∅))).

(** [x in ["high", "medium"]] *)
Definition in_high_medium (x : string) : bool :=
  String.eqb x "high" || String.eqb x "medium".

(** [user_message.lower] exists only on a [str]. *)
Definition as_text (user_message : pyarg) : result string :=
  match user_message with
  | ArgStr s => Ok s
  | ArgOther type_name =>
      Raise (Exn AttributeError
               ("'" ++ type_name ++ "' object has no attribute 'lower'"))
  end.

(** The body of the [try] of [process_message]. *)
Definition process_message_try `{PythonRuntime} (message : pyarg)
    (now : Z) (post : string -> string -> http_outcome)
    : stmt (gmap string pyval) :=
  (text <- lift (as_text message) ;;
   let crisis_level := detect_crisis_level text in
   let crisis_detected := in_high_medium crisis_level in
   set_crisis_detected crisis_detected ;;;
   let emotional_state := _detect_emotional_state text in
   set_emotional_state emotional_state ;;;
   let therapy_approach :=
     _choose_therapy_approach text emotional_state crisis_detected in
   set_therapy_approach therapy_approach ;;;
   self <- read id ;;
   prompt <- lift (_build_therapeutic_prompt self text emotional_state
                     therapy_approach crisis_detected) ;;
   ai_response <- lift (_generate_response self prompt post) ;;
   let conversation_entry :=
     {| timestamp := now;
        user_message := text;
        ai_response := ai_response;
        turn_emotional_state := emotion_value emotional_state;
        turn_therapy_approach := approach_value therapy_approach;
        crisis_level := crisis_level |} in
   append_history conversation_entry ;;;
   ctx <- read session_context ;;
   let response : gmap string pyval :=
     <["message" := PStr ai_response]>
     (<["emotional_state" := PStr (emotion_value emotional_state)]>
      (<["therapy_approach" := PStr (approach_value therapy_approach)]>
       (<["crisis_level" := PStr crisis_level]>
        (<["session_id" := PStr (str_timestamp (session_start ctx))]> ∅))))
   in
   let response :=
     if String.eqb crisis_level "high"
     then <["crisis_resources" := _get_crisis_resources]> response
     else response in
   ret response)%stmt.

Definition degraded_message : string :=
  "I'm having trouble processing your message right now. Please try again, and if you're in crisis, please contact a crisis helpline immediately.".

(** The dictionary the [except Exception as e] clause returns;
    [str(e)] is the message of [e]. *)
Definition degraded_response (e : exn) : gmap string pyval :=
  <["message" := PStr degraded_message]>
  (<["error" := PStr (exn_msg e)]>
   (<["crisis_level" := PStr "unknown"]> ∅)).

(** [process_message(self, user_message, user_id=None)] *)
Definition process_message `{PythonRuntime} (message : pyarg) (uid : pyarg)
    (now : Z) (post : string -> string -> http_outcome)
    : stmt (gmap string pyval) :=
  try_except_Exception (process_message_try message now post)
    (fun e => ret (degraded_response e)).

(** The counting loop shared by [_generate_session_summary] and
    [_get_emotional_state_summary]:
    [emotional_counts[emotion] = emotional_counts.get(emotion, 0) + 1],
    the dictionary kept in insertion order. *)
Fixpoint count_one (emotion : string) (counts : list (string * nat))
    : list (string * nat) :=
  match counts with
  | [] => [(emotion, 1%nat)]
  | (k, n) :: rest =>
      if String.eqb k emotion then (k, S n) :: rest
      else (k, n) :: count_one emotion rest
  end.

Definition emotional_counts (history : list Turn) : list (string * nat) :=
  fold_left (fun counts entry => count_one (turn_emotional_state entry) counts)
            history [].

(** [max(items, key=lambda x: x[1])]: the first item of maximal count. *)
Fixpoint max_by_count (best : string * nat) (items : list (string * nat))
    : string * nat :=
  match items with
  | [] => best
  | item :: rest =>
      if (snd best <? snd item)%nat then max_by_count item rest
      else max_by_count best rest
  end.

(** [_generate_session_summary(self)] *)
Definition _generate_session_summary (self : t) : string :=
  match conversation_history self with
  | [] => "Session ended without any conversation."
  | _ :: _ =>
      let counts := emotional_counts (conversation_history self) in
      let primary_emotion :=
        match counts with
        | first :: rest => fst (max_by_count first rest)
        | [] => "neutral"
        end in
      let crisis_count :=
        List.length
          (filter (fun entry => crisis_level entry ≠ "none")
                  (conversation_history self)) in
      let summary :=
        "Session focused on " ++ primary_emotion ++ " experiences. " in
      let summary :=
        if (0 <? crisis_count)%nat
        then summary ++ "Crisis indicators were detected "
                     ++ pretty crisis_count ++ " times. "
        else summary in
      summary ++ "Total of "
              ++ pretty (List.length (conversation_history self))
              ++ " exchanges occurred."
  end.

(** [_get_emotional_state_summary(self)] *)
Definition _get_emotional_state_summary (self : t) : pyval :=
  PDict (list_to_map
           (map (fun '(k, n) => (k, PInt (Z.of_nat n)))
                (emotional_counts (conversation_history self)))).

(** [end_session(self)] *)
Definition end_session `{PythonRuntime} (now : Z) (draw : nat)
    : stmt (gmap string pyval) :=
  (self <- read id ;;
   let session_summary := _generate_session_summary self in
   closing_message <-
     lift (TherapyPrompts.get_prompt (therapy_prompts self)
             "closing_prompts" (Some "session_summary") ∅ draw) ;;
   ret (<["message" := PStr closing_message]>
        (<["session_summary" := PStr session_summary]>
         (<["session_duration" :=
              PStr (str_timedelta now (session_start (session_context self)))]>
          (<["total_exchanges" :=
               PInt (Z.of_nat (List.length (conversation_history self)))]>
           (<["emotional_states_observed" :=
                _get_emotional_state_summary self]> ∅))))))%stmt.

(** [get_session_stats(self)] *)
Definition get_session_stats `{PythonRuntime} (now : Z)
    : stmt (gmap string pyval) :=
  (self <- read id ;;
   let ctx := session_context self in
   ret (<["session_duration" :=
            PStr (str_timedelta now (session_start ctx))]>
        (<["total_exchanges" :=
             PInt (Z.of_nat (List.length (conversation_history self)))]>
         (<["current_emotional_state" :=
              PStr (emotion_value (emotional_state ctx))]>
          (<["current_therapy_approach" :=
               PStr (approach_value (therapy_approach ctx))]>
           (<["crisis_detected" := PBool (crisis_detected ctx)]>
            (<["emotional_states_observed" :=
                 _get_emotional_state_summary self]> ∅)))))))%stmt.

End ChatService.

(** ** [models/crisis_detection.py] *)

Module crisis_detection.

Module CRISIS_KEYWORDS.

Definition high : list string :=
  [ "kill myself"; "suicide"; "end my life"; "not worth living";
    "better off dead"; "suicide plan"; "kill me"; "die"; "ending it all";
    "can't go on" ].

Definition medium : list string :=
  [ "hopeless"; "worthless"; "pointless"; "give up";
    "can't take it anymore"; "want to disappear"; "tired of living";
    "nothing matters"; "no point" ].

Definition self_harm : list string :=
  [ "cut myself"; "hurt myself"; "self harm"; "cutting"; "burning myself";
    "punish myself"; "deserve pain"; "physical pain" ].

End CRISIS_KEYWORDS.

(** [detect_crisis_level(text)] *)
Definition detect_crisis_level `{PythonRuntime} (text : string) : string :=
  let text_lower := lower text in
  if keyword_loop (CRISIS_KEYWORDS.high ++ CRISIS_KEYWORDS.self_harm)%list
       text_lower
  then "high"
  else if keyword_loop CRISIS_KEYWORDS.medium text_lower then "medium"
  else "none".

End crisis_detection.

(** ** [models/emotion_detection.py] *)

Module emotion_detection.

(** The module has an enumeration of its own. *)
Inductive EmotionalState :=
| NEUTRAL | ANXIOUS | DEPRESSED | ANGRY | OVERWHELMED | HOPEFUL | CRISIS.

Definition value (e : EmotionalState) : string :=
  match e with
  | NEUTRAL => "neutral"
  | ANXIOUS => "anxious"
  | DEPRESSED => "depressed"
  | ANGRY => "angry"
  | OVERWHELMED => "overwhelmed"
  | HOPEFUL => "hopeful"
  | CRISIS => "crisis"
  end.

(** [detect_emotional_state(text)] *)
Definition detect_emotional_state `{PythonRuntime} (text : string)
    : EmotionalState :=
  let text_lower := lower text in
  if any_in ["anxious"; "worried"; "nervous"; "panic"; "fear"] text_lower
  then ANXIOUS
  else if any_in ["sad"; "depressed"; "hopeless"; "worthless"; "empty"]
            text_lower
  then DEPRESSED
  else if any_in ["angry"; "furious"; "mad"; "frustrated"; "rage"] text_lower
  then ANGRY
  else if any_in ["overwhelmed"; "too much"; "can't handle"; "drowning"]
            text_lower
  then OVERWHELMED
  else if any_in ["hope"; "better"; "improving"; "optimistic"] text_lower
  then HOPEFUL
  else NEUTRAL.

End emotion_detection.

(** ** [interactive_chat.py] *)

Module interactive_chat.

(** [detect_emotion(user_input)] *)
Definition detect_emotion `{PythonRuntime} (user_input : string)
    : EmotionalState :=
  if any_in ["anxious"; "worried"; "nervous"] (lower user_input)
  then ANXIOUS
  else if any_in ["sad"; "depressed"; "hopeless"] (lower user_input)
  then DEPRESSED
  else if any_in ["angry"; "mad"; "frustrated"] (lower user_input)
  then ANGRY
  else if any_in ["overwhelmed"; "too much"; "can't handle"]
            (lower user_input)
  then OVERWHELMED
  else if any_in ["hope"; "better"; "improving"] (lower user_input)
  then HOPEFUL
  else NEUTRAL.

End interactive_chat.

(** ** [services/assessment_service.py]

    The answers are the integer item scores of a questionnaire. *)

Module AssessmentService.

(** [x == literal] for an argument [x] and a string literal. *)
Definition pyarg_is (x : pyarg) (literal : string) : bool :=
  match x with
  | ArgStr s => String.eqb s literal
  | ArgOther _ => false
  end.

(** [sum(answers)] *)
Definition sum (answers : list Z) : Z := fold_left Z.add answers 0%Z.

(** [_phq9_severity(self, score)] *)
Definition _phq9_severity (score : Z) : string :=
  if (score <? 5)%Z then "Minimal"
  else if (score <? 10)%Z then "Mild"
  else if (score <? 15)%Z then "Moderate"
  else if (score <? 20)%Z then "Moderately Severe"
  else "Severe".

(** [_gad7_severity(self, score)] *)
Definition _gad7_severity (score : Z) : string :=
  if (score <? 5)%Z then "Minimal"
  else if (score <? 10)%Z then "Mild"
  else if (score <? 15)%Z then "Moderate"
  else "Severe".

(** [process_assessment(self, assessment_type, answers)] *)
Definition process_assessment (assessment_type : pyarg) (answers : list Z)
    : gmap string pyval :=
  if pyarg_is assessment_type "phq9" then
    let score := sum answers in
    let severity := _phq9_severity score in
    <["score" := PInt score]> (<["severity" := PStr severity]> ∅)
  else if pyarg_is assessment_type "gad7" then
    let score := sum answers in
    let severity := _gad7_severity score in
    <["score" := PInt score]> (<["severity" := PStr severity]> ∅)
  else <["error" := PStr "Unknown assessment type."]> ∅.

End AssessmentService.

(** ** [app.py]: the chat endpoints

    The decoded body of a request: a JSON object, whose members are
    strings or values of another type, or another JSON value.  The module's
    one [chat_service] is the state the endpoints act on. *)

Inductive request_json :=
| BodyObject (members : gmap string pyarg)
| BodyOther (type_name : string).

Module app.

(** [data.get(key, default)] *)
Definition data_get (data : request_json) (key : string) (default : pyarg)
    : result pyarg :=
  match data with
  | BodyObject members =>
      match members !! key with
      | Some v => Ok v
      | None => Ok default
      end
  | BodyOther type_name =>
      Raise (Exn AttributeError
               ("'" ++ type_name ++ "' object has no attribute 'get'"))
  end.

(** [chat_endpoint(request)], [data] being [await request.json()]. *)
Definition chat_endpoint `{PythonRuntime} (data : request_json) (now : Z)
    (post : string -> string -> http_outcome)
    : ChatService.stmt (gmap string pyval) :=
  ChatService.bind (ChatService.lift (data_get data "message" (ArgStr "")))
    (fun user_message =>
  ChatService.bind
    (ChatService.lift (data_get data "user_id" (ArgOther "NoneType")))
    (fun user_id =>
  ChatService.process_message user_message user_id now post)).

(** [start_session(request)] *)
Definition start_session `{PythonRuntime} (data : request_json) (now : Z)
    (draw : nat) : ChatService.stmt (gmap string pyval) :=
  ChatService.bind
    (ChatService.lift (data_get data "user_id" (ArgOther "NoneType")))
    (fun user_id => ChatService.start_session user_id now draw).

(** [end_session()] *)
Definition end_session `{PythonRuntime} (now : Z) (draw : nat)
    : ChatService.stmt (gmap string pyval) :=
  ChatService.end_session now draw.

End app.

(** * Vocabulary of the properties

    The classifications as the specification words them, the sections of
    the prompt, the effect of [process_message] on the service, sequences
    of calls, and sample inputs. *)

(** The keyword groups of [_detect_emotional_state], in the order the
    specification gives for the emotion check. *)
Definition emotion_groups : list (EmotionalState * list string) :=
  [ (ANXIOUS,
     ["anxious"; "worried"; "nervous"; "stress"; "panic"; "fear"; "scared"]);
    (DEPRESSED,
     ["sad"; "depressed"; "hopeless"; "worthless"; "tired"; "exhausted";
      "empty"]);
    (ANGRY, ["angry"; "furious"; "mad"; "frustrated"; "irritated"; "rage"]);
    (OVERWHELMED,
     ["overwhelmed"; "too much"; "can't handle"; "drowning"; "swamped"]);
    (HOPEFUL,
     ["hope"; "better"; "improving"; "progress"; "optimistic"; "positive"]) ].

(** The emotion classification as the specification words it: the ordered
    groups are tried in turn, the first group with a keyword contained in
    the text wins, and without a match the answer is [NEUTRAL]. *)
Fixpoint first_matching_group (groups : list (EmotionalState * list string))
    (text_lower : string) : EmotionalState :=
  match groups with
  | [] => NEUTRAL
  | (state, keywords) :: rest =>
      if any_in keywords text_lower then state
      else first_matching_group rest text_lower
  end.

Definition classify_emotion (text_lower : string) : EmotionalState :=
  first_matching_group emotion_groups text_lower.

(** The prompt of [_build_therapeutic_prompt], section by section, as the
    specification describes it.  [prompt_before] is everything up to the
    conversation context, [exchange] one turn of the history window and
    [prompt_after] everything behind the current user line; none of them
    reads the history. *)
Definition guidance_of (a : TherapyApproach) : string :=
  match a with
  | CBT =>
      "Focus on identifying and challenging negative thought patterns. Use cognitive restructuring techniques."
  | DBT =>
      "Emphasize distress tolerance and emotion regulation skills. Validate emotions while teaching coping strategies."
  | HUMANISTIC =>
      "Provide unconditional positive regard and facilitate self-discovery through reflection."
  | SOLUTION_FOCUSED =>
      "Focus on strengths, resources, and what's working. Ask scaling and exception-finding questions."
  | MINDFULNESS =>
      "Encourage present-moment awareness and acceptance. Use grounding techniques."
  | CRISIS_INTERVENTION =>
      "Prioritize immediate safety. Assess risk and connect with professional resources."
  end.

Definition prompt_persona (prompts : TherapyPrompts.t) (crisis : bool) : string :=
  TherapyPrompts.base_system_prompt prompts ++ newline ++ newline
  ++ (if crisis then TherapyPrompts.crisis_banner ++ newline ++ newline
      else "").

Definition prompt_before (prompts : TherapyPrompts.t) (e : EmotionalState)
    (a : TherapyApproach) (crisis : bool) : string :=
  prompt_persona prompts crisis
  ++ "CURRENT EMOTIONAL STATE: " ++ emotion_value e ++ newline
  ++ "RECOMMENDED THERAPEUTIC APPROACH: " ++ approach_value a
  ++ newline ++ newline
  ++ "CURRENT CONVERSATION CONTEXT:" ++ newline.

Definition prompt_after (a : TherapyApproach) : string :=
  newline ++ newline
  ++ "THERAPEUTIC FOCUS: " ++ guidance_of a ++ newline ++ newline
  ++ TherapyPrompts.closing_instruction.

Definition exchange (turn : ChatService.Turn) : string :=
  "User: " ++ ChatService.user_message turn ++ newline
  ++ "Alex: " ++ ChatService.ai_response turn ++ newline ++ newline.

(** [str(timedelta(seconds=n))] for a whole number of seconds: days are
    split off first, rounding down, as [timedelta] normalises. *)
Definition two_digits (n : Z) : string :=
  if (n <? 10)%Z then "0" ++ pretty n else pretty n.

Definition timedelta_str (seconds : Z) : string :=
  let days := (seconds / 86400)%Z in
  let rest := (seconds mod 86400)%Z in
  let clock :=
    pretty (rest / 3600)%Z ++ ":" ++ two_digits (rest mod 3600 / 60)%Z
    ++ ":" ++ two_digits (rest mod 60)%Z in
  if (days =? 0)%Z then clock
  else pretty days
       ++ (if (Z.abs days =? 1)%Z then " day, " else " days, ") ++ clock.

(** A runtime to evaluate the embedding on ASCII text with clock readings
    in whole seconds.  [lower] is ASCII lower-casing, which is what
    [str.lower] computes on ASCII text and on no other; the class-level
    attributes are the methods of [TherapyPrompts], its docstring and its
    module. *)
Definition reference_runtime : PythonRuntime := {|
  lower := ascii_lower;
  class_attr := fun name =>
    if bool_decide (name ∈ [ "__init__"; "_get_base_system_prompt";
                             "_get_conversation_starters";
                             "_get_therapeutic_techniques";
                             "_get_crisis_prompts"; "_get_assessment_prompts";
                             "_get_emotional_responses";
                             "_get_closing_prompts"; "get_prompt";
                             "get_crisis_intervention_prompt";
                             "get_therapeutic_response";
                             "get_emotional_response";
                             "build_contextual_prompt"; "__class__" ])
    then Some OOpaque
    else if String.eqb name "__doc__" then
      Some (OStr (lines [ "";
        "    Comprehensive therapeutic prompt system with evidence-based approaches" ]
                  ++ "    "))
    else if String.eqb name "__module__" then
      Some (OStr "backend.utils.therapy_prompts")
    else None;
  str_timestamp := fun t => pretty t ++ ".0";
  str_timedelta := fun now start => timedelta_str (now - start)
|}.

(** The service once [process_message] has classified [text]: the three
    assignments to [session_context]. *)
Definition classified `{PythonRuntime} (text : string) (self : ChatService.t)
    : ChatService.t :=
  let ctx := ChatService.session_context self in
  let crisis := ChatService.in_high_medium (detect_crisis_level text) in
  let state := ChatService._detect_emotional_state text in
  {| ChatService.model_name := ChatService.model_name self;
     ChatService.therapy_prompts := ChatService.therapy_prompts self;
     ChatService.conversation_history := ChatService.conversation_history self;
     ChatService.session_context :=
       {| ChatService.session_start := ChatService.session_start ctx;
          ChatService.emotional_state := state;
          ChatService.therapy_approach :=
            ChatService._choose_therapy_approach text state crisis;
          ChatService.crisis_detected := crisis;
          ChatService.session_summary := ChatService.session_summary ctx;
          ChatService.user_id := ChatService.user_id ctx |} |}.

(** The entry [process_message] appends for [text] and the reply [reply]. *)
Definition entry_of `{PythonRuntime} (text reply : string) (now : Z)
    : ChatService.Turn :=
  let crisis := ChatService.in_high_medium (detect_crisis_level text) in
  let state := ChatService._detect_emotional_state text in
  {| ChatService.timestamp := now;
     ChatService.user_message := text;
     ChatService.ai_response := reply;
     ChatService.turn_emotional_state := emotion_value state;
     ChatService.turn_therapy_approach :=
       approach_value (ChatService._choose_therapy_approach text state crisis);
     ChatService.crisis_level := detect_crisis_level text |}.

Definition with_entry (entry : ChatService.Turn) (self : ChatService.t)
    : ChatService.t :=
  {| ChatService.model_name := ChatService.model_name self;
     ChatService.therapy_prompts := ChatService.therapy_prompts self;
     ChatService.conversation_history :=
       (ChatService.conversation_history self ++ [entry])%list;
     ChatService.session_context := ChatService.session_context self |}.

(** The response [process_message] assembles on its regular path. *)
Definition response_of `{PythonRuntime} (text reply : string)
    (self : ChatService.t) : gmap string pyval :=
  let level := detect_crisis_level text in
  let crisis := ChatService.in_high_medium level in
  let state := ChatService._detect_emotional_state text in
  let base : gmap string pyval :=
    <["message" := PStr reply]>
    (<["emotional_state" := PStr (emotion_value state)]>
     (<["therapy_approach" :=
          PStr (approach_value
                  (ChatService._choose_therapy_approach text state crisis))]>
      (<["crisis_level" := PStr level]>
       (<["session_id" :=
            PStr (str_timestamp
                    (ChatService.session_start
                       (ChatService.session_context self)))]> ∅)))) in
  if String.eqb level "high"
  then <["crisis_resources" := ChatService._get_crisis_resources]> base
  else base.

(** The prompt [process_message] sends for [text]. *)
Definition prompt_of `{PythonRuntime} (text : string) (self : ChatService.t)
    : result string :=
  let crisis := ChatService.in_high_medium (detect_crisis_level text) in
  let state := ChatService._detect_emotional_state text in
  ChatService._build_therapeutic_prompt (classified text self) text state
    (ChatService._choose_therapy_approach text state crisis) crisis.

(** The calls a client makes on one service, with what the host supplies
    to each. *)
Inductive call :=
| CallStartSession (uid : pyarg) (now : Z) (draw : nat)
| CallProcessMessage (message uid : pyarg) (now : Z)
    (post : string -> string -> http_outcome)
| CallEndSession (now : Z) (draw : nat)
| CallGetSessionStats (now : Z).

(** The state of the service after a call. *)
Definition after `{PythonRuntime} (self : ChatService.t) (c : call)
    : ChatService.t :=
  match c with
  | CallStartSession uid now draw =>
      snd (ChatService.start_session uid now draw self)
  | CallProcessMessage message uid now post =>
      snd (ChatService.process_message message uid now post self)
  | CallEndSession now draw => snd (ChatService.end_session now draw self)
  | CallGetSessionStats now => snd (ChatService.get_session_stats now self)
  end.

Definition after_all `{PythonRuntime} (self : ChatService.t)
    (calls : list call) : ChatService.t :=
  fold_left after calls self.

(** The hotline of a crisis-resources payload:
    [resources["emergency_contacts"]["national_suicide_prevention"]]. *)
Definition hotline (resources : pyval) : option pyval :=
  match resources with
  | PDict d =>
      match d !! "emergency_contacts" with
      | Some (PDict contacts) => contacts !! "national_suicide_prevention"
      | _ => None
      end
  | _ => None
  end.

Definition sample_post (model prompt : string) : http_outcome :=
  HttpResponse 200 (JsonObject (Some "I hear you. Tell me more.")).

Definition sample_service : ChatService.t :=
  ChatService.__init__ ChatService.default_model_name 0.

(** The outcomes [get_prompt] turns into a string: a nonempty rendering,
    or one of the exceptions its handler names. *)
Definition handled (r : result string) : Prop :=
  (exists s, r = Ok s /\ s <> "")
  \/ (exists e, r = Raise e
                /\ (exn_cls e = KeyError \/ exn_cls e = AttributeError)).

(** The objects from which [get_prompt] can only render a nonempty string
    or raise what its handler names: well-formed templates, nonempty lists
    and dictionaries of such objects, and the opaque objects. *)
Fixpoint renderable (o : pyobj) : bool :=
  match o with
  | OStr template => Format.well_formed_template template
  | OList l =>
      match l with
      | [] => false
      | _ :: _ => forallb renderable l
      end
  | ODict d => forallb (fun kv => match kv with (_, v) => renderable v end) d
  | OOpaque => true
  end.

(** The class-level attributes are renderable: methods, the class and
    numbers are opaque, the docstring and the module name are text without
    braces, and no list among them is empty. *)
Definition class_attrs_renderable `{PythonRuntime} : Prop :=
  forall (name : string) (o : pyobj),
    class_attr name = Some o -> renderable o = true.

(** The last two statements of the [try] of [get_prompt]: the random
    choice and the formatting. *)
Definition render (prompts : pyobj) (kwargs : gmap string string)
    (draw : nat) : result string :=
  (selected_prompt <-
     match prompts with
     | OList l => random_choice l draw
     | _ => Ok prompts
     end ;;
   TherapyPrompts.format_obj selected_prompt kwargs)%result.

Definition sample_turn (n : Z) (said replied : string) : ChatService.Turn :=
  {| ChatService.timestamp := n;
     ChatService.user_message := said;
     ChatService.ai_response := replied;
     ChatService.turn_emotional_state := "neutral";
     ChatService.turn_therapy_approach := "cognitive_behavioral_therapy";
     ChatService.crisis_level := "none" |}.

Definition four_turn_service : ChatService.t :=
  {| ChatService.model_name := ChatService.default_model_name;
     ChatService.therapy_prompts := TherapyPrompts.__init__;
     ChatService.conversation_history :=
       [ sample_turn 1 "first" "one"; sample_turn 2 "second" "two";
         sample_turn 3 "third" "three"; sample_turn 4 "fourth" "four" ];
     ChatService.session_context :=
       ChatService.session_context sample_service |}.

(** The group of templates [get_therapeutic_response] looks up:
    [therapeutic_techniques[approach][technique]], when both keys exist. *)
Definition technique_group (approach : TherapyApproach) (technique : string)
    : option (list string) :=
  match assoc_get approach_eqb approach
          (TherapyPrompts.therapeutic_techniques TherapyPrompts.__init__) with
  | Some techniques => assoc_get String.eqb technique techniques
  | None => None
  end.

(** Every group of a table is nonempty and holds well-formed templates. *)
Definition groups_well_formed {K} (table : list (K * list string)) : bool :=
  forallb (fun kv =>
             match snd kv with
             | [] => false
             | _ :: _ => forallb Format.well_formed_template (snd kv)
             end) table.

(** A field name that [format_from] reads to its closing brace. *)
Fixpoint no_close_brace (name : string) : bool :=
  match name with
  | EmptyString => true
  | String c rest =>
      negb (Ascii.eqb c Format.close_brace) && no_close_brace rest
  end.

(** The severity order of the crisis levels. *)
Definition crisis_rank (level : string) : nat :=
  if String.eqb level "high" then 2
  else if String.eqb level "medium" then 1
  else 0.

(** The place of an emotional state in the order in which the detectors
    try their keyword groups, [NEUTRAL] coming behind all groups. *)
Definition group_position (e : EmotionalState) : nat :=
  match e with
  | ANXIOUS => 0
  | DEPRESSED => 1
  | ANGRY => 2
  | OVERWHELMED => 3
  | HOPEFUL => 4
  | NEUTRAL => 5
  | CRISIS => 6
  end.

Definition group_position_by_value (value : string) : nat :=
  if String.eqb value "anxious" then 0
  else if String.eqb value "depressed" then 1
  else if String.eqb value "angry" then 2
  else if String.eqb value "overwhelmed" then 3
  else if String.eqb value "hopeful" then 4
  else if String.eqb value "neutral" then 5
  else 6.

(** [ks] is a part of [ks']. *)
Definition keywords_among (ks ks' : list string) : bool :=
  forallb (fun k => existsb (String.eqb k) ks') ks.

(** What every entry the service records satisfies. *)
Definition turn_well_formed (turn : ChatService.Turn) : Prop :=
  In (ChatService.crisis_level turn) ["high"; "medium"; "none"]
  /\ In (ChatService.turn_emotional_state turn)
       ["neutral"; "anxious"; "depressed"; "angry"; "overwhelmed"; "hopeful"]
  /\ In (ChatService.turn_therapy_approach turn)
       ["cognitive_behavioral_therapy"; "dialectical_behavior_therapy";
        "humanistic_therapy"; "solution_focused_therapy";
        "crisis_intervention"]
  /\ (ChatService.turn_therapy_approach turn = "crisis_intervention"
      <-> ChatService.crisis_level turn <> "none").

Definition is_start_session (c : call) : bool :=
  match c with
  | CallStartSession _ _ _ => true
  | _ => false
  end.

(** The backend cannot be reached or answers with an error status. *)
Definition backend_down (post : string -> string -> http_outcome) : Prop :=
  forall model prompt : string,
    match post model prompt with
    | PostRaises e => is_request_exception e = true
    | HttpResponse status_code _ => status_code <> 200%Z
    end.

Definition refusing_post (model prompt : string) : http_outcome :=
  PostRaises (HostExn true "Connection refused").

Definition garbled_post (model prompt : string) : http_outcome :=
  HttpResponse 200 (JsonOther "list").

(** How often an emotional state occurs in a history. *)
Definition occurrences (state : string) (history : list ChatService.Turn)
    : nat :=
  List.length
    (filter (fun turn => ChatService.turn_emotional_state turn = state)
            history).

(** The number of entries whose crisis level is not "none". *)
Definition crisis_turns (history : list ChatService.Turn) : nat :=
  List.length
    (filter (fun turn => ChatService.crisis_level turn ≠ "none") history).

(** The value under a key of a response that is a dictionary. *)
Definition member (key : string) (v : pyval) : option pyval :=
  match v with
  | PDict d => d !! key
  | _ => None
  end.

(** The count a counting dictionary holds for a state, 0 without entry. *)
Definition count_of (state : string) (counts : list (string * nat)) : nat :=
  match assoc_get String.eqb state counts with
  | Some n => n
  | None => 0
  end.

(** The order of the severity bands. *)
Definition severity_rank (severity : string) : nat :=
  if String.eqb severity "Minimal" then 0
  else if String.eqb severity "Mild" then 1
  else if String.eqb severity "Moderate" then 2
  else if String.eqb severity "Moderately Severe" then 3
  else 4.

(** The severity a response of [process_assessment] reports, as a rank. *)
Definition reported_rank (response : gmap string pyval) : option nat :=
  match response !! "severity" with
  | Some (PStr severity) => Some (severity_rank severity)
  | _ => None
  end.

(** * Properties *)

#[local] Arguments String.append : simpl nomatch.

(** ** Strings *)

Lemma starts_with_spec (p s : string) :
  starts_with p s = true <-> exists post : string, s = p ++ post.
Proof.
  revert s. induction p as [|a p IH]; intros s; simpl.
  - split; [intros _; exists s; reflexivity | reflexivity].
  - destruct s as [|b s].
    + split; [discriminate | intros [post Hpost]; discriminate].
    + rewrite andb_true_iff, Ascii.eqb_eq, IH. split.
      * intros [-> [post ->]]. exists post. reflexivity.
      * intros [post Hpost]. injection Hpost as -> ->. eauto.
Qed.

Lemma str_in_spec (k s : string) : str_in k s = true <-> substring k s.
Proof.
  unfold substring. induction s as [|c s IH].
  - simpl. rewrite orb_false_r, starts_with_spec. split.
    + intros [post Hpost]. exists EmptyString, post. exact Hpost.
    + intros [pre [post Hs]]. destruct pre; [|discriminate].
      exists post. exact Hs.
  - simpl. rewrite orb_true_iff, starts_with_spec, IH. split.
    + intros [[post Hpost] | [pre [post Hs]]].
      * exists EmptyString, post. exact Hpost.
      * exists (String c pre), post. simpl. rewrite Hs. reflexivity.
    + intros [pre [post Hs]]. destruct pre as [|c' pre]; simpl in Hs.
      * left. exists post. exact Hs.
      * right. injection Hs as _ Hs. exists pre, post. exact Hs.
Qed.

Lemma any_in_spec (ks : list string) (s : string) :
  any_in ks s = true <-> exists k : string, In k ks /\ substring k s.
Proof.
  unfold any_in. rewrite existsb_exists.
  split; intros [k [Hk Hs]]; exists k; split; try exact Hk;
    apply str_in_spec; exact Hs.
Qed.

Lemma any_in_false (ks : list string) (s : string) :
  any_in ks s = false <-> ~ exists k : string, In k ks /\ substring k s.
Proof.
  rewrite <- any_in_spec. destruct (any_in ks s); split; intros Hx;
    try reflexivity; try discriminate; try (intros Hy; discriminate).
  exfalso. apply Hx. reflexivity.
Qed.

Lemma any_in_app (ks ks' : list string) (s : string) :
  any_in (ks ++ ks')%list s = any_in ks s || any_in ks' s.
Proof. unfold any_in. apply existsb_app. Qed.

Lemma keyword_loop_any_in (keywords : list string) (text_lower : string) :
  keyword_loop keywords text_lower = any_in keywords text_lower.
Proof.
  induction keywords as [|k ks IH]; simpl; [reflexivity|].
  rewrite IH. destruct (str_in k text_lower); reflexivity.
Qed.

Lemma append_assoc (a b c : string) : (a ++ b) ++ c = a ++ b ++ c.
Proof. induction a as [|x a IH]; simpl; [reflexivity | rewrite IH; reflexivity]. Qed.

Lemma append_nil_r (a : string) : a ++ "" = a.
Proof. induction a as [|x a IH]; simpl; [reflexivity | rewrite IH; reflexivity]. Qed.

(** ** The classifiers *)

(** C1. For every text, [detect_crisis_level] lower-cases the text and
    answers "high" exactly when the lowered text contains a high-risk or a
    self-harm phrase, "medium" exactly when it contains none of those but a
    medium-risk phrase, and "none" exactly when it contains no configured
    phrase; it agrees with the classification as the specification words
    it, and its answer is always one of the three labels. *)
Theorem detect_crisis_level_classifies `{PythonRuntime} (text : string) :
  let high k := In k CRISIS_KEYWORDS.high_risk \/ In k CRISIS_KEYWORDS.self_harm in
  let medium k := In k CRISIS_KEYWORDS.medium_risk in
  detect_crisis_level text = classify_crisis (lower text)
  /\ (detect_crisis_level text = "high" <->
      exists k, high k /\ substring k (lower text))
  /\ (detect_crisis_level text = "medium" <->
      (~ exists k, high k /\ substring k (lower text))
      /\ exists k, medium k /\ substring k (lower text))
  /\ (detect_crisis_level text = "none" <->
      ~ exists k, (high k \/ medium k) /\ substring k (lower text))
  /\ (detect_crisis_level text = "high"
      \/ detect_crisis_level text = "medium"
      \/ detect_crisis_level text = "none").
Proof.
  intros high medium.
  assert (Hhigh : any_in (CRISIS_KEYWORDS.high_risk ++ CRISIS_KEYWORDS.self_harm)%list
                    (lower text) = true
                  <-> exists k, high k /\ substring k (lower text)).
  { rewrite any_in_spec. unfold high.
    split; intros [k [Hk Hs]]; exists k; split; try exact Hs;
      [apply in_app_or | apply in_or_app]; exact Hk. }
  assert (Hmed : any_in CRISIS_KEYWORDS.medium_risk (lower text) = true
                 <-> exists k, medium k /\ substring k (lower text))
    by apply any_in_spec.
  assert (Heq : detect_crisis_level text = classify_crisis (lower text)).
  { unfold detect_crisis_level, classify_crisis.
    rewrite !keyword_loop_any_in, any_in_app.
    destruct (any_in CRISIS_KEYWORDS.high_risk (lower text)); reflexivity. }
  split; [exact Heq|]. rewrite Heq. unfold classify_crisis.
  destruct (any_in (CRISIS_KEYWORDS.high_risk ++ CRISIS_KEYWORDS.self_harm)%list
              (lower text)) eqn:Eh.
  - assert (Hex : exists k, high k /\ substring k (lower text))
      by (apply Hhigh; reflexivity).
    repeat split; try discriminate; auto.
    + intros [Hno _]. contradiction.
    + intros Hno. exfalso. apply Hno.
      destruct Hex as [k [Hk Hs]]. exists k. auto.
  - assert (Hnh : ~ exists k, high k /\ substring k (lower text)).
    { intros Hex. apply Hhigh in Hex. discriminate. }
    destruct (any_in CRISIS_KEYWORDS.medium_risk (lower text)) eqn:Em.
    + assert (Hex : exists k, medium k /\ substring k (lower text))
        by (apply Hmed; reflexivity).
      repeat split; try discriminate; auto.
      * intros Hh. contradiction.
      * intros Hno. exfalso. apply Hno.
        destruct Hex as [k [Hk Hs]]. exists k. auto.
    + assert (Hnm : ~ exists k, medium k /\ substring k (lower text)).
      { intros Hex. apply Hmed in Hex. discriminate. }
      repeat split; try discriminate; auto.
      * intros Hh. contradiction.
      * intros [_ Hm]. contradiction.
      * intros _ [k [[Hk | Hk] Hs]]; [apply Hnh | apply Hnm]; eauto.
Qed.

(** What [first_matching_group] answers, without reference to the search:
    the state of a group that matches while no group before it does, or
    [NEUTRAL] when no group matches. *)
Lemma first_matching_group_spec (groups : list (EmotionalState * list string))
    (text_lower : string) :
  let matches (g : EmotionalState * list string) :=
    exists k, In k (snd g) /\ substring k text_lower in
  (exists before g after,
      groups = (before ++ g :: after)%list
      /\ Forall (fun g' => ~ matches g') before
      /\ matches g
      /\ first_matching_group groups text_lower = fst g)
  \/ (Forall (fun g' => ~ matches g') groups
      /\ first_matching_group groups text_lower = NEUTRAL).
Proof.
  intros matches. induction groups as [|[state keywords] rest IH]; simpl.
  - right. split; [constructor | reflexivity].
  - destruct (any_in keywords text_lower) eqn:E.
    + left. exists [], (state, keywords), rest. simpl.
      repeat split; [constructor | apply any_in_spec; exact E].
    + assert (Hno : ~ matches (state, keywords))
        by (apply any_in_false; exact E).
      destruct IH as [[before [g [after [-> [Hb [Hg Hf]]]]]] | [Hall Hf]].
      * left. exists ((state, keywords) :: before), g, after. simpl.
        repeat split; [constructor; assumption | exact Hg | exact Hf].
      * right. split; [constructor; assumption | exact Hf].
Qed.

(** C8. For every message, [_detect_emotional_state] lower-cases the text
    and answers as the ordered search does: the groups are tried in the
    order anxious, depressed, angry, overwhelmed, hopeful; the answer is the
    state of the first group one of whose keywords is contained in the
    lowered text, and neutral when no group has one.  The answer is a single
    state. *)
Theorem detect_emotional_state_first_match `{PythonRuntime} (message : string) :
  let matches (g : EmotionalState * list string) :=
    exists k, In k (snd g) /\ substring k (lower message) in
  map fst emotion_groups = [ANXIOUS; DEPRESSED; ANGRY; OVERWHELMED; HOPEFUL]
  /\ ChatService._detect_emotional_state message
     = classify_emotion (lower message)
  /\ ((exists before g after,
          emotion_groups = (before ++ g :: after)%list
          /\ Forall (fun g' => ~ matches g') before
          /\ matches g
          /\ ChatService._detect_emotional_state message = fst g)
      \/ (Forall (fun g' => ~ matches g') emotion_groups
          /\ ChatService._detect_emotional_state message = NEUTRAL)).
Proof.
  intros matches.
  assert (Heq : ChatService._detect_emotional_state message
                = classify_emotion (lower message)).
  { unfold ChatService._detect_emotional_state, classify_emotion,
      emotion_groups, first_matching_group.
    repeat match goal with
           | |- context [any_in ?ks ?s] => destruct (any_in ks s)
           end; reflexivity. }
  split; [reflexivity|]. split; [exact Heq|].
  rewrite Heq. apply first_matching_group_spec.
Qed.

(** C3. [_choose_therapy_approach] depends on the crisis flag and the
    emotional state only: with the flag set it answers crisis intervention
    for every state; without it, anxious gives CBT, depressed humanistic,
    overwhelmed solution-focused, angry DBT, and every other state
    (neutral, hopeful, crisis) CBT. *)
Theorem choose_therapy_approach_table (message : string)
    (emotional_state : EmotionalState) :
  ChatService._choose_therapy_approach message emotional_state true
  = CRISIS_INTERVENTION
  /\ ChatService._choose_therapy_approach message emotional_state false
     = match emotional_state with
       | ANXIOUS => CBT
       | DEPRESSED => HUMANISTIC
       | OVERWHELMED => SOLUTION_FOCUSED
       | ANGRY => DBT
       | NEUTRAL | HOPEFUL | CRISIS => CBT
       end.
Proof. destruct emotional_state; split; reflexivity. Qed.

(** ** The prompt composer *)

Lemma approach_guidance_total (a : TherapyApproach) :
  dict_get (KApproach a) TherapyPrompts.approach_guidance
  = Some (guidance_of a).
Proof. destruct a; reflexivity. Qed.

Ltac reassoc := repeat rewrite append_assoc.

(** Without session summaries, [build_contextual_prompt] returns, and what
    it returns is the context between [prompt_before] and [prompt_after]. *)
Lemma build_contextual_prompt_shape (prompts : TherapyPrompts.t)
    (base_context : string) (e : EmotionalState) (a : TherapyApproach)
    (crisis : bool) :
  TherapyPrompts.build_contextual_prompt prompts base_context e a None crisis
  = Ok (prompt_before prompts e a crisis ++ base_context ++ prompt_after a).
Proof.
  unfold TherapyPrompts.build_contextual_prompt.
  rewrite approach_guidance_total.
  unfold prompt_before, prompt_persona, prompt_after.
  destruct crisis; reassoc; simpl; reflexivity.
Qed.

Lemma render_exchanges_nil : ChatService.render_exchanges [] = "".
Proof. reflexivity. Qed.

Lemma render_exchanges_cons (x : ChatService.Turn)
    (rest : list ChatService.Turn) :
  ChatService.render_exchanges (x :: rest)
  = exchange x ++ ChatService.render_exchanges rest.
Proof.
  unfold exchange. reassoc. reflexivity.
Qed.

Lemma last3_long {A} (seq : list A) :
  (3 < List.length seq)%nat ->
  exists older t1 t2 t3,
    older <> [] /\ seq = (older ++ [t1; t2; t3])%list
    /\ TherapyPrompts.last3 seq = [t1; t2; t3].
Proof.
  intros Hlen. unfold TherapyPrompts.last3.
  set (n := (List.length seq - 3)%nat).
  assert (Hsplit : seq = (take n seq ++ drop n seq)%list)
    by (symmetry; apply take_drop).
  assert (Hd : List.length (drop n seq) = 3%nat)
    by (rewrite length_drop; unfold n; lia).
  assert (Ht : List.length (take n seq) = n)
    by (rewrite length_take; unfold n; lia).
  destruct (drop n seq) as [|t1 [|t2 [|t3 [|t4 rest]]]] eqn:E;
    simpl in Hd; try lia.
  exists (take n seq), t1, t2, t3. repeat split.
  - intros Hnil. rewrite Hnil in Ht. simpl in Ht. unfold n in Ht. lia.
  - exact Hsplit.
Qed.

(** C7. When the history holds more than three turns, the prompt built for
    the next message is: the sections before the conversation context, then
    the three most recent turns, oldest first, each as a "User:" line and an
    "Alex:" line, then the line of the current message, then the closing
    sections.  No older turn takes part in it. *)
Theorem build_prompt_history_window (self : ChatService.t) (message : string)
    (e : EmotionalState) (a : TherapyApproach) (crisis : bool) :
  (3 < List.length (ChatService.conversation_history self))%nat ->
  exists older t1 t2 t3,
    older <> []
    /\ ChatService.conversation_history self = (older ++ [t1; t2; t3])%list
    /\ ChatService._build_therapeutic_prompt self message e a crisis
       = Ok (prompt_before (ChatService.therapy_prompts self) e a crisis
             ++ exchange t1 ++ exchange t2 ++ exchange t3
             ++ "User: " ++ message
             ++ prompt_after a).
Proof.
  intros Hlen.
  destruct (last3_long _ Hlen) as [older [t1 [t2 [t3 [Hne [Hh Hl]]]]]].
  exists older, t1, t2, t3. split; [exact Hne|]. split; [exact Hh|].
  unfold ChatService._build_therapeutic_prompt.
  rewrite build_contextual_prompt_shape, Hl.
  destruct (ChatService.conversation_history self) as [|x h];
    [simpl in Hlen; lia|].
  rewrite !render_exchanges_cons, render_exchanges_nil.
  fold (exchange t1) (exchange t2) (exchange t3).
  rewrite append_nil_r. reassoc. reflexivity.
Qed.

Lemma substring_here (k post : string) : substring k (k ++ post).
Proof. exists "", post. reflexivity. Qed.

Lemma substring_skip (pre k s : string) :
  substring k s -> substring k (pre ++ s).
Proof.
  intros [p [q ->]]. exists (pre ++ p), q. reassoc. reflexivity.
Qed.

Lemma build_therapeutic_prompt_returns (self : ChatService.t)
    (message : string) (e : EmotionalState) (a : TherapyApproach)
    (crisis : bool) :
  exists prompt : string,
    ChatService._build_therapeutic_prompt self message e a crisis = Ok prompt.
Proof.
  unfold ChatService._build_therapeutic_prompt.
  rewrite build_contextual_prompt_shape. eauto.
Qed.

Ltac find_substring :=
  repeat first [ apply substring_here | apply substring_skip ].

(** C9. For every state of the service (its history included), user text,
    emotional state, therapy approach and crisis flag,
    [_build_therapeutic_prompt] returns a prompt, and the prompt contains
    the user text, the value of the emotional state and the value of the
    therapy approach. *)
Theorem build_prompt_contains_inputs (self : ChatService.t) (message : string)
    (e : EmotionalState) (a : TherapyApproach) (crisis : bool) :
  exists prompt : string,
    ChatService._build_therapeutic_prompt self message e a crisis = Ok prompt
    /\ substring message prompt
    /\ substring (emotion_value e) prompt
    /\ substring (approach_value a) prompt.
Proof.
  unfold ChatService._build_therapeutic_prompt.
  rewrite build_contextual_prompt_shape.
  eexists. split; [reflexivity|].
  unfold prompt_before. reassoc.
  repeat split; find_substring.
Qed.

(** ** The orchestrator *)

Lemma prompt_of_returns `{PythonRuntime} (text : string)
    (self : ChatService.t) :
  exists prompt : string, prompt_of text self = Ok prompt.
Proof.
  unfold prompt_of.
  destruct (build_therapeutic_prompt_returns (classified text self) text
              (ChatService._detect_emotional_state text)
              (ChatService._choose_therapy_approach text
                 (ChatService._detect_emotional_state text)
                 (ChatService.in_high_medium (detect_crisis_level text)))
              (ChatService.in_high_medium (detect_crisis_level text)))
    as [prompt Hp].
  exists prompt. exact Hp.
Qed.

(** The body of [process_message], statement by statement. *)
Lemma process_message_try_text `{PythonRuntime} (text : string) (now : Z)
    (post : string -> string -> http_outcome) (self : ChatService.t) :
  ChatService.process_message_try (ArgStr text) now post self
  = match prompt_of text self with
    | Raise e => (Raise e, classified text self)
    | Ok prompt =>
        match ChatService._generate_response (classified text self) prompt post
        with
        | Raise e => (Raise e, classified text self)
        | Ok reply =>
            (Ok (response_of text reply self),
             with_entry (entry_of text reply now) (classified text self))
        end
    end.
Proof.
  unfold ChatService.process_message_try, prompt_of.
  cbv [ChatService.bind ChatService.lift ChatService.read ChatService.update
       ChatService.ret ChatService.as_text ChatService.set_crisis_detected
       ChatService.set_emotional_state ChatService.set_therapy_approach
       ChatService.set_context ChatService.append_history id].
  cbn [ChatService.session_context ChatService.conversation_history
       ChatService.model_name ChatService.therapy_prompts
       ChatService.session_start ChatService.emotional_state
       ChatService.therapy_approach ChatService.crisis_detected
       ChatService.session_summary ChatService.user_id].
  fold (classified text self).
  destruct (ChatService._build_therapeutic_prompt _ _ _ _ _) as [prompt|e];
    [|reflexivity].
  destruct (ChatService._generate_response _ _ _) as [reply|e];
    reflexivity.
Qed.

Lemma process_message_try_other `{PythonRuntime} (type_name : string)
    (now : Z) (post : string -> string -> http_outcome)
    (self : ChatService.t) :
  ChatService.process_message_try (ArgOther type_name) now post self
  = (Raise (Exn AttributeError
              ("'" ++ type_name ++ "' object has no attribute 'lower'")),
     self).
Proof. reflexivity. Qed.

(** [_generate_response] returns a reply or lets through an exception that
    is no [RequestException]. *)
Lemma generate_response_cases (self : ChatService.t) (prompt : string)
    (post : string -> string -> http_outcome) :
  (exists reply, ChatService._generate_response self prompt post = Ok reply)
  \/ (exists e,
        ChatService._generate_response self prompt post = Raise e
        /\ (exn_cls e = OtherException \/ exn_cls e = AttributeError)).
Proof.
  unfold ChatService._generate_response, raise_host.
  destruct (post (ChatService.model_name self) prompt)
    as [[[|] msg] | status [[text|] | type_name | [[|] msg]]]; simpl;
    try destruct (status =? 200)%Z; simpl; eauto.
Qed.

(** [process_message], case by case: what it returns and the state it
    leaves. *)
Lemma process_message_cases `{PythonRuntime} (message uid : pyarg) (now : Z)
    (post : string -> string -> http_outcome) (self : ChatService.t) :
  match ChatService.process_message_try message now post self with
  | (Ok response, self') =>
      ChatService.process_message message uid now post self
      = (Ok response, self')
      /\ exists text reply,
           message = ArgStr text
           /\ response = response_of text reply self
           /\ self' = with_entry (entry_of text reply now)
                                 (classified text self)
  | (Raise e, self') =>
      ChatService.process_message message uid now post self
      = (Ok (ChatService.degraded_response e), self')
      /\ ChatService.conversation_history self'
         = ChatService.conversation_history self
  end.
Proof.
  unfold ChatService.process_message, ChatService.try_except_Exception.
  destruct message as [text | type_name].
  - rewrite process_message_try_text.
    destruct (prompt_of_returns text self) as [prompt ->].
    destruct (generate_response_cases (classified text self) prompt post)
      as [[reply ->] | [e [-> Hcls]]].
    + split; [reflexivity | eauto].
    + split; [|reflexivity].
      destruct e as [cls msg]; simpl in Hcls.
      destruct Hcls as [-> | ->]; reflexivity.
  - rewrite process_message_try_other. split; reflexivity.
Qed.

Lemma start_session_history `{PythonRuntime} (uid : pyarg) (now : Z)
    (draw : nat) (self : ChatService.t) :
  ChatService.conversation_history
    (snd (ChatService.start_session uid now draw self))
  = ChatService.conversation_history self.
Proof.
  unfold ChatService.start_session.
  cbv [ChatService.bind ChatService.lift ChatService.read ChatService.update
       ChatService.ret ChatService.set_context].
  destruct (TherapyPrompts.get_prompt _ _ _ _ _); reflexivity.
Qed.

Lemma end_session_state `{PythonRuntime} (now : Z) (draw : nat)
    (self : ChatService.t) :
  snd (ChatService.end_session now draw self) = self.
Proof.
  unfold ChatService.end_session.
  cbv [ChatService.bind ChatService.lift ChatService.read ChatService.ret].
  destruct (TherapyPrompts.get_prompt _ _ _ _ _); reflexivity.
Qed.

Lemma get_session_stats_state `{PythonRuntime} (now : Z)
    (self : ChatService.t) :
  snd (ChatService.get_session_stats now self) = self.
Proof. reflexivity. Qed.

Lemma process_message_history `{PythonRuntime} (message uid : pyarg)
    (now : Z) (post : string -> string -> http_outcome)
    (self : ChatService.t) :
  let self' := snd (ChatService.process_message message uid now post self) in
  match fst (ChatService.process_message_try message now post self) with
  | Ok _ =>
      exists entry,
        ChatService.conversation_history self'
        = (ChatService.conversation_history self ++ [entry])%list
  | Raise _ =>
      ChatService.conversation_history self'
      = ChatService.conversation_history self
  end.
Proof.
  intros self'. subst self'.
  pose proof (process_message_cases message uid now post self) as Hc.
  destruct (ChatService.process_message_try message now post self)
    as [[response | e] s]; simpl.
  - destruct Hc as [-> [text [reply [_ [_ ->]]]]]. simpl. eauto.
  - destruct Hc as [-> Hh]. exact Hh.
Qed.

(** C10. The history of a service only grows at its end.  A call of
    [process_message] whose body returns appends exactly one entry; one
    whose body raises leaves the history as it was; [start_session],
    [end_session] and [get_session_stats] leave it as it was.  Hence after
    any sequence of calls the history is the earlier history followed by
    the entries added since: it persists across [start_session] and
    [end_session]. *)
Theorem history_append_only `{PythonRuntime} (self : ChatService.t) :
  (forall message uid now post,
      match fst (ChatService.process_message_try message now post self) with
      | Ok _ =>
          exists entry,
            ChatService.conversation_history
              (after self (CallProcessMessage message uid now post))
            = (ChatService.conversation_history self ++ [entry])%list
      | Raise _ =>
          ChatService.conversation_history
            (after self (CallProcessMessage message uid now post))
          = ChatService.conversation_history self
      end)
  /\ (forall uid now draw,
        ChatService.conversation_history
          (after self (CallStartSession uid now draw))
        = ChatService.conversation_history self)
  /\ (forall now draw,
        ChatService.conversation_history (after self (CallEndSession now draw))
        = ChatService.conversation_history self)
  /\ (forall now,
        ChatService.conversation_history (after self (CallGetSessionStats now))
        = ChatService.conversation_history self)
  /\ (forall calls,
        exists added,
          ChatService.conversation_history (after_all self calls)
          = (ChatService.conversation_history self ++ added)%list).
Proof.
  assert (Hstep : forall s c,
             exists added,
               ChatService.conversation_history (after s c)
               = (ChatService.conversation_history s ++ added)%list).
  { intros s [uid now draw | message uid now post | now draw | now]; simpl.
    - exists []. rewrite start_session_history, app_nil_r. reflexivity.
    - pose proof (process_message_history message uid now post s) as Hp.
      simpl in Hp.
      destruct (fst (ChatService.process_message_try message now post s)).
      + destruct Hp as [entry Hp]. exists [entry]. exact Hp.
      + exists []. rewrite Hp, app_nil_r. reflexivity.
    - exists []. rewrite end_session_state, app_nil_r. reflexivity.
    - exists []. rewrite app_nil_r. reflexivity. }
  repeat split.
  - intros message uid now post.
    apply (process_message_history message uid now post self).
  - intros uid now draw. apply start_session_history.
  - intros now draw. simpl. rewrite end_session_state. reflexivity.
  - intros calls. revert self.
    induction calls as [|c calls IH]; intros self.
    + exists []. simpl. rewrite app_nil_r. reflexivity.
    + destruct (Hstep self c) as [added1 H1].
      destruct (IH (after self c)) as [added2 H2].
      exists (added1 ++ added2)%list.
      unfold after_all in *. simpl. rewrite H2, H1, <- app_assoc.
      reflexivity.
Qed.

(** C4. [process_message] returns for every message, backend behaviour and
    state of the service.  When its body returns a response, that response
    is returned; when its body raises, at whatever step, the dictionary
    returned has the fixed message that asks to try again or to contact a
    helpline, the text of the exception under "error", and the crisis level
    "unknown". *)
Theorem process_message_never_raises `{PythonRuntime} (message uid : pyarg)
    (now : Z) (post : string -> string -> http_outcome)
    (self : ChatService.t) :
  (exists response self',
      ChatService.process_message message uid now post self
      = (Ok response, self'))
  /\ match ChatService.process_message_try message now post self with
     | (Ok response, self') =>
         ChatService.process_message message uid now post self
         = (Ok response, self')
     | (Raise e, self') =>
         exists degraded,
           ChatService.process_message message uid now post self
           = (Ok degraded, self')
           /\ dom degraded = {[ "message"; "error"; "crisis_level" ]}
           /\ degraded !! "message"
              = Some (PStr "I'm having trouble processing your message right now. Please try again, and if you're in crisis, please contact a crisis helpline immediately.")
           /\ degraded !! "error" = Some (PStr (exn_msg e))
           /\ degraded !! "crisis_level" = Some (PStr "unknown")
     end.
Proof.
  pose proof (process_message_cases message uid now post self) as Hc.
  destruct (ChatService.process_message_try message now post self)
    as [[response | e] s].
  - destruct Hc as [Hc _]. split; [eauto | exact Hc].
  - destruct Hc as [Hc _]. split; [eauto|].
    exists (ChatService.degraded_response e). split; [exact Hc|].
    unfold ChatService.degraded_response. split.
    + rewrite !dom_insert_L, dom_empty_L. set_solver.
    + repeat split; reflexivity.
Qed.

Lemma detect_crisis_level_kill_myself `{PythonRuntime} :
  lower_on_ascii -> detect_crisis_level "I want to kill myself" = "high".
Proof.
  intros Hlower. unfold detect_crisis_level.
  rewrite (Hlower "I want to kill myself" eq_refl). reflexivity.
Qed.

Lemma response_of_fields `{PythonRuntime} (text reply : string)
    (self : ChatService.t) :
  let level := detect_crisis_level text in
  let state := ChatService._detect_emotional_state text in
  let response := response_of text reply self in
  response !! "message" = Some (PStr reply)
  /\ response !! "emotional_state" = Some (PStr (emotion_value state))
  /\ response !! "therapy_approach"
     = Some (PStr (approach_value
                     (ChatService._choose_therapy_approach text state
                        (ChatService.in_high_medium level))))
  /\ response !! "crisis_level" = Some (PStr level)
  /\ response !! "session_id"
     = Some (PStr (str_timestamp
                     (ChatService.session_start
                        (ChatService.session_context self))))
  /\ response !! "crisis_resources"
     = (if String.eqb level "high"
        then Some ChatService._get_crisis_resources else None).
Proof.
  intros level state response. subst response. unfold response_of.
  fold level state.
  destruct (String.eqb level "high"); repeat apply conj; reflexivity.
Qed.

Lemma response_of_dom `{PythonRuntime} (text reply : string)
    (self : ChatService.t) :
  dom (response_of text reply self)
  ⊆ {[ "message"; "emotional_state"; "therapy_approach"; "crisis_level";
       "session_id"; "crisis_resources" ]}.
Proof.
  unfold response_of.
  destruct (String.eqb (detect_crisis_level text) "high");
    rewrite !dom_insert_L, dom_empty_L; intros k; set_unfold; tauto.
Qed.

Lemma hotline_988 :
  hotline ChatService._get_crisis_resources = Some (PStr "988").
Proof. reflexivity. Qed.

(** C2. Whenever the body of [process_message] returns, the message is a
    string and the response has the keys message, emotional_state,
    therapy_approach, crisis_level and session_id and no key besides these
    and crisis_resources.  The crisis level it reports is the one
    [detect_crisis_level] computes for the message, the state and the
    approach are the ones computed for the message, the session id is the
    one of the session, and the reply is what the backend call returned for
    the prompt of the message.  The key crisis_resources is present exactly
    when that computed level is "high", and the payload under it has the
    hotline "988".  For the message "I want to kill myself" ([str.lower]
    lower-casing ASCII text) the crisis level is "high", the approach
    "crisis_intervention", and the payload with hotline "988" is
    attached. *)
Theorem process_message_response_keys `{PythonRuntime} (message uid : pyarg)
    (now : Z) (post : string -> string -> http_outcome)
    (self self' : ChatService.t) (response : gmap string pyval) :
  ChatService.process_message_try message now post self = (Ok response, self') ->
  ChatService.process_message message uid now post self = (Ok response, self')
  /\ exists text reply state approach level session_id : string,
       message = ArgStr text
       /\ level = detect_crisis_level text
       /\ state = emotion_value (ChatService._detect_emotional_state text)
       /\ approach
          = approach_value
              (ChatService._choose_therapy_approach text
                 (ChatService._detect_emotional_state text)
                 (ChatService.in_high_medium (detect_crisis_level text)))
       /\ session_id
          = str_timestamp
              (ChatService.session_start (ChatService.session_context self))
       /\ (exists prompt,
             prompt_of text self = Ok prompt
             /\ ChatService._generate_response (classified text self) prompt
                  post = Ok reply)
       /\ response !! "message" = Some (PStr reply)
       /\ response !! "emotional_state" = Some (PStr state)
       /\ response !! "therapy_approach" = Some (PStr approach)
       /\ response !! "crisis_level" = Some (PStr level)
       /\ response !! "session_id" = Some (PStr session_id)
       /\ dom response
          ⊆ {[ "message"; "emotional_state"; "therapy_approach";
               "crisis_level"; "session_id"; "crisis_resources" ]}
       /\ (is_Some (response !! "crisis_resources") <-> level = "high")
       /\ (forall resources,
             response !! "crisis_resources" = Some resources ->
             resources = ChatService._get_crisis_resources
             /\ hotline resources = Some (PStr "988"))
       /\ (lower_on_ascii ->
           message = ArgStr "I want to kill myself" ->
           level = "high"
           /\ approach = "crisis_intervention"
           /\ exists resources,
                response !! "crisis_resources" = Some resources
                /\ hotline resources = Some (PStr "988")).
Proof.
  intros Hbody.
  pose proof (process_message_cases message uid now post self) as Hc.
  rewrite Hbody in Hc.
  destruct Hc as [Hp _].
  split; [exact Hp|].
  destruct message as [text | type_name];
    [|rewrite process_message_try_other in Hbody; discriminate Hbody].
  rewrite process_message_try_text in Hbody.
  destruct (prompt_of text self) as [prompt | e] eqn:Hprompt;
    [|discriminate Hbody].
  destruct (ChatService._generate_response (classified text self) prompt post)
    as [reply | e] eqn:Hreply; [|discriminate Hbody].
  injection Hbody as Hr _. symmetry in Hr.
  destruct (response_of_fields text reply self)
    as [Fm [Fe [Fa [Fl [Fs Fr]]]]].
  rewrite <- Hr in Fm, Fe, Fa, Fl, Fs, Fr.
  exists text, reply. do 4 eexists.
  split; [reflexivity|]. split; [reflexivity|]. split; [reflexivity|].
  split; [reflexivity|]. split; [reflexivity|].
  split; [exists prompt; split; [exact Hprompt | exact Hreply]|].
  split; [exact Fm|]. split; [exact Fe|]. split; [exact Fa|].
  split; [exact Fl|]. split; [exact Fs|].
  split; [rewrite Hr; apply response_of_dom|].
  rewrite Fr.
  destruct (String.eqb (detect_crisis_level text) "high") eqn:Ehigh.
  - apply String.eqb_eq in Ehigh.
    split; [split; [intros _; exact Ehigh | intros _; eauto]|].
    split.
    + intros resources Hres. injection Hres as <-.
      split; [reflexivity | apply hotline_988].
    + intros Hlower Hmsg. split; [exact Ehigh|].
      rewrite Ehigh. split; [reflexivity|].
      exists ChatService._get_crisis_resources.
      split; [reflexivity | apply hotline_988].
  - apply String.eqb_neq in Ehigh.
    split; [split; [intros [x Hx]; discriminate | intros Hh; contradiction]|].
    split.
    + intros resources Hres. discriminate.
    + intros Hlower Hmsg. exfalso. apply Ehigh.
      injection Hmsg as ->.
      apply detect_crisis_level_kill_myself. exact Hlower.
Qed.

Lemma sample_post_replies (self : ChatService.t) (prompt : string) :
  ChatService._generate_response self prompt sample_post
  = Ok "I hear you. Tell me more.".
Proof. reflexivity. Qed.

Lemma reference_runtime_lower_on_ascii : @lower_on_ascii reference_runtime.
Proof. intros s _. reflexivity. Qed.

Lemma process_message_response_keys_witness :
  exists response self',
    @ChatService.process_message reference_runtime
      (ArgStr "I want to kill myself") (ArgOther "NoneType") 60
      sample_post sample_service
    = (Ok response, self')
    /\ response !! "crisis_level" = Some (PStr "high")
    /\ response !! "therapy_approach" = Some (PStr "crisis_intervention")
    /\ exists resources,
         response !! "crisis_resources" = Some resources
         /\ hotline resources = Some (PStr "988").
Proof.
  destruct (@ChatService.process_message_try reference_runtime
              (ArgStr "I want to kill myself") 60 sample_post
              sample_service) as [[response | e] self'] eqn:Hbody.
  - destruct (@process_message_response_keys reference_runtime
                (ArgStr "I want to kill myself") (ArgOther "NoneType")
                60 sample_post sample_service self' response Hbody)
      as [Hp [text [reply [state [approach [level [sid
            [_ [_ [_ [_ [_ [_ [_ [_ [Ha [Hl [_ [_ [_ [_ Hex]]]]]]]]]]]]]]]]]]]]].
    destruct (Hex reference_runtime_lower_on_ascii eq_refl)
      as [Hlevel [Happroach Hres]].
    rewrite Hlevel in Hl. rewrite Happroach in Ha.
    exists response, self'. auto.
  - exfalso. rewrite process_message_try_text in Hbody.
    destruct (@prompt_of_returns reference_runtime "I want to kill myself"
                sample_service) as [prompt Hprompt].
    rewrite Hprompt, sample_post_replies in Hbody. discriminate Hbody.
Defined.

(** What [start_session] does to the service: the session context is the
    fresh one, the history is the one it found. *)
Lemma start_session_state `{PythonRuntime} (uid : pyarg) (now : Z)
    (draw : nat) (self : ChatService.t) :
  let self' := snd (ChatService.start_session uid now draw self) in
  ChatService.session_context self'
  = {| ChatService.session_start := now;
       ChatService.emotional_state := NEUTRAL;
       ChatService.therapy_approach := CBT;
       ChatService.crisis_detected := false;
       ChatService.session_summary := "";
       ChatService.user_id := Some uid |}
  /\ ChatService.conversation_history self'
     = ChatService.conversation_history self.
Proof.
  unfold ChatService.start_session.
  cbv [ChatService.bind ChatService.lift ChatService.read ChatService.update
       ChatService.ret ChatService.set_context].
  destruct (TherapyPrompts.get_prompt _ _ _ _ _); split; reflexivity.
Qed.

(** C6 (the code departs from it).  One message is processed, then
    [start_session] is called twice.  Each call leaves the fresh session
    context (neutral, CBT, no crisis), but the turn recorded before is
    still in the history after the first and after the second call, and the
    prompt built for the first message of the new session quotes it. *)
Theorem start_session_keeps_earlier_turns :
  let self1 :=
    @after reference_runtime sample_service
      (CallProcessMessage (ArgStr "I feel sad") (ArgOther "NoneType") 60
         sample_post) in
  let self2 :=
    @after reference_runtime self1 (CallStartSession (ArgStr "user456") 120 0) in
  let self3 :=
    @after reference_runtime self2 (CallStartSession (ArgStr "user456") 180 1) in
  ChatService.emotional_state (ChatService.session_context self2) = NEUTRAL
  /\ ChatService.therapy_approach (ChatService.session_context self2) = CBT
  /\ ChatService.crisis_detected (ChatService.session_context self2) = false
  /\ map ChatService.user_message (ChatService.conversation_history self2)
     = ["I feel sad"]
  /\ map ChatService.user_message (ChatService.conversation_history self3)
     = ["I feel sad"]
  /\ exists prompt,
       @prompt_of reference_runtime "Hello" self2 = Ok prompt
       /\ substring ("User: I feel sad" ++ newline
                     ++ "Alex: I hear you. Tell me more.") prompt.
Proof.
  intros self1 self2 self3.
  repeat apply conj; try (vm_compute; reflexivity).
  eexists. split.
  - vm_compute. reflexivity.
  - apply str_in_spec. vm_compute. reflexivity.
Qed.

(** ** The prompt library *)

Module FormatFacts.
Import Format.

Lemma get_field_named (kwargs : gmap string string) (name : string) :
  field_name_ok name = true -> all_digits name = false ->
  get_field kwargs name
  = match kwargs !! name with
    | Some v => Ok v
    | None => Raise (Exn KeyError ("'" ++ name ++ "'"))
    end.
Proof. intros Hok Hd. unfold get_field. rewrite Hok, Hd. reflexivity. Qed.

(** A template whose fields are names renders or raises [KeyError]. *)
Lemma format_from_named (kwargs : gmap string string) (t : string) :
  forall st : state,
    named_fields_from t st = true ->
    (exists s, format_from kwargs t st = Ok s)
    \/ (exists msg, format_from kwargs t st = Raise (Exn KeyError msg)).
Proof.
  induction t as [|c r IH]; intros st Hn.
  - destruct st; try discriminate. left. exists "". reflexivity.
  - destruct st as [| | |acc]; simpl in Hn |- *.
    + destruct (Ascii.eqb c open_brace); [apply IH; exact Hn|].
      destruct (Ascii.eqb c close_brace); [apply IH; exact Hn|].
      destruct (IH Text Hn) as [[s ->] | [msg ->]]; simpl; eauto.
    + destruct (Ascii.eqb c open_brace).
      * destruct (IH Text Hn) as [[s ->] | [msg ->]]; simpl; eauto.
      * destruct (Ascii.eqb c close_brace); [discriminate|].
        apply IH. exact Hn.
    + destruct (Ascii.eqb c close_brace); [|discriminate].
      destruct (IH Text Hn) as [[s ->] | [msg ->]]; simpl; eauto.
    + destruct (Ascii.eqb c close_brace); [|apply IH; exact Hn].
      apply andb_prop in Hn. destruct Hn as [Hn Hr].
      apply andb_prop in Hn. destruct Hn as [Hok Hd].
      apply negb_true_iff in Hd.
      rewrite (get_field_named kwargs acc Hok Hd).
      destruct (kwargs !! acc) as [v|]; simpl; [|eauto].
      destruct (IH Text Hr) as [[s ->] | [msg ->]]; simpl; eauto.
Qed.

(** A template that starts with literal text renders, if it renders, to
    a string that starts with that text. *)
Lemma format_starts_with_text (kwargs : gmap string string) (t s : string) :
  starts_with_text t = true -> format t kwargs = Ok s -> s <> "".
Proof.
  unfold format. destruct t as [|c r]; [discriminate|]. simpl.
  intros Hc. apply andb_prop in Hc. destruct Hc as [Ho Hc].
  apply negb_true_iff in Ho. apply negb_true_iff in Hc.
  rewrite Ho, Hc.
  destruct (format_from kwargs r Text) as [rest|e]; simpl;
    [|discriminate].
  intros Hs. injection Hs as <-. discriminate.
Qed.

Lemma format_well_formed (kwargs : gmap string string) (t : string) :
  well_formed_template t = true -> handled (format t kwargs).
Proof.
  unfold well_formed_template. intros Hw.
  apply andb_prop in Hw. destruct Hw as [Hs Hn].
  destruct (format_from_named kwargs t Text Hn) as [[s Hf] | [msg Hf]].
  - left. exists s. split; [exact Hf|].
    apply (format_starts_with_text kwargs t s Hs Hf).
  - right. eexists. split; [exact Hf | left; reflexivity].
Qed.

Lemma brace_free_named (t : string) :
  brace_free t = true -> named_fields_from t Text = true.
Proof.
  induction t as [|c r IH]; [reflexivity|]. simpl. intros Hb.
  apply andb_prop in Hb. destruct Hb as [Hb Hr].
  apply andb_prop in Hb. destruct Hb as [Ho Hc].
  apply negb_true_iff in Ho. apply negb_true_iff in Hc.
  rewrite Ho, Hc. apply IH. exact Hr.
Qed.

Lemma plain_text_well_formed (t : string) :
  plain_text t = true -> well_formed_template t = true.
Proof.
  unfold plain_text, well_formed_template. intros Hp.
  apply andb_prop in Hp. destruct Hp as [Hne Hb].
  rewrite (brace_free_named t Hb), andb_true_r.
  destruct t as [|c r]; [discriminate|]. simpl in Hb |- *.
  apply andb_prop in Hb. destruct Hb as [Hb _]. exact Hb.
Qed.

End FormatFacts.

Section Renderable.
Import FormatFacts.

Lemma dict_get_renderable (k : pykey) (d : list (pykey * pyobj)) (v : pyobj) :
  renderable (ODict d) = true -> dict_get k d = Some v ->
  renderable v = true.
Proof.
  simpl. induction d as [|[k' v'] d IH]; simpl; [discriminate|].
  intros Hd. apply andb_prop in Hd. destruct Hd as [Hv Hd].
  destruct (pykey_eqb k k').
  - intros Hg. injection Hg as <-. exact Hv.
  - apply IH. exact Hd.
Qed.

Lemma values_renderable (d : list (pykey * pyobj)) :
  renderable (ODict d) = true -> forallb renderable (map snd d) = true.
Proof.
  simpl. induction d as [|[k v] d IH]; simpl; [reflexivity|].
  intros Hd. apply andb_prop in Hd. destruct Hd as [Hv Hd].
  rewrite Hv, (IH Hd). reflexivity.
Qed.

Lemma find_nested_renderable (sub : string) (vals : list pyobj) (p : pyobj) :
  forallb renderable vals = true ->
  TherapyPrompts.find_nested sub vals = Some p ->
  renderable p = true.
Proof.
  induction vals as [|o vals IH]; simpl; [discriminate|].
  intros Hv. apply andb_prop in Hv. destruct Hv as [Ho Hv].
  destruct o as [s | l | d |]; try (apply IH; exact Hv).
  destruct (dict_get (KStr sub) d) as [q|] eqn:Eq.
  - intros Hp. injection Hp as <-.
    apply (dict_get_renderable (KStr sub) d q Ho Eq).
  - apply IH. exact Hv.
Qed.

Lemma random_choice_renderable (l : list pyobj) (draw : nat) :
  renderable (OList l) = true ->
  exists x, random_choice l draw = Ok x /\ renderable x = true.
Proof.
  intros Hl. unfold random_choice.
  assert (Hne : l <> []) by (destruct l; [discriminate | discriminate]).
  assert (Hall : forallb renderable l = true)
    by (destruct l; [discriminate | exact Hl]).
  assert (Hlt : (draw mod List.length l < List.length l)%nat).
  { apply Nat.mod_upper_bound. destruct l; [contradiction | discriminate]. }
  destruct (lookup_lt_is_Some_2 l _ Hlt) as [x Hx].
  rewrite Hx. exists x. split; [reflexivity|].
  rewrite forallb_forall in Hall. apply Hall.
  apply list_elem_of_In. apply (list_elem_of_lookup_2 l _ x Hx).
Qed.

Lemma format_obj_renderable (o : pyobj) (kwargs : gmap string string) :
  renderable o = true -> handled (TherapyPrompts.format_obj o kwargs).
Proof.
  destruct o as [t | l | d |]; simpl; intros Ho.
  - apply format_well_formed. exact Ho.
  - right. eexists. split; [reflexivity | right; reflexivity].
  - right. eexists. split; [reflexivity | right; reflexivity].
  - right. eexists. split; [reflexivity | right; reflexivity].
Qed.

Lemma render_renderable (prompts : pyobj) (kwargs : gmap string string)
    (draw : nat) :
  renderable prompts = true -> handled (render prompts kwargs draw).
Proof.
  intros Hp. unfold render.
  destruct prompts as [t | l | d |];
    try (apply format_obj_renderable; exact Hp).
  destruct (random_choice_renderable l draw Hp) as [x [-> Hx]].
  apply format_obj_renderable. exact Hx.
Qed.

(** What the [if subcategory:] statement yields on a renderable object. *)
Lemma select_prompts_renderable (prompts_dict : pyobj)
    (subcategory : option string) :
  renderable prompts_dict = true ->
  TherapyPrompts.select_prompts prompts_dict subcategory
  = Ok (inl TherapyPrompts.not_found_fallback)
  \/ (exists prompts,
        TherapyPrompts.select_prompts prompts_dict subcategory
        = Ok (inr prompts)
        /\ renderable prompts = true)
  \/ (exists msg,
        TherapyPrompts.select_prompts prompts_dict subcategory
        = Raise (Exn AttributeError msg)).
Proof.
  intros Hd. unfold TherapyPrompts.select_prompts.
  destruct subcategory as [sub|]; [|right; left; eauto].
  destruct (String.eqb sub ""); [right; left; eauto|].
  destruct prompts_dict as [t | l | d |]; simpl;
    try (right; right; eauto; fail).
  destruct (dict_get (KStr sub) d) as [p|] eqn:Ep.
  - right. left. exists p. split; [reflexivity|].
    apply (dict_get_renderable (KStr sub) d p Hd Ep).
  - destruct (TherapyPrompts.find_nested sub (map snd d)) as [p|] eqn:Ef.
    + right. left. exists p. split; [reflexivity|].
      apply (find_nested_renderable sub (map snd d) p
               (values_renderable d Hd) Ef).
    + left. reflexivity.
Qed.

Lemma instance_dict_renderable :
  renderable (ODict (TherapyPrompts.instance_dict TherapyPrompts.__init__))
  = true.
Proof. vm_compute. reflexivity. Qed.

Context `{PythonRuntime}.
Hypothesis class_renderable : class_attrs_renderable.

(** Attribute lookup on the library yields a renderable object or raises
    [AttributeError]. *)
Lemma getattr_renderable (name : string) :
  (exists o,
      TherapyPrompts.getattr TherapyPrompts.__init__ name = Ok o
      /\ renderable o = true)
  \/ (exists msg,
        TherapyPrompts.getattr TherapyPrompts.__init__ name
        = Raise (Exn AttributeError msg)).
Proof.
  unfold TherapyPrompts.getattr.
  destruct (dict_get (KStr name)
              (TherapyPrompts.instance_dict TherapyPrompts.__init__))
    as [o|] eqn:Eo.
  - left. exists o. split; [reflexivity|].
    apply (dict_get_renderable _ _ o instance_dict_renderable Eo).
  - destruct (String.eqb name "__dict__").
    + left. eexists. split; [reflexivity | apply instance_dict_renderable].
    + destruct (class_attr name) as [o|] eqn:Ec; [|right; eauto].
      left. exists o. split; [reflexivity|].
      apply (class_renderable name o Ec).
Qed.

Lemma get_prompt_try_unfold (self : TherapyPrompts.t) (category : string)
    (subcategory : option string) (kwargs : gmap string string)
    (draw : nat) :
  TherapyPrompts.get_prompt_try self category subcategory kwargs draw
  = if String.eqb category "base_system"
    then Ok (TherapyPrompts.base_system_prompt self)
    else
      (prompts_dict <- TherapyPrompts.getattr self category ;;
       sel <- TherapyPrompts.select_prompts prompts_dict subcategory ;;
       match sel with
       | inl early => Ok early
       | inr prompts => render prompts kwargs draw
       end)%result.
Proof. reflexivity. Qed.

Lemma get_prompt_try_handled (category : string)
    (subcategory : option string) (kwargs : gmap string string)
    (draw : nat) :
  handled (TherapyPrompts.get_prompt_try TherapyPrompts.__init__ category
             subcategory kwargs draw).
Proof.
  rewrite get_prompt_try_unfold.
  destruct (String.eqb category "base_system").
  - left. eexists. split; [reflexivity | discriminate].
  - destruct (getattr_renderable category) as [[o [-> Ho]] | [msg ->]];
      simpl; [|right; eexists; split; [reflexivity | right; reflexivity]].
    destruct (select_prompts_renderable o subcategory Ho)
      as [-> | [[p [-> Hp]] | [msg ->]]]; simpl.
    + left. eexists. split; [reflexivity | discriminate].
    + apply render_renderable. exact Hp.
    + right. eexists. split; [reflexivity | right; reflexivity].
Qed.

End Renderable.

Lemma try_except_handled (r : result string) :
  handled r ->
  (exists s, r = Ok s /\ s <> ""
             /\ Result.try_except r [AttributeError; KeyError; ValueError]
                  (fun _ => Ok TherapyPrompts.error_fallback) = Ok s)
  \/ (exists e, r = Raise e
                /\ Result.try_except r [AttributeError; KeyError; ValueError]
                     (fun _ => Ok TherapyPrompts.error_fallback)
                   = Ok TherapyPrompts.error_fallback).
Proof.
  intros [[s [-> Hs]] | [e [-> Hcls]]].
  - left. exists s. repeat split; [exact Hs].
  - right. exists e. split; [reflexivity|].
    unfold Result.try_except. destruct Hcls as [-> | ->]; reflexivity.
Qed.

(** C5, as the code has it.  [get_prompt] on the library that
    [TherapyPrompts()] builds returns a nonempty string for every category,
    subcategory, keyword arguments and random draw.  A category that names
    no attribute of the library yields the error fallback "I'm here to
    listen and support you. What's on your mind?"; a nonempty subcategory
    that is a key neither of the category's dictionary nor of a dictionary
    nested in it yields the not-found fallback "I'm here to support you.
    What would you like to talk about?"; and when a group is found but
    choosing from it or formatting the chosen template raises (a
    placeholder that is not supplied), the error fallback is returned. *)
Theorem get_prompt_total `{PythonRuntime} (category : string)
    (subcategory : option string) (kwargs : gmap string string) (draw : nat) :
  class_attrs_renderable ->
  let self := TherapyPrompts.__init__ in
  let answer :=
    TherapyPrompts.get_prompt self category subcategory kwargs draw in
  (exists s, answer = Ok s /\ s <> "")
  /\ (category <> "base_system" ->
      forall e,
        TherapyPrompts.getattr self category = Raise e ->
        answer = Ok "I'm here to listen and support you. What's on your mind?")
  /\ (category <> "base_system" ->
      forall d sub,
        TherapyPrompts.getattr self category = Ok (ODict d) ->
        subcategory = Some sub -> sub <> "" ->
        dict_get (KStr sub) d = None ->
        TherapyPrompts.find_nested sub (map snd d) = None ->
        answer
        = Ok "I'm here to support you. What would you like to talk about?")
  /\ (category <> "base_system" ->
      forall prompts_dict prompts e,
        TherapyPrompts.getattr self category = Ok prompts_dict ->
        TherapyPrompts.select_prompts prompts_dict subcategory
        = Ok (inr prompts) ->
        render prompts kwargs draw = Raise e ->
        answer = Ok "I'm here to listen and support you. What's on your mind?").
Proof.
  intros Hplain self answer. subst answer self.
  unfold TherapyPrompts.get_prompt.
  pose proof (get_prompt_try_handled Hplain category subcategory kwargs draw)
    as Hh.
  split; [|split; [|split]].
  - destruct (try_except_handled _ Hh) as [[s [_ [Hs ->]]] | [e [_ ->]]].
    + exists s. split; [reflexivity | exact Hs].
    + eexists. split; [reflexivity | discriminate].
  - intros Hcat e He.
    apply String.eqb_neq in Hcat.
    rewrite get_prompt_try_unfold, Hcat, He in Hh |- *. cbn [Result.bind] in Hh |- *.
    destruct (try_except_handled _ Hh) as [[s [Hs _]] | [e' [_ ->]]];
      [discriminate | reflexivity].
  - intros Hcat d sub Hd -> Hsub Hget Hnest.
    apply String.eqb_neq in Hcat. apply String.eqb_neq in Hsub.
    rewrite get_prompt_try_unfold, Hcat, Hd. simpl.
    unfold TherapyPrompts.select_prompts.
    rewrite Hsub, Hget. simpl. rewrite Hnest. reflexivity.
  - intros Hcat prompts_dict prompts e Hd Hsel Hr.
    apply String.eqb_neq in Hcat.
    rewrite get_prompt_try_unfold, Hcat, Hd in Hh |- *. cbn [Result.bind] in Hh |- *.
    rewrite Hsel in Hh |- *. cbn [Result.bind] in Hh |- *.
    rewrite Hr in Hh |- *.
    destruct (try_except_handled _ Hh) as [[s [Hs _]] | [e' [_ ->]]];
      [discriminate | reflexivity].
Qed.

Lemma reference_class_attrs_renderable :
  @class_attrs_renderable reference_runtime.
Proof.
  intros name o. unfold class_attr, reference_runtime.
  destruct (bool_decide _); [intros [= <-]; reflexivity|].
  destruct (String.eqb name "__doc__");
    [intros [= <-]; apply FormatFacts.plain_text_well_formed; vm_compute; reflexivity|].
  destruct (String.eqb name "__module__"); [|discriminate].
  intros [= <-]. apply FormatFacts.plain_text_well_formed. vm_compute. reflexivity.
Qed.

Lemma get_prompt_total_witness :
  exists s,
    @TherapyPrompts.get_prompt reference_runtime TherapyPrompts.__init__
      "therapeutic_techniques" (Some "thought_challenging")
      {[ "negative_thought" := "I always fail" ]} 0
    = Ok s
    /\ s <> "".
Proof.
  exact (proj1 (@get_prompt_total reference_runtime "therapeutic_techniques"
                  (Some "thought_challenging")
                  {[ "negative_thought" := "I always fail" ]} 0
                  reference_class_attrs_renderable)).
Defined.

(** C5, as stated, fails for an unresolved category: the answer is the
    error fallback, not the not-found fallback. *)
Lemma get_prompt_unknown_category :
  @TherapyPrompts.getattr reference_runtime TherapyPrompts.__init__
    "coping_skills"
  = Raise (Exn AttributeError
             "'TherapyPrompts' object has no attribute 'coping_skills'")
  /\ @TherapyPrompts.get_prompt reference_runtime TherapyPrompts.__init__
       "coping_skills" (Some "breathing") ∅ 0
     = Ok "I'm here to listen and support you. What's on your mind?"
  /\ @TherapyPrompts.get_prompt reference_runtime TherapyPrompts.__init__
       "coping_skills" (Some "breathing") ∅ 0
     <> Ok "I'm here to support you. What would you like to talk about?".
Proof.
  split; [vm_compute; reflexivity|].
  split; [vm_compute; reflexivity|].
  vm_compute. discriminate.
Qed.

Lemma build_prompt_history_window_witness :
  exists older t1 t2 t3,
    older <> []
    /\ ChatService.conversation_history four_turn_service
       = (older ++ [t1; t2; t3])%list
    /\ ChatService._build_therapeutic_prompt four_turn_service "fifth"
         NEUTRAL CBT false
       = Ok (prompt_before TherapyPrompts.__init__ NEUTRAL CBT false
             ++ exchange t1 ++ exchange t2 ++ exchange t3
             ++ "User: " ++ "fifth"
             ++ prompt_after CBT).
Proof.
  apply (build_prompt_history_window four_turn_service "fifth" NEUTRAL CBT
           false).
  vm_compute. lia.
Defined.

(** ** The crisis-detection checks of [test_therapy_prompts.py] and the
    scenarios of the specification, evaluated *)

Example base_system_prompt_names_alex :
  exists prompt,
    @TherapyPrompts.get_prompt reference_runtime TherapyPrompts.__init__
      "base_system" None ∅ 0 = Ok prompt
    /\ str_in "Alex" prompt = true.
Proof. eexists. split; vm_compute; reflexivity. Qed.

Example test_crisis_detection_high :
  @detect_crisis_level reference_runtime "I want to kill myself" = "high".
Proof. vm_compute. reflexivity. Qed.

Example test_crisis_detection_medium :
  @detect_crisis_level reference_runtime "I feel hopeless and want to give up"
  = "medium".
Proof. vm_compute. reflexivity. Qed.

Example test_crisis_detection_none :
  @detect_crisis_level reference_runtime "I'm just a bit tired today" = "none".
Proof. vm_compute. reflexivity. Qed.

Example scenario_anxious_presentation :
  let response :=
    fst (@ChatService.process_message reference_runtime
           (ArgStr "I'm feeling really anxious about my presentation")
           (ArgOther "NoneType") 60 sample_post sample_service) in
  match response with
  | Ok r =>
      r !! "emotional_state" = Some (PStr "anxious")
      /\ r !! "crisis_level" = Some (PStr "none")
      /\ r !! "therapy_approach" = Some (PStr "cognitive_behavioral_therapy")
      /\ r !! "crisis_resources" = None
  | Raise _ => False
  end.
Proof. vm_compute. repeat split. Qed.

Example scenario_end_without_conversation :
  let response :=
    fst (@ChatService.end_session reference_runtime 60 0 sample_service) in
  match response with
  | Ok r =>
      r !! "session_summary"
      = Some (PStr "Session ended without any conversation.")
      /\ r !! "total_exchanges" = Some (PInt 0)
  | Raise _ => False
  end.
Proof. vm_compute. repeat split. Qed.

Example scenario_summary_counts :
  ChatService._generate_session_summary
    (@after_all reference_runtime sample_service
       [ CallProcessMessage (ArgStr "I feel sad") (ArgOther "NoneType") 60
           sample_post;
         CallProcessMessage (ArgStr "I am worried and hopeless")
           (ArgOther "NoneType") 120 sample_post;
         CallProcessMessage (ArgStr "still so sad") (ArgOther "NoneType") 180
           sample_post ])
  = "Session focused on depressed experiences. Crisis indicators were detected 1 times. Total of 3 exchanges occurred.".
Proof. vm_compute. reflexivity. Qed.

(** * Further properties of the code *)

(** ** Lookups and random choice *)

Lemma random_choice_In {A} (l : list A) (draw : nat) :
  l <> [] -> exists x, random_choice l draw = Ok x /\ In x l.
Proof.
  intros Hne. unfold random_choice.
  assert (Hlt : (draw mod List.length l < List.length l)%nat).
  { apply Nat.mod_upper_bound. destruct l; [contradiction | discriminate]. }
  destruct (lookup_lt_is_Some_2 l _ Hlt) as [x Hx].
  rewrite Hx. exists x. split; [reflexivity|].
  apply list_elem_of_In. apply (list_elem_of_lookup_2 l _ x Hx).
Qed.

Lemma assoc_get_In {K V} (eqb : K -> K -> bool) (k : K) (d : list (K * V))
    (v : V) :
  assoc_get eqb k d = Some v -> exists k', In (k', v) d.
Proof.
  induction d as [|[k' v'] d IH]; simpl; [discriminate|].
  destruct (eqb k k').
  - intros [= <-]. exists k'. left. reflexivity.
  - intros Hg. destruct (IH Hg) as [k'' Hin]. exists k''. right. exact Hin.
Qed.

Lemma groups_well_formed_get {K} (eqb : K -> K -> bool) (k : K)
    (table : list (K * list string)) (group : list string) :
  groups_well_formed table = true ->
  assoc_get eqb k table = Some group ->
  group <> []
  /\ forall t, In t group -> Format.well_formed_template t = true.
Proof.
  intros Hw Hg. destruct (assoc_get_In eqb k table group Hg) as [k' Hin].
  unfold groups_well_formed in Hw. rewrite forallb_forall in Hw.
  specialize (Hw (k', group) Hin). simpl in Hw.
  destruct group as [|t0 group]; [discriminate|].
  split; [discriminate|]. intros t Ht.
  rewrite forallb_forall in Hw. apply Hw. exact Ht.
Qed.

(** A well-formed template renders to a nonempty string or raises
    [KeyError] for a placeholder that was not supplied. *)
Lemma format_well_formed_cases (kwargs : gmap string string) (t : string) :
  Format.well_formed_template t = true ->
  (exists s, Format.format t kwargs = Ok s /\ s <> "")
  \/ (exists msg, Format.format t kwargs = Raise (Exn KeyError msg)).
Proof.
  unfold Format.well_formed_template. intros Hw.
  apply andb_prop in Hw. destruct Hw as [Hs Hn].
  destruct (FormatFacts.format_from_named kwargs t Format.Text Hn)
    as [[s Hf] | [msg Hf]].
  - left. exists s. split; [exact Hf|].
    apply (FormatFacts.format_starts_with_text kwargs t s Hs Hf).
  - right. exists msg. exact Hf.
Qed.

(** Text without braces is rendered as it is. *)
Lemma format_brace_free (kwargs : gmap string string) (t : string) :
  Format.brace_free t = true -> Format.format t kwargs = Ok t.
Proof.
  unfold Format.format. induction t as [|c r IH]; [reflexivity|]. simpl.
  intros Hb. apply andb_prop in Hb. destruct Hb as [Hb Hr].
  apply andb_prop in Hb. destruct Hb as [Ho Hc].
  apply negb_true_iff in Ho. apply negb_true_iff in Hc.
  rewrite Ho, Hc, (IH Hr). reflexivity.
Qed.

Lemma detect_crisis_level_labels `{PythonRuntime} (text : string) :
  detect_crisis_level text = "high"
  \/ detect_crisis_level text = "medium"
  \/ detect_crisis_level text = "none".
Proof.
  unfold detect_crisis_level.
  repeat match goal with
         | |- context [keyword_loop ?ks ?s] => destruct (keyword_loop ks s)
         end; auto.
Qed.

(** ** The other accessors of the prompt library *)

(** X1. [get_crisis_intervention_prompt] never raises: for a level that is
    a key of [crisis_prompts] it returns one of that key's scripts, for
    every other level one of the "immediate_safety" scripts.  The levels
    [detect_crisis_level] produces ("high", "medium", "none") are no keys,
    so for them the script is always an "immediate_safety" one. *)
Theorem crisis_intervention_prompt_scripts `{PythonRuntime} (level : string)
    (text : string) (draw : nat) :
  let table := TherapyPrompts.crisis_prompts TherapyPrompts.__init__ in
  (exists s scripts,
      TherapyPrompts.get_crisis_intervention_prompt TherapyPrompts.__init__
        level draw = Ok s
      /\ In s scripts
      /\ assoc_get String.eqb
           (match assoc_get String.eqb level table with
            | Some _ => level
            | None => "immediate_safety"
            end) table = Some scripts)
  /\ assoc_get String.eqb (detect_crisis_level text) table = None.
Proof.
  intros table. split.
  - unfold TherapyPrompts.get_crisis_intervention_prompt, subscript.
    fold table.
    assert (Hw : groups_well_formed table = true) by (vm_compute; reflexivity).
    assert (Hd : assoc_get String.eqb "immediate_safety" table
                 = Some [ "Your safety is the most important thing right now. Are you currently in immediate danger?";
                          "I'm very concerned about you. Do you have thoughts of hurting yourself or ending your life?";
                          "Right now, in this moment, are you safe? That's what matters most." ])
      by reflexivity.
    rewrite Hd. cbn [Result.bind].
    destruct (assoc_get String.eqb level table) as [scripts|] eqn:El.
    + destruct (groups_well_formed_get String.eqb level table scripts Hw El)
        as [Hne _].
      destruct (random_choice_In scripts draw Hne) as [s [Hs Hin]].
      exists s, scripts. auto.
    + destruct (groups_well_formed_get String.eqb "immediate_safety" table _
                  Hw Hd) as [Hne _].
      destruct (random_choice_In _ draw Hne) as [s [Hs Hin]].
      eexists s, _. split; [exact Hs|]. split; [exact Hin | exact Hd].
  - destruct (detect_crisis_level_labels text) as [-> | [-> | ->]];
      reflexivity.
Qed.

(** X2. [get_emotional_response] never raises: it returns one of the
    responses listed for the emotional state, and for the state [CRISIS],
    which has no list, one of the responses listed for [NEUTRAL]. *)
Theorem emotional_response_listed (emotion : EmotionalState) (draw : nat) :
  exists s responses,
    TherapyPrompts.get_emotional_response TherapyPrompts.__init__ emotion draw
    = Ok s
    /\ In s responses
    /\ assoc_get emotion_eqb
         (match emotion with CRISIS => NEUTRAL | listed => listed end)
         (TherapyPrompts.emotional_responses TherapyPrompts.__init__)
       = Some responses.
Proof.
  set (table := TherapyPrompts.emotional_responses TherapyPrompts.__init__).
  assert (Hw : groups_well_formed table = true) by (vm_compute; reflexivity).
  assert (Hall : exists responses,
             assoc_get emotion_eqb
               (match emotion with CRISIS => NEUTRAL | listed => listed end)
               table = Some responses
             /\ TherapyPrompts.get_emotional_response TherapyPrompts.__init__
                  emotion draw = random_choice responses draw).
  { destruct emotion; eexists; split; reflexivity. }
  destruct Hall as [responses [Hget Heq]].
  destruct (groups_well_formed_get emotion_eqb _ table responses Hw Hget)
    as [Hne _].
  destruct (random_choice_In responses draw Hne) as [s [Hs Hin]].
  exists s, responses. rewrite Heq. auto.
Qed.

(** X3. [get_therapeutic_response] never raises and returns a nonempty
    string.  When the approach has no table (crisis intervention) or the
    technique is no key of the approach's table, the string is the fixed
    fallback; otherwise a template of the technique's group is chosen, and
    the string is its rendering, or the fallback when a placeholder of the
    template is not supplied. *)
Theorem therapeutic_response_total (approach : TherapyApproach)
    (technique : string) (kwargs : gmap string string) (draw : nat) :
  exists s,
    TherapyPrompts.get_therapeutic_response TherapyPrompts.__init__ approach
      technique kwargs draw = Ok s
    /\ s <> ""
    /\ technique_group CRISIS_INTERVENTION technique = None
    /\ match technique_group approach technique with
       | None =>
           s = "I understand this is difficult. Can you tell me more about what you're experiencing?"
       | Some group =>
           exists template,
             random_choice group draw = Ok template
             /\ In template group
             /\ s = match Format.format template kwargs with
                    | Ok rendered => rendered
                    | Raise _ =>
                        "I understand this is difficult. Can you tell me more about what you're experiencing?"
                    end
       end.
Proof.
  unfold TherapyPrompts.get_therapeutic_response, technique_group, subscript.
  set (table := TherapyPrompts.therapeutic_techniques TherapyPrompts.__init__).
  assert (Hw : forallb (fun kv => groups_well_formed (snd kv)) table = true)
    by (vm_compute; reflexivity).
  destruct (assoc_get approach_eqb approach table) as [techniques|] eqn:Ea;
    cbn [Result.bind Result.try_except existsb exn_cls exn_class_eqb orb].
  2:{ eexists. repeat apply conj; [reflexivity | discriminate | reflexivity
                                   | reflexivity]. }
  destruct (assoc_get_In approach_eqb approach table techniques Ea)
    as [a' Hin].
  rewrite forallb_forall in Hw. specialize (Hw (a', techniques) Hin).
  simpl in Hw.
  destruct (assoc_get String.eqb technique techniques) as [group|] eqn:Et;
    cbn [Result.bind Result.try_except existsb exn_cls exn_class_eqb orb].
  2:{ eexists. repeat apply conj; [reflexivity | discriminate | reflexivity
                                   | reflexivity]. }
  destruct (groups_well_formed_get String.eqb technique techniques group Hw Et)
    as [Hne Hwf].
  destruct (random_choice_In group draw Hne) as [template [Hc Hint]].
  rewrite Hc. cbn [Result.bind].
  destruct (format_well_formed_cases kwargs template (Hwf template Hint))
    as [[s [Hs Hnz]] | [msg Hs]]; rewrite Hs;
    cbn [Result.try_except existsb exn_cls exn_class_eqb orb].
  - exists s. repeat apply conj; [reflexivity | exact Hnz | reflexivity|].
    exists template. rewrite Hs. auto.
  - eexists. repeat apply conj; [reflexivity | discriminate | reflexivity|].
    exists template. rewrite Hs. auto.
Qed.

(** ** Placeholders *)

Lemma get_field_supplied (kwargs : gmap string string) (name v : string) :
  Format.field_name_ok name = true -> Format.all_digits name = false ->
  kwargs !! name = Some v -> Format.get_field kwargs name = Ok v.
Proof.
  intros Hok Hd Hv. unfold Format.get_field. rewrite Hok, Hd, Hv. reflexivity.
Qed.

(** Inside a replacement field the pass reads to the closing brace, then
    looks the name up and goes on behind the brace. *)
Lemma format_from_field (kwargs : gmap string string) (post : string) :
  forall name acc : string,
    no_close_brace name = true ->
    Format.format_from kwargs (name ++ String Format.close_brace post)
      (Format.Field acc)
    = (v <- Format.get_field kwargs (acc ++ name) ;;
       rest <- Format.format_from kwargs post Format.Text ;;
       Ok (v ++ rest))%result.
Proof.
  induction name as [|c name IH]; intros acc Hn.
  - simpl. rewrite append_nil_r. reflexivity.
  - simpl in Hn. apply andb_prop in Hn. destruct Hn as [Hc Hn].
    apply negb_true_iff in Hc. simpl. rewrite Hc, (IH _ Hn), append_assoc.
    reflexivity.
Qed.

(** A template [pre{name}post] with [name] supplied renders to [pre],
    the value, and the rendering of [post]. *)
Lemma format_placeholder (kwargs : gmap string string)
    (pre name post v rendered : string) :
  Format.brace_free pre = true ->
  Format.field_name_ok name = true -> no_close_brace name = true ->
  Format.all_digits name = false ->
  kwargs !! name = Some v ->
  Format.format post kwargs = Ok rendered ->
  Format.format
    (pre ++ String Format.open_brace (name ++ String Format.close_brace post))
    kwargs
  = Ok (pre ++ v ++ rendered).
Proof.
  intros Hpre Hok Hnc Hd Hv Hpost. unfold Format.format in *.
  induction pre as [|c pre IH].
  - destruct name as [|c name]; [discriminate|].
    simpl in Hok, Hnc.
    apply andb_prop in Hok. destruct Hok as [Hc1 Hok'].
    apply andb_prop in Hnc. destruct Hnc as [Hc2 Hnc'].
    apply negb_true_iff in Hc2.
    assert (Ho : Ascii.eqb c Format.open_brace = false).
    { unfold Format.field_char_ok in Hc1. apply negb_true_iff in Hc1.
      repeat (apply orb_false_elim in Hc1; destruct Hc1 as [Hc1 ?]).
      assumption. }
    simpl. rewrite Ho, Hc2, (format_from_field kwargs post name _ Hnc').
    change (String c "" ++ name) with (String c name).
    rewrite (get_field_supplied kwargs (String c name) v); try assumption.
    + simpl. rewrite Hpost. reflexivity.
    + simpl. rewrite Hc1, Hok'. reflexivity.
  - simpl in Hpre. apply andb_prop in Hpre. destruct Hpre as [Hb Hpre].
    apply andb_prop in Hb. destruct Hb as [Ho Hc].
    apply negb_true_iff in Ho. apply negb_true_iff in Hc.
    simpl. rewrite Ho, Hc, (IH Hpre). reflexivity.
Qed.

(** X4. [get_therapeutic_response] for CBT thought challenging, the thought
    being supplied: of the three templates only the first and the third
    quote the thought.  When the random choice falls on the second the
    answer is that template whatever the thought, otherwise the answer
    quotes the thought. *)
Theorem thought_challenging_quotes_thought (kwargs : gmap string string)
    (thought : string) (draw : nat) :
  kwargs !! "negative_thought" = Some thought ->
  exists s,
    TherapyPrompts.get_therapeutic_response TherapyPrompts.__init__ CBT
      "thought_challenging" kwargs draw = Ok s
    /\ ((draw mod 3 = 1)%nat ->
        s = "That sounds like a really difficult thought to have. Can you think of any alternative ways to look at this situation?")
    /\ ((draw mod 3 <> 1)%nat -> substring ("'" ++ thought ++ "'") s).
Proof.
  intros Hv.
  unfold TherapyPrompts.get_therapeutic_response.
  change (subscript approach_eqb approach_value CBT
            (TherapyPrompts.therapeutic_techniques TherapyPrompts.__init__))
    with (Ok (A := list (string * list string))
            [ ("thought_challenging",
               [ "I notice you mentioned '{negative_thought}'. Let's examine this together. What evidence do you have that supports this thought?";
                 "That sounds like a really difficult thought to have. Can you think of any alternative ways to look at this situation?";
                 "When you think '{negative_thought}', how does that make you feel? Let's explore if this thought is helpful or accurate." ]);
              ("behavioral_activation",
               [ "What activities used to bring you joy or satisfaction? How might we gradually reintroduce some of these?";
                 "Let's think about small, manageable steps you could take today that might improve your mood, even slightly.";
                 "What would a valued activity look like for you this week? Something that aligns with what matters to you?" ]);
              ("cognitive_restructuring",
               [ "I'm hearing some 'all-or-nothing' thinking. Life often exists in the gray areas. What might a more balanced perspective look like?";
                 "You mentioned '{catastrophic_thought}'. What would you tell a close friend who had this same worry?";
                 "Let's try a thought experiment. What's the most realistic outcome of this situation?" ]) ]).
  cbn [Result.bind subscript assoc_get String.eqb Ascii.eqb Bool.eqb].
  unfold random_choice. cbn [List.length].
  assert (Hlt : (draw mod 3 < 3)%nat) by (apply Nat.mod_upper_bound; lia).
  destruct (draw mod 3)%nat as [|[|[|n]]] eqn:Em; [| | |lia];
    cbn [lookup list_lookup Result.bind].
  - assert (Hf : Format.format
                   "I notice you mentioned '{negative_thought}'. Let's examine this together. What evidence do you have that supports this thought?"
                   kwargs
                 = Ok ("I notice you mentioned '" ++ thought
                       ++ "'. Let's examine this together. What evidence do you have that supports this thought?")).
    { exact (format_placeholder kwargs "I notice you mentioned '"
               "negative_thought"
               "'. Let's examine this together. What evidence do you have that supports this thought?"
               thought _ eq_refl eq_refl eq_refl eq_refl Hv
               (format_brace_free kwargs
                  "'. Let's examine this together. What evidence do you have that supports this thought?"
                  eq_refl)). }
    rewrite Hf. eexists. split; [reflexivity|]. split; [lia|]. intros _.
    exists "I notice you mentioned ",
      ". Let's examine this together. What evidence do you have that supports this thought?".
    rewrite !append_assoc. reflexivity.
  - rewrite (format_brace_free kwargs
               "That sounds like a really difficult thought to have. Can you think of any alternative ways to look at this situation?"
               eq_refl).
    eexists. split; [reflexivity|]. split; [reflexivity | lia].
  - assert (Hf : Format.format
                   "When you think '{negative_thought}', how does that make you feel? Let's explore if this thought is helpful or accurate."
                   kwargs
                 = Ok ("When you think '" ++ thought
                       ++ "', how does that make you feel? Let's explore if this thought is helpful or accurate.")).
    { exact (format_placeholder kwargs "When you think '"
               "negative_thought"
               "', how does that make you feel? Let's explore if this thought is helpful or accurate."
               thought _ eq_refl eq_refl eq_refl eq_refl Hv
               (format_brace_free kwargs
                  "', how does that make you feel? Let's explore if this thought is helpful or accurate."
                  eq_refl)). }
    rewrite Hf. eexists. split; [reflexivity|]. split; [lia|]. intros _.
    exists "When you think ",
      ", how does that make you feel? Let's explore if this thought is helpful or accurate.".
    rewrite !append_assoc. reflexivity.
Qed.

Lemma thought_challenging_quotes_thought_witness :
  exists s,
    TherapyPrompts.get_therapeutic_response TherapyPrompts.__init__ CBT
      "thought_challenging" {[ "negative_thought" := "I'm not good enough" ]} 4
    = Ok s
    /\ s = "That sounds like a really difficult thought to have. Can you think of any alternative ways to look at this situation?".
Proof.
  destruct (thought_challenging_quotes_thought
              {[ "negative_thought" := "I'm not good enough" ]}
              "I'm not good enough" 4 (lookup_singleton_eq _ _))
    as [s [Hs [H1 _]]].
  exists s. split; [exact Hs | apply H1; reflexivity].
Defined.

(** ** The prompt composer, beyond the service *)

Lemma last3_of_long {A} (older : list A) (s1 s2 s3 : A) :
  TherapyPrompts.last3 (older ++ [s1; s2; s3])%list = [s1; s2; s3].
Proof.
  unfold TherapyPrompts.last3. rewrite length_app. simpl.
  replace (List.length older + 3 - 3)%nat with (List.length older) by lia.
  apply drop_app_length.
Qed.

(** X5. The summaries of earlier sessions that [build_contextual_prompt]
    takes: an empty list is as good as none, and of a list of three or
    more summaries exactly the last three reach the prompt, oldest first,
    each on a line of its own under "PREVIOUS SESSION CONTEXT:". *)
Theorem session_history_window (self : TherapyPrompts.t)
    (base_context : string) (e : EmotionalState) (a : TherapyApproach)
    (crisis : bool) :
  TherapyPrompts.build_contextual_prompt self base_context e a (Some [])
    crisis
  = TherapyPrompts.build_contextual_prompt self base_context e a None crisis
  /\ forall (older : list string) (s1 s2 s3 : string),
       TherapyPrompts.build_contextual_prompt self base_context e a
         (Some (older ++ [s1; s2; s3])%list) crisis
       = Ok (prompt_persona self crisis
             ++ "CURRENT EMOTIONAL STATE: " ++ emotion_value e ++ newline
             ++ "RECOMMENDED THERAPEUTIC APPROACH: " ++ approach_value a
             ++ newline ++ newline
             ++ "PREVIOUS SESSION CONTEXT:" ++ newline
             ++ "- " ++ s1 ++ newline
             ++ "- " ++ s2 ++ newline
             ++ "- " ++ s3 ++ newline
             ++ newline
             ++ "CURRENT CONVERSATION CONTEXT:" ++ newline
             ++ base_context ++ prompt_after a).
Proof.
  split; [reflexivity|]. intros older s1 s2 s3.
  unfold TherapyPrompts.build_contextual_prompt.
  rewrite approach_guidance_total.
  destruct (older ++ [s1; s2; s3])%list as [|x rest] eqn:E.
  - destruct older; discriminate E.
  - rewrite <- E, last3_of_long.
    change (TherapyPrompts.session_lines [s1; s2; s3])
      with ("- " ++ s1 ++ newline ++ "- " ++ s2 ++ newline
            ++ "- " ++ s3 ++ newline ++ "").
    unfold prompt_persona, prompt_after.
    destruct crisis; reassoc; reflexivity.
Qed.

(** X6. [create_therapy_session_prompt] returns for every input, and its
    prompt is the persona, the two state lines, the quoted input as the
    whole conversation context, the guidance of the approach and the closing
    instruction: it never carries the crisis banner nor any history. *)
Theorem create_therapy_session_prompt_shape (user_input : string)
    (e : EmotionalState) (a : TherapyApproach) :
  create_therapy_session_prompt user_input e a
  = Ok (TherapyPrompts._get_base_system_prompt ++ newline ++ newline
        ++ "CURRENT EMOTIONAL STATE: " ++ emotion_value e ++ newline
        ++ "RECOMMENDED THERAPEUTIC APPROACH: " ++ approach_value a
        ++ newline ++ newline
        ++ "CURRENT CONVERSATION CONTEXT:" ++ newline
        ++ "User just said: '" ++ user_input ++ "'"
        ++ newline ++ newline
        ++ "THERAPEUTIC FOCUS: " ++ guidance_of a ++ newline ++ newline
        ++ "Respond with empathy, professionalism, and appropriate therapeutic techniques. Keep responses conversational and supportive.").
Proof.
  unfold create_therapy_session_prompt.
  rewrite build_contextual_prompt_shape.
  unfold prompt_before, prompt_persona, prompt_after,
    TherapyPrompts.closing_instruction.
  cbn [TherapyPrompts.base_system_prompt TherapyPrompts.__init__].
  reassoc. reflexivity.
Qed.

(** ** The keyword classifiers *)

Lemma substring_extend (k s pre post : string) :
  substring k s -> substring k (pre ++ s ++ post).
Proof.
  intros [p [q ->]]. exists (pre ++ p), (q ++ post). reassoc. reflexivity.
Qed.

Lemma any_in_extend (ks : list string) (s pre post : string) :
  any_in ks s = true -> any_in ks (pre ++ s ++ post) = true.
Proof.
  rewrite !any_in_spec. intros [k [Hk Hs]]. exists k.
  split; [exact Hk | apply substring_extend; exact Hs].
Qed.

Lemma any_in_among (ks ks' : list string) (s : string) :
  keywords_among ks ks' = true ->
  any_in ks s = true -> any_in ks' s = true.
Proof.
  unfold keywords_among. rewrite forallb_forall, !any_in_spec.
  intros Hsub [k [Hk Hs]]. exists k. split; [|exact Hs].
  specialize (Hsub k Hk). apply existsb_exists in Hsub.
  destruct Hsub as [k' [Hk' Heq]]. apply String.eqb_eq in Heq.
  subst k'. exact Hk'.
Qed.

Lemma ascii_lower_app (a b : string) :
  ascii_lower (a ++ b) = ascii_lower a ++ ascii_lower b.
Proof.
  induction a as [|c a IH]; simpl; [reflexivity | rewrite IH; reflexivity].
Qed.

Lemma is_ascii_app (a b : string) :
  is_ascii (a ++ b) = is_ascii a && is_ascii b.
Proof.
  induction a as [|c a IH]; simpl; [reflexivity|].
  rewrite IH, andb_assoc. reflexivity.
Qed.

(** X7. The two implementations of [detect_crisis_level], the one of
    [utils/therapy_prompts.py] with its three loops and the one of
    [models/crisis_detection.py] with its two, give the same level for
    every text. *)
Theorem crisis_detectors_agree `{PythonRuntime} (text : string) :
  crisis_detection.detect_crisis_level text = detect_crisis_level text.
Proof.
  unfold crisis_detection.detect_crisis_level, detect_crisis_level.
  rewrite !keyword_loop_any_in, any_in_app.
  change crisis_detection.CRISIS_KEYWORDS.high
    with CRISIS_KEYWORDS.high_risk.
  change crisis_detection.CRISIS_KEYWORDS.self_harm
    with CRISIS_KEYWORDS.self_harm.
  change crisis_detection.CRISIS_KEYWORDS.medium
    with CRISIS_KEYWORDS.medium_risk.
  destruct (any_in CRISIS_KEYWORDS.high_risk (lower text)); reflexivity.
Qed.

(** X8. On ASCII text, words put before or behind a message never lower
    its crisis level. *)
Theorem crisis_level_monotone `{PythonRuntime} (pre text post : string) :
  lower_on_ascii ->
  is_ascii pre = true -> is_ascii text = true -> is_ascii post = true ->
  (crisis_rank (detect_crisis_level text)
   <= crisis_rank (detect_crisis_level (pre ++ text ++ post)))%nat.
Proof.
  intros Hlower Hpre Htext Hpost.
  unfold detect_crisis_level.
  rewrite (Hlower text Htext).
  rewrite (Hlower (pre ++ text ++ post))
    by (rewrite !is_ascii_app, Hpre, Htext, Hpost; reflexivity).
  rewrite !ascii_lower_app, !keyword_loop_any_in.
  pose proof (any_in_extend CRISIS_KEYWORDS.high_risk (ascii_lower text)
                (ascii_lower pre) (ascii_lower post)) as Hh.
  pose proof (any_in_extend CRISIS_KEYWORDS.self_harm (ascii_lower text)
                (ascii_lower pre) (ascii_lower post)) as Hs.
  pose proof (any_in_extend CRISIS_KEYWORDS.medium_risk (ascii_lower text)
                (ascii_lower pre) (ascii_lower post)) as Hm.
  destruct (any_in CRISIS_KEYWORDS.high_risk (ascii_lower text));
    [rewrite (Hh eq_refl); reflexivity|].
  destruct (any_in CRISIS_KEYWORDS.self_harm (ascii_lower text)).
  { rewrite (Hs eq_refl).
    destruct (any_in CRISIS_KEYWORDS.high_risk _); reflexivity. }
  destruct (any_in CRISIS_KEYWORDS.medium_risk (ascii_lower text)).
  { rewrite (Hm eq_refl).
    destruct (any_in CRISIS_KEYWORDS.high_risk _);
      destruct (any_in CRISIS_KEYWORDS.self_harm _); vm_compute; lia. }
  change (crisis_rank "none") with 0%nat. lia.
Qed.

Lemma crisis_level_monotone_witness :
  (crisis_rank (@detect_crisis_level reference_runtime "I want to give up")
   <= crisis_rank
        (@detect_crisis_level reference_runtime
           ("Honestly, " ++ "I want to give up" ++ " and end my life")))%nat.
Proof.
  apply (@crisis_level_monotone reference_runtime "Honestly, "
           "I want to give up" " and end my life").
  - intros s _. reflexivity.
  - reflexivity.
  - reflexivity.
  - reflexivity.
Defined.

(** X9. A message that contains "hopeless" is classified anxious or
    depressed, never hopeful although it contains "hope"; its crisis level
    is medium or high, and the approach chosen for it is crisis
    intervention. *)
Theorem hopeless_is_not_hopeful `{PythonRuntime} (message : string) :
  substring "hopeless" (lower message) ->
  let state := ChatService._detect_emotional_state message in
  let level := detect_crisis_level message in
  (state = ANXIOUS \/ state = DEPRESSED)
  /\ (level = "medium" \/ level = "high")
  /\ ChatService._choose_therapy_approach message state
       (ChatService.in_high_medium level)
     = CRISIS_INTERVENTION.
Proof.
  intros Hsub state level. subst state level.
  assert (Hd : any_in ["sad"; "depressed"; "hopeless"; "worthless"; "tired";
                       "exhausted"; "empty"] (lower message) = true).
  { apply any_in_spec. exists "hopeless". split; [simpl; tauto | exact Hsub]. }
  assert (Hm : any_in CRISIS_KEYWORDS.medium_risk (lower message) = true).
  { apply any_in_spec. exists "hopeless". split; [simpl; tauto | exact Hsub]. }
  unfold ChatService._detect_emotional_state, detect_crisis_level.
  rewrite !keyword_loop_any_in, Hd, Hm.
  split.
  - destruct (any_in ["anxious"; "worried"; "nervous"; "stress"; "panic";
                      "fear"; "scared"] (lower message));
      [left | right]; reflexivity.
  - destruct (any_in CRISIS_KEYWORDS.high_risk (lower message));
      destruct (any_in CRISIS_KEYWORDS.self_harm (lower message));
      split; try reflexivity; auto.
Qed.

Lemma hopeless_is_not_hopeful_witness :
  @ChatService._detect_emotional_state reference_runtime
    "Everything feels Hopeless" = ANXIOUS
  \/ @ChatService._detect_emotional_state reference_runtime
       "Everything feels Hopeless" = DEPRESSED.
Proof.
  apply (@hopeless_is_not_hopeful reference_runtime
           "Everything feels Hopeless").
  apply str_in_spec. vm_compute. reflexivity.
Defined.

Ltac case_keywords :=
  match goal with
  | |- context [any_in ?ks ?s] =>
      let E := fresh "E" in
      destruct (any_in ks s) eqn:E;
      try solve [ exfalso;
                  match goal with
                  | H : ?a = true -> ?b = true, E1 : ?a = true,
                    E2 : ?b = false |- _ =>
                      rewrite (H E1) in E2; discriminate E2
                  end ]
  end.

(** X10. The three emotion detectors of the repository try their groups in
    the same order, and each group of [interactive_chat.py] is a part of the
    group of [models/emotion_detection.py], which is a part of the group of
    the service.  So for every text the service never settles on a later
    group than [detect_emotional_state], which never settles on a later
    group than [detect_emotion]; when the service finds nothing, all three
    answer neutral. *)
Theorem emotion_detectors_ordered `{PythonRuntime} (text : string) :
  (group_position (ChatService._detect_emotional_state text)
   <= group_position_by_value
        (emotion_detection.value
           (emotion_detection.detect_emotional_state text)))%nat
  /\ (group_position_by_value
        (emotion_detection.value
           (emotion_detection.detect_emotional_state text))
      <= group_position (interactive_chat.detect_emotion text))%nat.
Proof.
  pose proof (any_in_among ["anxious"; "worried"; "nervous"; "panic"; "fear"]
                ["anxious"; "worried"; "nervous"; "stress"; "panic"; "fear";
                 "scared"] (lower text) eq_refl) as S1.
  pose proof (any_in_among ["sad"; "depressed"; "hopeless"; "worthless";
                            "empty"]
                ["sad"; "depressed"; "hopeless"; "worthless"; "tired";
                 "exhausted"; "empty"] (lower text) eq_refl) as S2.
  pose proof (any_in_among ["angry"; "furious"; "mad"; "frustrated"; "rage"]
                ["angry"; "furious"; "mad"; "frustrated"; "irritated"; "rage"]
                (lower text) eq_refl) as S3.
  pose proof (any_in_among ["overwhelmed"; "too much"; "can't handle";
                            "drowning"]
                ["overwhelmed"; "too much"; "can't handle"; "drowning";
                 "swamped"] (lower text) eq_refl) as S4.
  pose proof (any_in_among ["hope"; "better"; "improving"; "optimistic"]
                ["hope"; "better"; "improving"; "progress"; "optimistic";
                 "positive"] (lower text) eq_refl) as S5.
  pose proof (any_in_among ["anxious"; "worried"; "nervous"]
                ["anxious"; "worried"; "nervous"; "panic"; "fear"]
                (lower text) eq_refl) as I1.
  pose proof (any_in_among ["sad"; "depressed"; "hopeless"]
                ["sad"; "depressed"; "hopeless"; "worthless"; "empty"]
                (lower text) eq_refl) as I2.
  pose proof (any_in_among ["angry"; "mad"; "frustrated"]
                ["angry"; "furious"; "mad"; "frustrated"; "rage"]
                (lower text) eq_refl) as I3.
  pose proof (any_in_among ["overwhelmed"; "too much"; "can't handle"]
                ["overwhelmed"; "too much"; "can't handle"; "drowning"]
                (lower text) eq_refl) as I4.
  pose proof (any_in_among ["hope"; "better"; "improving"]
                ["hope"; "better"; "improving"; "optimistic"]
                (lower text) eq_refl) as I5.
  unfold ChatService._detect_emotional_state,
    emotion_detection.detect_emotional_state, interactive_chat.detect_emotion.
  split; repeat case_keywords; vm_compute; lia.
Qed.

(** ** One message through the service *)

Lemma choose_crisis_intervention (message : string) (e : EmotionalState)
    (crisis : bool) :
  approach_value (ChatService._choose_therapy_approach message e crisis)
  = "crisis_intervention" <-> crisis = true.
Proof. destruct crisis, e; split; intros Hx; try reflexivity; discriminate. Qed.

Lemma in_high_medium_labels `{PythonRuntime} (text : string) :
  ChatService.in_high_medium (detect_crisis_level text) = true
  <-> detect_crisis_level text <> "none".
Proof.
  destruct (detect_crisis_level_labels text) as [-> | [-> | ->]];
    split; intros Hx; try reflexivity; try discriminate.
  exfalso. apply Hx. reflexivity.
Qed.

Lemma entry_of_well_formed `{PythonRuntime} (text reply : string) (now : Z) :
  turn_well_formed (entry_of text reply now).
Proof.
  unfold turn_well_formed, entry_of. simpl.
  split; [|split; [|split]].
  - destruct (detect_crisis_level_labels text) as [-> | [-> | ->]];
      simpl; tauto.
  - unfold ChatService._detect_emotional_state.
    repeat match goal with
           | |- context [any_in ?ks ?s] => destruct (any_in ks s)
           end; simpl; tauto.
  - destruct (ChatService.in_high_medium (detect_crisis_level text));
      destruct (ChatService._detect_emotional_state text); simpl; tauto.
  - rewrite choose_crisis_intervention. apply in_high_medium_labels.
Qed.

(** X11. When the backend cannot be reached or answers with an error
    status, [process_message] on a text message still takes its regular
    path: the reply is one of the two fixed apologies, it is recorded in
    the history like any reply, the classification is reported as usual,
    and for a message of level "high" the crisis resources are attached. *)
Theorem backend_down_regular_response `{PythonRuntime} (text : string)
    (uid : pyarg) (now : Z) (post : string -> string -> http_outcome)
    (self : ChatService.t) :
  backend_down post ->
  exists reply response self',
    ChatService.process_message (ArgStr text) uid now post self
    = (Ok response, self')
    /\ (reply = "I'm having trouble connecting right now. Please try again."
        \/ reply = "I'm unable to connect to my language model right now. Please try again later.")
    /\ response !! "message" = Some (PStr reply)
    /\ response !! "crisis_level" = Some (PStr (detect_crisis_level text))
    /\ (detect_crisis_level text = "high" ->
        response !! "crisis_resources"
        = Some ChatService._get_crisis_resources)
    /\ exists entry,
         ChatService.conversation_history self'
         = (ChatService.conversation_history self ++ [entry])%list
         /\ ChatService.user_message entry = text
         /\ ChatService.ai_response entry = reply.
Proof.
  intros Hdown.
  pose proof (process_message_cases (ArgStr text) uid now post self) as Hc.
  rewrite process_message_try_text in Hc.
  destruct (prompt_of_returns text self) as [prompt Hp]. rewrite Hp in Hc.
  assert (Hg : exists reply,
             ChatService._generate_response (classified text self) prompt post
             = Ok reply
             /\ (reply = "I'm having trouble connecting right now. Please try again."
                 \/ reply = "I'm unable to connect to my language model right now. Please try again later.")).
  { unfold ChatService._generate_response.
    specialize (Hdown (ChatService.model_name (classified text self)) prompt).
    destruct (post (ChatService.model_name (classified text self)) prompt)
      as [[req msg] | status body].
    - simpl in Hdown. subst req. eexists. split; [reflexivity | right].
      reflexivity.
    - apply Z.eqb_neq in Hdown. rewrite Hdown.
      eexists. split; [reflexivity | left]. reflexivity. }
  destruct Hg as [reply [Hg Hreply]]. rewrite Hg in Hc.
  destruct Hc as [Hproc _].
  destruct (response_of_fields text reply self)
    as [Fm [_ [_ [Fl [_ Fr]]]]].
  exists reply, (response_of text reply self),
    (with_entry (entry_of text reply now) (classified text self)).
  split; [exact Hproc|]. split; [exact Hreply|]. split; [exact Fm|].
  split; [exact Fl|]. split.
  - intros Hhigh. rewrite Fr, Hhigh. reflexivity.
  - exists (entry_of text reply now). repeat split.
Qed.

Lemma refusing_post_down : backend_down refusing_post.
Proof. intros model prompt. reflexivity. Qed.

Lemma backend_down_regular_response_witness :
  exists reply response self',
    @ChatService.process_message reference_runtime
      (ArgStr "I want to kill myself") (ArgOther "NoneType") 60
      refusing_post sample_service
    = (Ok response, self')
    /\ response !! "message" = Some (PStr reply)
    /\ response !! "crisis_resources"
       = Some ChatService._get_crisis_resources.
Proof.
  destruct (@backend_down_regular_response reference_runtime
              "I want to kill myself" (ArgOther "NoneType") 60 refusing_post
              sample_service refusing_post_down)
    as [reply [response [self' [Hp [_ [Hm [_ [Hr _]]]]]]]].
  exists reply, response, self'. split; [exact Hp|]. split; [exact Hm|].
  apply Hr. vm_compute. reflexivity.
Defined.

(** X12. After a call of [process_message] whose body returns, the entry
    appended to the history, the response and the session context tell the
    same: the entry holds the message as it came, the clock reading and the
    reply that the response carries, the response reports the entry's
    emotional state, approach and crisis level, the context holds the same
    state and approach with the crisis flag set exactly for the levels
    "high" and "medium", and the start of the session is the one it was. *)
Theorem turn_response_context_agree `{PythonRuntime} (message uid : pyarg)
    (now : Z) (post : string -> string -> http_outcome)
    (self self' : ChatService.t) (response : gmap string pyval) :
  ChatService.process_message_try message now post self
  = (Ok response, self') ->
  exists entry,
    ChatService.conversation_history self'
    = (ChatService.conversation_history self ++ [entry])%list
    /\ message = ArgStr (ChatService.user_message entry)
    /\ ChatService.timestamp entry = now
    /\ response !! "message" = Some (PStr (ChatService.ai_response entry))
    /\ response !! "emotional_state"
       = Some (PStr (ChatService.turn_emotional_state entry))
    /\ response !! "therapy_approach"
       = Some (PStr (ChatService.turn_therapy_approach entry))
    /\ response !! "crisis_level"
       = Some (PStr (ChatService.crisis_level entry))
    /\ emotion_value
         (ChatService.emotional_state (ChatService.session_context self'))
       = ChatService.turn_emotional_state entry
    /\ approach_value
         (ChatService.therapy_approach (ChatService.session_context self'))
       = ChatService.turn_therapy_approach entry
    /\ ChatService.crisis_detected (ChatService.session_context self')
       = ChatService.in_high_medium (ChatService.crisis_level entry)
    /\ ChatService.session_start (ChatService.session_context self')
       = ChatService.session_start (ChatService.session_context self).
Proof.
  intros Hbody.
  pose proof (process_message_cases message uid now post self) as Hc.
  rewrite Hbody in Hc.
  destruct Hc as [_ [text [reply [-> [-> ->]]]]].
  destruct (response_of_fields text reply self)
    as [Fm [Fe [Fa [Fl [_ _]]]]].
  exists (entry_of text reply now).
  repeat apply conj; try reflexivity; assumption.
Qed.

Lemma turn_response_context_agree_witness :
  exists response self' entry,
    @ChatService.process_message_try reference_runtime
      (ArgStr "I feel sad") 60 sample_post sample_service
    = (Ok response, self')
    /\ ChatService.conversation_history self'
       = (ChatService.conversation_history sample_service ++ [entry])%list
    /\ response !! "emotional_state"
       = Some (PStr (ChatService.turn_emotional_state entry)).
Proof.
  destruct (@ChatService.process_message_try reference_runtime
              (ArgStr "I feel sad") 60 sample_post sample_service)
    as [[response | e] self'] eqn:Hbody.
  - destruct (@turn_response_context_agree reference_runtime
                (ArgStr "I feel sad") (ArgOther "NoneType") 60 sample_post
                sample_service self' response Hbody)
      as [entry [Hh [_ [_ [_ [He _]]]]]].
    exists response, self', entry. auto.
  - exfalso. rewrite process_message_try_text in Hbody.
    destruct (@prompt_of_returns reference_runtime "I feel sad"
                sample_service) as [prompt Hprompt].
    rewrite Hprompt, sample_post_replies in Hbody. discriminate Hbody.
Defined.

(** X13. When the body of [process_message] raises, the history is as it
    was; but for a text message the three assignments to the session
    context have been made before the backend was asked, so the context
    holds the classification of a message that is in no entry.  For a
    message that is no string nothing has changed. *)
Theorem failed_message_updates_context `{PythonRuntime} (message uid : pyarg)
    (now : Z) (post : string -> string -> http_outcome)
    (self self' : ChatService.t) (e : exn) :
  ChatService.process_message_try message now post self = (Raise e, self') ->
  snd (ChatService.process_message message uid now post self) = self'
  /\ ChatService.conversation_history self'
     = ChatService.conversation_history self
  /\ match message with
     | ArgStr text =>
         let ctx := ChatService.session_context self' in
         ChatService.emotional_state ctx
         = ChatService._detect_emotional_state text
         /\ ChatService.crisis_detected ctx
            = ChatService.in_high_medium (detect_crisis_level text)
         /\ ChatService.therapy_approach ctx
            = ChatService._choose_therapy_approach text
                (ChatService._detect_emotional_state text)
                (ChatService.in_high_medium (detect_crisis_level text))
     | ArgOther _ => self' = self
     end.
Proof.
  intros Hbody.
  pose proof (process_message_cases message uid now post self) as Hc.
  rewrite Hbody in Hc. destruct Hc as [Hp Hh].
  split; [rewrite Hp; reflexivity|]. split; [exact Hh|].
  destruct message as [text | type_name].
  - rewrite process_message_try_text in Hbody.
    destruct (prompt_of_returns text self) as [prompt Hprompt].
    rewrite Hprompt in Hbody.
    destruct (ChatService._generate_response (classified text self) prompt
                post); [discriminate|].
    injection Hbody as _ <-. repeat split.
  - rewrite process_message_try_other in Hbody.
    injection Hbody as _ <-. reflexivity.
Qed.

Lemma failed_message_updates_context_witness :
  exists self',
    snd (@ChatService.process_message reference_runtime
           (ArgStr "I am so worried") (ArgOther "NoneType") 60 garbled_post
           sample_service) = self'
    /\ ChatService.conversation_history self' = []
    /\ ChatService.emotional_state (ChatService.session_context self')
       = ANXIOUS.
Proof.
  destruct (@ChatService.process_message_try reference_runtime
              (ArgStr "I am so worried") 60 garbled_post sample_service)
    as [[response | e] self'] eqn:Hbody.
  - exfalso. rewrite process_message_try_text in Hbody.
    destruct (@prompt_of_returns reference_runtime "I am so worried"
                sample_service) as [prompt Hprompt].
    rewrite Hprompt in Hbody. discriminate Hbody.
  - destruct (@failed_message_updates_context reference_runtime
                (ArgStr "I am so worried") (ArgOther "NoneType") 60
                garbled_post sample_service self' e Hbody)
      as [Hs [Hh [He _]]].
    exists self'. split; [exact Hs|]. split; [exact Hh|].
    rewrite He. vm_compute. reflexivity.
Defined.

(** X14. On the regular path the response names the approach
    "crisis_intervention" exactly when the crisis level is not "none"; for
    the level "medium" it does so without attaching crisis resources. *)
Theorem crisis_approach_iff_level `{PythonRuntime} (message uid : pyarg)
    (now : Z) (post : string -> string -> http_outcome)
    (self self' : ChatService.t) (response : gmap string pyval) :
  ChatService.process_message_try message now post self
  = (Ok response, self') ->
  exists level approach,
    response !! "crisis_level" = Some (PStr level)
    /\ response !! "therapy_approach" = Some (PStr approach)
    /\ (approach = "crisis_intervention" <-> level <> "none")
    /\ (level = "medium" -> response !! "crisis_resources" = None).
Proof.
  intros Hbody.
  pose proof (process_message_cases message uid now post self) as Hc.
  rewrite Hbody in Hc.
  destruct Hc as [_ [text [reply [_ [-> _]]]]].
  destruct (response_of_fields text reply self)
    as [_ [_ [Fa [Fl [_ Fr]]]]].
  eexists _, _. split; [exact Fl|]. split; [exact Fa|]. split.
  - rewrite choose_crisis_intervention. apply in_high_medium_labels.
  - intros Hm. rewrite Fr, Hm. reflexivity.
Qed.

Lemma crisis_approach_iff_level_witness :
  exists response self',
    @ChatService.process_message_try reference_runtime
      (ArgStr "I feel worthless") 60 sample_post sample_service
    = (Ok response, self')
    /\ response !! "therapy_approach" = Some (PStr "crisis_intervention")
    /\ response !! "crisis_resources" = None.
Proof.
  destruct (@ChatService.process_message_try reference_runtime
              (ArgStr "I feel worthless") 60 sample_post sample_service)
    as [[response | e] self'] eqn:Hbody.
  - destruct (@crisis_approach_iff_level reference_runtime
                (ArgStr "I feel worthless") (ArgOther "NoneType") 60
                sample_post sample_service self' response Hbody)
      as [level [approach [Hl [Ha [Hiff Hmed]]]]].
    assert (Hlevel : level = "medium").
    { rewrite process_message_try_text in Hbody.
      destruct (@prompt_of_returns reference_runtime "I feel worthless"
                  sample_service) as [prompt Hprompt].
      rewrite Hprompt, sample_post_replies in Hbody.
      injection Hbody as <- _.
      destruct (@response_of_fields reference_runtime "I feel worthless"
                  "I hear you. Tell me more." sample_service)
        as [_ [_ [_ [Fl _]]]].
      rewrite Fl in Hl. injection Hl as <-. vm_compute. reflexivity. }
    exists response, self'. split; [reflexivity|]. split.
    + rewrite Ha. f_equal. f_equal. apply Hiff. rewrite Hlevel. discriminate.
    + apply Hmed. exact Hlevel.
  - exfalso. rewrite process_message_try_text in Hbody.
    destruct (@prompt_of_returns reference_runtime "I feel worthless"
                sample_service) as [prompt Hprompt].
    rewrite Hprompt, sample_post_replies in Hbody. discriminate Hbody.
Defined.

(** ** Sequences of calls *)

Lemma after_therapy_prompts `{PythonRuntime} (self : ChatService.t)
    (c : call) :
  ChatService.therapy_prompts (after self c)
  = ChatService.therapy_prompts self
  /\ ChatService.model_name (after self c) = ChatService.model_name self.
Proof.
  destruct c as [uid now draw | message uid now post | now draw | now];
    simpl.
  - unfold ChatService.start_session.
    cbv [ChatService.bind ChatService.lift ChatService.read
         ChatService.update ChatService.ret ChatService.set_context].
    destruct (TherapyPrompts.get_prompt _ _ _ _ _); split; reflexivity.
  - pose proof (process_message_cases message uid now post self) as Hc.
    destruct (ChatService.process_message_try message now post self)
      as [[response | e] s] eqn:Hbody.
    + destruct Hc as [-> [text [reply [_ [_ ->]]]]]. split; reflexivity.
    + destruct Hc as [-> _]. simpl.
      destruct message as [text | type_name].
      * rewrite process_message_try_text in Hbody.
        destruct (prompt_of text self);
          [destruct (ChatService._generate_response _ _ _)|];
          try discriminate; injection Hbody as _ <-; split; reflexivity.
      * rewrite process_message_try_other in Hbody.
        injection Hbody as _ <-. split; reflexivity.
  - rewrite end_session_state. split; reflexivity.
  - split; reflexivity.
Qed.

Lemma after_turns_well_formed `{PythonRuntime} (self : ChatService.t)
    (c : call) :
  Forall turn_well_formed (ChatService.conversation_history self) ->
  Forall turn_well_formed (ChatService.conversation_history (after self c)).
Proof.
  intros Hwf.
  destruct c as [uid now draw | message uid now post | now draw | now];
    simpl.
  - rewrite start_session_history. exact Hwf.
  - pose proof (process_message_cases message uid now post self) as Hc.
    destruct (ChatService.process_message_try message now post self)
      as [[response | e] s].
    + destruct Hc as [-> [text [reply [_ [_ ->]]]]]. simpl.
      apply Forall_app. split; [exact Hwf|].
      constructor; [apply entry_of_well_formed | constructor].
    + destruct Hc as [-> Hh]. simpl. rewrite Hh. exact Hwf.
  - rewrite end_session_state. exact Hwf.
  - exact Hwf.
Qed.

(** X15. Whatever calls are made on a service created by [ChatService()],
    every entry of its history has a crisis level among "high", "medium"
    and "none", an emotional state other than "crisis", an approach other
    than "mindfulness_based_therapy", and the approach
    "crisis_intervention" exactly when its level is not "none"; the prompt
    library and the model name of the service never change. *)
Theorem recorded_turns_well_formed `{PythonRuntime} (model : string)
    (now : Z) (calls : list call) :
  let self := after_all (ChatService.__init__ model now) calls in
  Forall turn_well_formed (ChatService.conversation_history self)
  /\ ChatService.therapy_prompts self = TherapyPrompts.__init__
  /\ ChatService.model_name self = model.
Proof.
  simpl. unfold after_all.
  assert (Hgen : forall s,
             Forall turn_well_formed (ChatService.conversation_history s) ->
             Forall turn_well_formed
               (ChatService.conversation_history (fold_left after calls s))
             /\ ChatService.therapy_prompts (fold_left after calls s)
                = ChatService.therapy_prompts s
             /\ ChatService.model_name (fold_left after calls s)
                = ChatService.model_name s).
  { induction calls as [|c calls IH]; intros s Hs; simpl.
    - repeat split; [exact Hs].
    - destruct (IH (after s c) (after_turns_well_formed s c Hs))
        as [Hw [Hp Hm]].
      destruct (after_therapy_prompts s c) as [Hp' Hm'].
      split; [exact Hw|]. split; congruence. }
  apply Hgen. constructor.
Qed.

Lemma after_session_start `{PythonRuntime} (self : ChatService.t) (c : call) :
  is_start_session c = false ->
  ChatService.session_start (ChatService.session_context (after self c))
  = ChatService.session_start (ChatService.session_context self)
  /\ ChatService.user_id (ChatService.session_context (after self c))
     = ChatService.user_id (ChatService.session_context self).
Proof.
  destruct c as [uid now draw | message uid now post | now draw | now];
    simpl; try discriminate; intros _.
  - pose proof (process_message_cases message uid now post self) as Hc.
    destruct (ChatService.process_message_try message now post self)
      as [[response | e] s] eqn:Hbody.
    + destruct Hc as [-> [text [reply [_ [_ ->]]]]]. split; reflexivity.
    + destruct Hc as [-> _]. simpl.
      destruct message as [text | type_name].
      * rewrite process_message_try_text in Hbody.
        destruct (prompt_of text self);
          [destruct (ChatService._generate_response _ _ _)|];
          try discriminate; injection Hbody as _ <-; split; reflexivity.
      * rewrite process_message_try_other in Hbody.
        injection Hbody as _ <-. split; reflexivity.
  - rewrite end_session_state. split; reflexivity.
  - split; reflexivity.
Qed.

(** X16. Between two calls of [start_session] the session does not change
    its identity: after [start_session] at clock reading [now] and any
    calls other than [start_session], the context still holds that start
    and that user, and every response of [process_message] carries the
    session id derived from [now], the one [start_session] returned. *)
Theorem session_id_stable `{PythonRuntime} (self : ChatService.t)
    (uid : pyarg) (now : Z) (draw : nat) (calls : list call) :
  forallb (fun c => negb (is_start_session c)) calls = true ->
  let started := after self (CallStartSession uid now draw) in
  let current := after_all started calls in
  ChatService.session_start (ChatService.session_context current) = now
  /\ ChatService.user_id (ChatService.session_context current) = Some uid
  /\ forall message now' post response self',
       ChatService.process_message_try message now' post current
       = (Ok response, self') ->
       response !! "session_id" = Some (PStr (str_timestamp now)).
Proof.
  intros Hcalls started current.
  assert (Hstart :
            ChatService.session_start (ChatService.session_context started)
            = now
            /\ ChatService.user_id (ChatService.session_context started)
               = Some uid).
  { subst started. simpl.
    destruct (start_session_state uid now draw self) as [-> _].
    split; reflexivity. }
  assert (Hcur :
            ChatService.session_start (ChatService.session_context current)
            = now
            /\ ChatService.user_id (ChatService.session_context current)
               = Some uid).
  { subst current. unfold after_all. clearbody started. revert started Hstart.
    induction calls as [|c calls IH]; intros s Hs; simpl; [exact Hs|].
    simpl in Hcalls. apply andb_prop in Hcalls. destruct Hcalls as [Hc Hcs].
    apply negb_true_iff in Hc.
    apply (IH Hcs). destruct (after_session_start s c Hc) as [-> ->].
    exact Hs. }
  destruct Hcur as [Hs Hu]. split; [exact Hs|]. split; [exact Hu|].
  intros message now' post response self' Hbody.
  pose proof (process_message_cases message uid now' post current) as Hc.
  rewrite Hbody in Hc. destruct Hc as [_ [text [reply [_ [-> _]]]]].
  destruct (response_of_fields text reply current) as [_ [_ [_ [_ [Fs _]]]]].
  rewrite Fs, Hs. reflexivity.
Qed.

Lemma session_id_stable_witness :
  ChatService.session_start
    (ChatService.session_context
       (@after_all reference_runtime
          (@after reference_runtime sample_service
             (CallStartSession (ArgStr "user123") 100 0))
          [ CallProcessMessage (ArgStr "I feel sad") (ArgOther "NoneType")
              160 sample_post;
            CallGetSessionStats 200; CallEndSession 220 1 ]))
  = 100%Z.
Proof.
  apply (@session_id_stable reference_runtime sample_service
           (ArgStr "user123") 100 0
           [ CallProcessMessage (ArgStr "I feel sad") (ArgOther "NoneType")
               160 sample_post;
             CallGetSessionStats 200; CallEndSession 220 1 ]).
  reflexivity.
Defined.

(** ** Opening and closing a session *)

Lemma dict_get_of_groups (sub : string) (table : list (string * list string)) :
  dict_get (KStr sub) (map (fun '(k, l) => (KStr k, of_strings l)) table)
  = of_strings <$> assoc_get String.eqb sub table.
Proof.
  induction table as [|[k l] table IH]; simpl; [reflexivity|].
  destruct (String.eqb sub k); [reflexivity | exact IH].
Qed.

Lemma random_choice_map {A B} (f : A -> B) (l : list A) (draw : nat) :
  random_choice (map f l) draw
  = match random_choice l draw with
    | Ok x => Ok (f x)
    | Raise e => Raise e
    end.
Proof.
  unfold random_choice. rewrite length_map.
  change (map f l) with (f <$> l). rewrite list_lookup_fmap.
  destruct (l !! (draw mod List.length l)%nat); reflexivity.
Qed.

(** [get_prompt] on a table with string keys, for a key of the table whose
    group has no placeholders: one of the group, whatever the keyword
    arguments. *)
Lemma get_prompt_plain_group `{PythonRuntime} (category sub : string)
    (table : list (string * list string)) (group : list string)
    (kwargs : gmap string string) (draw : nat) :
  String.eqb category "base_system" = false ->
  TherapyPrompts.getattr TherapyPrompts.__init__ category
  = Ok (of_groups table) ->
  String.eqb sub "" = false ->
  assoc_get String.eqb sub table = Some group ->
  group <> [] -> forallb Format.brace_free group = true ->
  exists message,
    TherapyPrompts.get_prompt TherapyPrompts.__init__ category (Some sub)
      kwargs draw = Ok message
    /\ In message group.
Proof.
  intros Hcat Hget Hsub Hgroup Hne Hplain.
  unfold TherapyPrompts.get_prompt.
  rewrite get_prompt_try_unfold, Hcat, Hget. cbn [Result.bind].
  unfold TherapyPrompts.select_prompts, of_groups.
  rewrite Hsub, dict_get_of_groups, Hgroup. cbn [fmap option_fmap option_map].
  cbn [Result.bind]. unfold render, of_strings.
  rewrite random_choice_map.
  destruct (random_choice_In group draw Hne) as [message [-> Hin]].
  cbn [Result.bind TherapyPrompts.format_obj].
  rewrite forallb_forall in Hplain.
  rewrite (format_brace_free kwargs message (Hplain message Hin)).
  exists message. split; [reflexivity | exact Hin].
Qed.

(** X17. [start_session] on a service with the library of
    [TherapyPrompts()] never raises.  Its response has exactly the keys
    message, session_id, emotional_state and therapy_approach; the message
    is one of the "first_session" conversation starters, the session id is
    derived from the clock reading of this call, and the state and approach
    reported are "neutral" and "cognitive_behavioral_therapy", whatever was
    processed before. *)
Theorem start_session_response `{PythonRuntime} (self : ChatService.t)
    (uid : pyarg) (now : Z) (draw : nat) :
  ChatService.therapy_prompts self = TherapyPrompts.__init__ ->
  exists response welcome starters,
    fst (ChatService.start_session uid now draw self) = Ok response
    /\ dom response
       = {[ "message"; "session_id"; "emotional_state"; "therapy_approach" ]}
    /\ response !! "message" = Some (PStr welcome)
    /\ assoc_get String.eqb "first_session"
         (TherapyPrompts.conversation_starters TherapyPrompts.__init__)
       = Some starters
    /\ In welcome starters
    /\ response !! "session_id" = Some (PStr (str_timestamp now))
    /\ response !! "emotional_state" = Some (PStr "neutral")
    /\ response !! "therapy_approach"
       = Some (PStr "cognitive_behavioral_therapy").
Proof.
  intros Hlib.
  destruct (get_prompt_plain_group "conversation_starters" "first_session"
              (TherapyPrompts.conversation_starters TherapyPrompts.__init__)
              _ ∅ draw eq_refl eq_refl eq_refl eq_refl
              ltac:(discriminate) eq_refl) as [welcome [Hw Hin]].
  unfold ChatService.start_session.
  cbv [ChatService.bind ChatService.lift ChatService.read ChatService.update
       ChatService.ret ChatService.set_context].
  cbn [ChatService.therapy_prompts ChatService.session_context
       ChatService.session_start ChatService.emotional_state
       ChatService.therapy_approach].
  rewrite Hlib, Hw. cbn [fst].
  eexists _, welcome, _. split; [reflexivity|]. split.
  { rewrite !dom_insert_L, dom_empty_L. set_solver. }
  repeat apply conj; try reflexivity. exact Hin.
Qed.

Lemma start_session_response_witness :
  exists response,
    fst (@ChatService.start_session reference_runtime (ArgStr "user123") 100
           2 sample_service) = Ok response
    /\ response !! "emotional_state" = Some (PStr "neutral").
Proof.
  destruct (@start_session_response reference_runtime sample_service
              (ArgStr "user123") 100 2 eq_refl)
    as [response [welcome [starters [Hr [_ [_ [_ [_ [_ [He _]]]]]]]]]].
  exists response. split; [exact Hr | exact He].
Defined.

(** ** The session summary *)

Lemma count_one_count (state emotion : string) (counts : list (string * nat)) :
  count_of state (ChatService.count_one emotion counts)
  = (count_of state counts + (if String.eqb state emotion then 1 else 0))%nat.
Proof.
  unfold count_of.
  induction counts as [|[k n] rest IH]; simpl.
  - destruct (String.eqb state emotion); reflexivity.
  - destruct (String.eqb k emotion) eqn:Eke; simpl.
    + apply String.eqb_eq in Eke. subst k.
      destruct (String.eqb state emotion); lia.
    + destruct (String.eqb state k) eqn:Esk.
      * apply String.eqb_eq in Esk. subst k. rewrite Eke. lia.
      * exact IH.
Qed.

Lemma count_one_keys (emotion k : string) (counts : list (string * nat)) :
  In k (map fst (ChatService.count_one emotion counts))
  <-> In k (map fst counts) \/ k = emotion.
Proof.
  induction counts as [|[k' n] rest IH]; simpl.
  - split; [intros [<- | []]; auto | intros [[] | ->]; auto].
  - destruct (String.eqb k' emotion) eqn:E; simpl.
    + apply String.eqb_eq in E. subst k'. split; [tauto|].
      intros [[Hk | Hk] | Hk]; auto.
    + rewrite IH. tauto.
Qed.

Lemma count_one_NoDup (emotion : string) (counts : list (string * nat)) :
  List.NoDup (map fst counts) ->
  List.NoDup (map fst (ChatService.count_one emotion counts)).
Proof.
  induction counts as [|[k n] rest IH]; simpl; intros Hnd.
  - constructor; [intros [] | constructor].
  - inversion Hnd as [|? ? Hk Hrest]; subst.
    destruct (String.eqb k emotion) eqn:E; simpl.
    + constructor; assumption.
    + constructor; [|apply IH; exact Hrest].
      intros Hin. apply (count_one_keys emotion k rest) in Hin.
      destruct Hin as [Hin | ->]; [contradiction|].
      rewrite String.eqb_refl in E. discriminate.
Qed.

Lemma count_one_positive (emotion : string) (counts : list (string * nat)) :
  Forall (fun kv => (0 < snd kv)%nat) counts ->
  Forall (fun kv => (0 < snd kv)%nat) (ChatService.count_one emotion counts).
Proof.
  induction counts as [|[k n] rest IH]; simpl; intros Hp.
  - constructor; [simpl; lia | constructor].
  - inversion Hp as [|? ? Hn Hrest]; subst.
    destruct (String.eqb k emotion); constructor; simpl in *; auto; lia.
Qed.

Lemma occurrences_cons (state : string) (turn : ChatService.Turn)
    (history : list ChatService.Turn) :
  occurrences state (turn :: history)
  = ((if String.eqb state (ChatService.turn_emotional_state turn)
      then 1 else 0) + occurrences state history)%nat.
Proof.
  unfold occurrences. rewrite filter_cons.
  destruct (String.eqb state (ChatService.turn_emotional_state turn)) eqn:E.
  - apply String.eqb_eq in E. rewrite decide_True by (symmetry; exact E).
    reflexivity.
  - apply String.eqb_neq in E. rewrite decide_False by congruence.
    reflexivity.
Qed.

(** The counting loop, from any dictionary it starts with. *)
Lemma counting_loop (state : string) (history : list ChatService.Turn) :
  forall counts : list (string * nat),
    let result :=
      fold_left
        (fun counts entry =>
           ChatService.count_one (ChatService.turn_emotional_state entry)
             counts) history counts in
    count_of state result
    = (count_of state counts + occurrences state history)%nat
    /\ (List.NoDup (map fst counts) -> List.NoDup (map fst result))
    /\ (Forall (fun kv => (0 < snd kv)%nat) counts ->
        Forall (fun kv => (0 < snd kv)%nat) result).
Proof.
  induction history as [|turn history IH]; intros counts; simpl.
  - unfold occurrences. simpl. repeat split; auto.
  - destruct (IH (ChatService.count_one
                    (ChatService.turn_emotional_state turn) counts))
      as [Hc [Hn Hp]].
    split; [|split].
    + rewrite Hc, count_one_count, occurrences_cons. lia.
    + intros Hnd. apply Hn. apply count_one_NoDup. exact Hnd.
    + intros Hpos. apply Hp. apply count_one_positive. exact Hpos.
Qed.

Lemma emotional_counts_spec (state : string)
    (history : list ChatService.Turn) :
  count_of state (ChatService.emotional_counts history)
  = occurrences state history
  /\ List.NoDup (map fst (ChatService.emotional_counts history))
  /\ Forall (fun kv => (0 < snd kv)%nat) (ChatService.emotional_counts history).
Proof.
  unfold ChatService.emotional_counts.
  destruct (counting_loop state history []) as [Hc [Hn Hp]].
  split; [exact Hc|]. split; [apply Hn; constructor | apply Hp; constructor].
Qed.

Lemma assoc_get_key (k : string) (d : list (string * nat)) (v : nat) :
  assoc_get String.eqb k d = Some v -> In (k, v) d.
Proof.
  induction d as [|[k' v'] d IH]; simpl; [discriminate|].
  destruct (String.eqb k k') eqn:E.
  - apply String.eqb_eq in E. subst k'. intros [= <-]. left. reflexivity.
  - intros Hg. right. apply IH. exact Hg.
Qed.

Lemma assoc_get_NoDup (k : string) (d : list (string * nat)) (v : nat) :
  List.NoDup (map fst d) -> In (k, v) d -> assoc_get String.eqb k d = Some v.
Proof.
  induction d as [|[k' v'] d IH]; simpl; intros Hnd Hin; [contradiction|].
  inversion Hnd as [|? ? Hk Hrest]; subst.
  destruct Hin as [[= -> ->] | Hin].
  - rewrite String.eqb_refl. reflexivity.
  - destruct (String.eqb k k') eqn:E; [|apply IH; assumption].
    apply String.eqb_eq in E. subst k'. exfalso. apply Hk.
    apply (in_map fst) in Hin. exact Hin.
Qed.

Lemma list_to_map_counts (state : string) (counts : list (string * nat)) :
  (list_to_map (map (fun '(k, n) => (k, PInt (Z.of_nat n))) counts)
     : gmap string pyval) !! state
  = (fun n => PInt (Z.of_nat n)) <$> assoc_get String.eqb state counts.
Proof.
  induction counts as [|[k n] rest IH]; simpl; [apply lookup_empty|].
  rewrite lookup_insert.
  destruct (String.eqb state k) eqn:E.
  - apply String.eqb_eq in E. subst k. rewrite decide_True by reflexivity.
    reflexivity.
  - apply String.eqb_neq in E. rewrite decide_False by congruence.
    exact IH.
Qed.

(** X19. The dictionary of emotional states that [end_session] and
    [get_session_stats] report: a state has an entry exactly when some turn
    of the history has it, and the entry is the number of those turns. *)
Theorem emotional_state_summary_counts (self : ChatService.t)
    (state : string) :
  let n := occurrences state (ChatService.conversation_history self) in
  member state (ChatService._get_emotional_state_summary self)
  = if (n =? 0)%nat then None else Some (PInt (Z.of_nat n)).
Proof.
  simpl. unfold ChatService._get_emotional_state_summary, member.
  rewrite list_to_map_counts.
  destruct (emotional_counts_spec state
              (ChatService.conversation_history self)) as [Hc [_ Hp]].
  unfold count_of in Hc.
  destruct (assoc_get String.eqb state
              (ChatService.emotional_counts
                 (ChatService.conversation_history self))) as [n|] eqn:E.
  - rewrite <- Hc. apply assoc_get_key in E.
    rewrite Forall_forall in Hp.
    assert (Hn : (0 < n)%nat).
    { apply (Hp (state, n)). apply list_elem_of_In. exact E. }
    destruct n; [lia | reflexivity].
  - rewrite <- Hc. reflexivity.
Qed.

Lemma max_by_count_spec (items : list (string * nat)) :
  forall best : string * nat,
    let r := ChatService.max_by_count best items in
    (r = best \/ In r items)
    /\ (snd best <= snd r)%nat
    /\ forall item, In item items -> (snd item <= snd r)%nat.
Proof.
  induction items as [|item items IH]; intros best; simpl.
  - repeat split; [left; reflexivity | lia | intros ? []].
  - destruct (snd best <? snd item)%nat eqn:E.
    + apply Nat.ltb_lt in E.
      destruct (IH item) as [Hr [Hb Hall]].
      split; [destruct Hr as [-> | Hr]; auto|].
      split; [lia|]. intros it [<- | Hit]; [exact Hb | apply Hall; exact Hit].
    + apply Nat.ltb_ge in E.
      destruct (IH best) as [Hr [Hb Hall]].
      split; [destruct Hr as [-> | Hr]; auto|].
      split; [exact Hb|]. intros it [<- | Hit]; [lia | apply Hall; exact Hit].
Qed.

(** X20. The summary of a session with at least one turn names a state
    that no state beats in number of turns, mentions crisis indicators
    with their number exactly when some turn has a level other than "none",
    and ends with the number of turns; without turns it is the fixed
    sentence. *)
Theorem session_summary_text (self : ChatService.t) :
  let history := ChatService.conversation_history self in
  (history = [] ->
   ChatService._generate_session_summary self
   = "Session ended without any conversation.")
  /\ (history <> [] ->
      exists primary,
        ChatService._generate_session_summary self
        = "Session focused on " ++ primary ++ " experiences. "
          ++ (if (0 <? crisis_turns history)%nat
              then "Crisis indicators were detected "
                   ++ pretty (crisis_turns history) ++ " times. "
              else "")
          ++ "Total of " ++ pretty (List.length history)
          ++ " exchanges occurred."
        /\ (0 < occurrences primary history)%nat
        /\ forall state,
             (occurrences state history <= occurrences primary history)%nat).
Proof.
  cbv zeta. unfold ChatService._generate_session_summary. split.
  - intros ->. reflexivity.
  - intros Hne.
    destruct (ChatService.conversation_history self) as [|turn rest] eqn:Eh;
      [contradiction|].
    set (history := turn :: rest).
    set (counts := ChatService.emotional_counts history).
    assert (Hspec : forall state,
               count_of state counts = occurrences state history
               /\ List.NoDup (map fst counts)
               /\ Forall (fun kv => (0 < snd kv)%nat) counts)
      by (intros state; apply emotional_counts_spec).
    destruct counts as [|first others] eqn:Ec.
    { exfalso.
      destruct (Hspec (ChatService.turn_emotional_state turn)) as [Hc _].
      unfold history in Hc. rewrite occurrences_cons, String.eqb_refl in Hc.
      unfold count_of in Hc. simpl in Hc. lia. }
    destruct (max_by_count_spec others first) as [Hr [Hb Hall]].
    set (r := ChatService.max_by_count first others) in *.
    assert (Hin : In r (first :: others))
      by (destruct Hr as [-> | Hr]; [left | right]; auto).
    assert (Hmax : forall item, In item (first :: others) ->
                                (snd item <= snd r)%nat)
      by (intros item [<- | Hit]; [exact Hb | apply Hall; exact Hit]).
    destruct (Hspec (fst r)) as [Hcr [Hnd Hpos]].
    assert (Hrcount : count_of (fst r) (first :: others) = snd r).
    { unfold count_of.
      rewrite (assoc_get_NoDup (fst r) (first :: others) (snd r) Hnd);
        [reflexivity|]. destruct r; exact Hin. }
    exists (fst r). split; [|split].
    + unfold crisis_turns. fold history.
      destruct (0 <? _)%nat; reassoc; reflexivity.
    + rewrite <- Hcr, Hrcount. rewrite Forall_forall in Hpos.
      apply (Hpos r). apply list_elem_of_In. exact Hin.
    + intros state. destruct (Hspec state) as [Hcs _].
      rewrite <- Hcs, <- Hcr, Hrcount. unfold count_of.
      destruct (assoc_get String.eqb state (first :: others)) as [n|] eqn:E;
        [|lia].
      apply assoc_get_key in E. apply (Hmax (state, n) E).
Qed.

(** X18. [end_session] on a service with the library of [TherapyPrompts()]
    never raises and changes nothing in the service.  Its response has
    exactly the keys message, session_summary, session_duration,
    total_exchanges and emotional_states_observed; the message is one of
    the "session_summary" closing prompts, and total_exchanges is the
    length of the history. *)
Theorem end_session_response `{PythonRuntime} (self : ChatService.t)
    (now : Z) (draw : nat) :
  ChatService.therapy_prompts self = TherapyPrompts.__init__ ->
  exists response closing closings,
    ChatService.end_session now draw self = (Ok response, self)
    /\ dom response
       = {[ "message"; "session_summary"; "session_duration";
            "total_exchanges"; "emotional_states_observed" ]}
    /\ response !! "message" = Some (PStr closing)
    /\ assoc_get String.eqb "session_summary"
         (TherapyPrompts.closing_prompts TherapyPrompts.__init__)
       = Some closings
    /\ In closing closings
    /\ response !! "total_exchanges"
       = Some (PInt (Z.of_nat
                       (List.length (ChatService.conversation_history self))))
    /\ response !! "session_summary"
       = Some (PStr (ChatService._generate_session_summary self))
    /\ response !! "session_duration"
       = Some (PStr (str_timedelta now
                       (ChatService.session_start
                          (ChatService.session_context self))))
    /\ response !! "emotional_states_observed"
       = Some (ChatService._get_emotional_state_summary self).
Proof.
  intros Hlib.
  destruct (get_prompt_plain_group "closing_prompts" "session_summary"
              (TherapyPrompts.closing_prompts TherapyPrompts.__init__)
              _ ∅ draw eq_refl eq_refl eq_refl eq_refl
              ltac:(discriminate) eq_refl) as [closing [Hw Hin]].
  unfold ChatService.end_session.
  cbv [ChatService.bind ChatService.lift ChatService.read ChatService.ret id].
  rewrite Hlib, Hw.
  eexists _, closing, _. split; [reflexivity|]. split.
  { rewrite !dom_insert_L, dom_empty_L. set_solver. }
  repeat apply conj; try reflexivity. exact Hin.
Qed.

Lemma end_session_response_witness :
  exists response,
    @ChatService.end_session reference_runtime 100 1 sample_service
    = (Ok response, sample_service)
    /\ response !! "total_exchanges" = Some (PInt 0).
Proof.
  destruct (@end_session_response reference_runtime sample_service 100 1
              eq_refl)
    as [response [closing [closings [Hr [_ [_ [_ [_ [Ht _]]]]]]]]].
  exists response. split; [exact Hr | exact Ht].
Defined.

Lemma session_summary_text_witness :
  exists primary,
    (0 < occurrences primary
           (ChatService.conversation_history four_turn_service))%nat.
Proof.
  destruct (proj2 (session_summary_text four_turn_service))
    as [primary [_ [Hp _]]].
  - discriminate.
  - exists primary. exact Hp.
Defined.

(** ** Assessments *)

Lemma fold_add_shift (l : list Z) (a : Z) :
  fold_left Z.add l a = (a + fold_left Z.add l 0)%Z.
Proof.
  revert a. induction l as [|x l IH]; intros a; simpl; [lia|].
  rewrite (IH (a + x)%Z), (IH (0 + x)%Z). lia.
Qed.

Lemma sum_cons (x : Z) (l : list Z) :
  AssessmentService.sum (x :: l) = (x + AssessmentService.sum l)%Z.
Proof.
  unfold AssessmentService.sum. simpl. rewrite fold_add_shift. lia.
Qed.

Lemma sum_monotone (answers answers' : list Z) :
  Forall2 Z.le answers answers' ->
  (AssessmentService.sum answers <= AssessmentService.sum answers')%Z.
Proof.
  induction 1 as [|x y l l' Hxy _ IH]; [reflexivity|].
  rewrite !sum_cons. lia.
Qed.

Lemma sum_permutation (answers answers' : list Z) :
  Permutation answers answers' ->
  AssessmentService.sum answers = AssessmentService.sum answers'.
Proof.
  induction 1 as [|x l l' _ IH|x y l|l l' l'' _ IH1 _ IH2].
  - reflexivity.
  - rewrite !sum_cons, IH. reflexivity.
  - rewrite !sum_cons. lia.
  - congruence.
Qed.

Ltac case_bands :=
  repeat match goal with
         | |- context [(?a <? ?b)%Z] => destruct (Z.ltb_spec a b)
         end.

Lemma phq9_severity_monotone (s s' : Z) :
  (s <= s')%Z ->
  (severity_rank (AssessmentService._phq9_severity s)
   <= severity_rank (AssessmentService._phq9_severity s'))%nat.
Proof.
  intros Hs. unfold AssessmentService._phq9_severity.
  case_bands; try lia; vm_compute; lia.
Qed.

Lemma gad7_severity_monotone (s s' : Z) :
  (s <= s')%Z ->
  (severity_rank (AssessmentService._gad7_severity s)
   <= severity_rank (AssessmentService._gad7_severity s'))%nat.
Proof.
  intros Hs. unfold AssessmentService._gad7_severity.
  case_bands; try lia; vm_compute; lia.
Qed.

(** X21. In an assessment, raising answers never lowers the reported
    severity: when each answer of one questionnaire is at most the answer
    at the same place of another, the band reported for the first is at
    most the band reported for the second, for PHQ-9 and for GAD-7. *)
Theorem assessment_severity_monotone (answers answers' : list Z) :
  Forall2 Z.le answers answers' ->
  forall kind, kind = "phq9" \/ kind = "gad7" ->
    exists rank rank',
      reported_rank
        (AssessmentService.process_assessment (ArgStr kind) answers)
      = Some rank
      /\ reported_rank
           (AssessmentService.process_assessment (ArgStr kind) answers')
         = Some rank'
      /\ (rank <= rank')%nat.
Proof.
  intros Hle kind [-> | ->]; eexists _, _;
    (split; [reflexivity|]); (split; [reflexivity|]).
  - apply phq9_severity_monotone, sum_monotone, Hle.
  - apply gad7_severity_monotone, sum_monotone, Hle.
Qed.

Lemma assessment_severity_monotone_witness :
  exists rank rank',
    reported_rank
      (AssessmentService.process_assessment (ArgStr "phq9")
         [1; 1; 0; 2; 1; 0; 1; 1; 0]%Z) = Some rank
    /\ reported_rank
         (AssessmentService.process_assessment (ArgStr "phq9")
            [2; 1; 3; 2; 3; 0; 1; 3; 2]%Z) = Some rank'
    /\ (rank <= rank')%nat.
Proof.
  apply (assessment_severity_monotone [1; 1; 0; 2; 1; 0; 1; 1; 0]%Z
           [2; 1; 3; 2; 3; 0; 1; 3; 2]%Z).
  - repeat constructor; lia.
  - left. reflexivity.
Defined.

(** X22. The result of an assessment does not depend on the order of the
    answers; for PHQ-9 answers between 0 and 3 on its nine items the score
    lies between 0 and 27, and "Severe" is reported exactly from 20 on; for
    a type other than "phq9" and "gad7" the result is the error entry
    alone. *)
Theorem assessment_result (assessment_type : pyarg)
    (answers answers' : list Z) :
  (Permutation answers answers' ->
   AssessmentService.process_assessment assessment_type answers
   = AssessmentService.process_assessment assessment_type answers')
  /\ (List.length answers = 9%nat ->
      Forall (fun x => (0 <= x <= 3)%Z) answers ->
      exists score severity,
        AssessmentService.process_assessment (ArgStr "phq9") answers
        !! "score" = Some (PInt score)
        /\ AssessmentService.process_assessment (ArgStr "phq9") answers
           !! "severity" = Some (PStr severity)
        /\ (0 <= score <= 27)%Z
        /\ (severity = "Severe" <-> (20 <= score)%Z))
  /\ (assessment_type <> ArgStr "phq9" ->
      assessment_type <> ArgStr "gad7" ->
      AssessmentService.process_assessment assessment_type answers
      = {[ "error" := PStr "Unknown assessment type." ]}).
Proof.
  split; [|split].
  - intros Hperm. unfold AssessmentService.process_assessment.
    rewrite (sum_permutation answers answers' Hperm). reflexivity.
  - intros Hlen Hrange.
    exists (AssessmentService.sum answers),
      (AssessmentService._phq9_severity (AssessmentService.sum answers)).
    split; [reflexivity|]. split; [reflexivity|].
    assert (Hb : forall l : list Z,
               Forall (fun x => (0 <= x <= 3)%Z) l ->
               (0 <= AssessmentService.sum l
                <= 3 * Z.of_nat (List.length l))%Z).
    { induction 1 as [|x l Hx _ IH]; [vm_compute; split; discriminate|].
      rewrite sum_cons. simpl List.length. lia. }
    specialize (Hb answers Hrange). rewrite Hlen in Hb.
    split; [lia|].
    unfold AssessmentService._phq9_severity.
    case_bands; split; intros Hx; try discriminate; try lia; reflexivity.
  - intros H1 H2. unfold AssessmentService.process_assessment.
    destruct assessment_type as [s | type_name]; [|reflexivity].
    simpl.
    destruct (String.eqb s "phq9") eqn:E1;
      [apply String.eqb_eq in E1; subst; contradiction|].
    destruct (String.eqb s "gad7") eqn:E2;
      [apply String.eqb_eq in E2; subst; contradiction|].
    reflexivity.
Qed.

Lemma assessment_result_witness :
  AssessmentService.process_assessment (ArgStr "gad7") [3; 1; 2]%Z
  = AssessmentService.process_assessment (ArgStr "gad7") [2; 3; 1]%Z.
Proof.
  apply (proj1 (assessment_result (ArgStr "gad7") [3; 1; 2]%Z [2; 3; 1]%Z)).
  symmetry. apply (Permutation_cons_append [3; 1]%Z 2%Z).
Defined.

(** ** The chat endpoint *)

Lemma detect_crisis_level_empty `{PythonRuntime} :
  lower_on_ascii -> detect_crisis_level "" = "none".
Proof.
  intros Hlower. unfold detect_crisis_level.
  rewrite (Hlower "" eq_refl). reflexivity.
Qed.

Lemma detect_emotional_state_empty `{PythonRuntime} :
  lower_on_ascii -> ChatService._detect_emotional_state "" = NEUTRAL.
Proof.
  intros Hlower. unfold ChatService._detect_emotional_state.
  rewrite (Hlower "" eq_refl). reflexivity.
Qed.

(** X23. The chat endpoint of [app.py].  For a body that is a JSON object
    it never raises, whatever the members are.  A body without "message"
    is processed as the empty message: when the body of [process_message]
    returns, the crisis level is "none", the emotional state "neutral" and
    the approach CBT ([str.lower] lower-casing ASCII text).  For a body
    that is another JSON value the endpoint raises [AttributeError] and
    leaves the service as it was. *)
Theorem chat_endpoint_bodies `{PythonRuntime} (now : Z)
    (post : string -> string -> http_outcome) (self : ChatService.t) :
  (forall members,
      exists response self',
        app.chat_endpoint (BodyObject members) now post self
        = (Ok response, self'))
  /\ (forall members,
        members !! "message" = None ->
        app.chat_endpoint (BodyObject members) now post self
        = ChatService.process_message (ArgStr "")
            (default (ArgOther "NoneType") (members !! "user_id")) now post
            self)
  /\ (lower_on_ascii ->
      forall response self',
        ChatService.process_message_try (ArgStr "") now post self
        = (Ok response, self') ->
        response !! "crisis_level" = Some (PStr "none")
        /\ response !! "emotional_state" = Some (PStr "neutral")
        /\ response !! "therapy_approach"
           = Some (PStr "cognitive_behavioral_therapy")
        /\ response !! "crisis_resources" = None)
  /\ (forall type_name,
        exists e,
          app.chat_endpoint (BodyOther type_name) now post self
          = (Raise e, self)
          /\ exn_cls e = AttributeError).
Proof.
  split; [|split; [|split]].
  - intros members. unfold app.chat_endpoint, app.data_get.
    cbv [ChatService.bind ChatService.lift].
    destruct (members !! "message") as [message|];
      destruct (members !! "user_id") as [uid|];
      match goal with
      | |- context [ChatService.process_message ?m ?u now post self] =>
          pose proof (process_message_cases m u now post self) as Hc;
          destruct (ChatService.process_message_try m now post self)
            as [[response | e] s];
          destruct Hc as [-> _]; eauto
      end.
  - intros members Hnone. unfold app.chat_endpoint, app.data_get.
    cbv [ChatService.bind ChatService.lift]. rewrite Hnone.
    destruct (members !! "user_id"); reflexivity.
  - intros Hlower response self' Hbody.
    pose proof (process_message_cases (ArgStr "") (ArgOther "NoneType") now
                  post self) as Hc.
    rewrite Hbody in Hc.
    destruct Hc as [_ [text [reply [Hm [-> _]]]]].
    injection Hm as <-.
    destruct (response_of_fields "" reply self)
      as [_ [Fe [Fa [Fl [_ Fr]]]]].
    rewrite Fe, Fa, Fl, Fr.
    rewrite (detect_crisis_level_empty Hlower),
      (detect_emotional_state_empty Hlower).
    repeat split.
  - intros type_name. eexists. split; reflexivity.
Qed.

Lemma chat_endpoint_bodies_witness :
  exists response self',
    @ChatService.process_message_try reference_runtime (ArgStr "") 60
      sample_post sample_service
    = (Ok response, self')
    /\ response !! "crisis_level" = Some (PStr "none").
Proof.
  destruct (@ChatService.process_message_try reference_runtime (ArgStr "") 60
              sample_post sample_service)
    as [[response | e] self'] eqn:Hbody.
  - exists response, self'. split; [reflexivity|].
    apply (proj1 (proj2 (proj2 (@chat_endpoint_bodies reference_runtime 60
                                  sample_post sample_service)))
             reference_runtime_lower_on_ascii response self' Hbody).
  - exfalso. rewrite process_message_try_text in Hbody.
    destruct (@prompt_of_returns reference_runtime "" sample_service)
      as [prompt Hprompt].
    rewrite Hprompt, sample_post_replies in Hbody. discriminate Hbody.
Defined.
